(** * pdf_to_ics: the schedule parser and the shift builder

    A shallow embedding of [pdf_to_ics.py]: the time normaliser
    [parse_time], the two field extractors, the line loop of
    [parse_schedule] and the builder [create_shift], together with the
    properties of the written specification that concern them.

    Conventions of the embedding.
    - A Python [str] is a [string]; a character is a code point below 256
      (Latin-1), classified as CPython classifies it.
    - [None] is [None]; a function that swallows its exceptions and returns
      [None] returns an [option].
    - The [print] calls are an observability side channel and are left out.
    - The tz database is taken to contain "Europe/Zurich". *)

From Stdlib Require Import ZArith NArith List String Ascii Bool Lia.
From Stdlib Require Import Decimal DecimalString DecimalPos DecimalN.
From stdpp Require Import base list option strings.

Local Open Scope string_scope.
Local Open Scope list_scope.
Local Open Scope Z_scope.

Set Default Proof Using "Type".

(** ** Characters *)

Module Chars.

Definition code (c : ascii) : N := N_of_ascii c.

Definition between (lo hi n : N) : bool := ((lo <=? n) && (n <=? hi))%N.

(** [str.isspace] on one character, which is also the regular expression
    class [\s] and the set removed by [str.strip()] and [str.split()]. *)
Definition is_space (c : ascii) : bool :=
  let n := code c in
  between 9 13 n || between 28 32 n || (n =? 133)%N || (n =? 160)%N.

(** The white space that [int] accepts around a number: the characters
    below 127 that C's [isspace] accepts, and the Unicode spaces from 127
    on. The separators 28 to 31 are not among them. *)
Definition is_int_space (c : ascii) : bool :=
  let n := code c in
  between 9 13 n || (n =? 32)%N || (n =? 133)%N || (n =? 160)%N.

(** The class [\d]: the decimal digits. Below 256 these are [0-9]. *)
Definition is_digit (c : ascii) : bool := between 48 57 (code c).

(** The class [\w]: [str.isalnum] or the underscore. *)
Definition is_word (c : ascii) : bool :=
  let n := code c in
  between 48 57 n || between 65 90 n || between 97 122 n || (n =? 95)%N
  || (n =? 170)%N || (n =? 178)%N || (n =? 179)%N || (n =? 181)%N
  || (n =? 185)%N || (n =? 186)%N || between 188 190 n
  || between 192 214 n || between 216 246 n || between 248 255 n.

Definition digit_value (c : ascii) : Z := Z.of_N (code c) - 48.

End Chars.

(** ** Strings *)

Module Str.

Fixpoint startswith (p s : string) : bool :=
  match p, s with
  | EmptyString, _ => true
  | String a p', String b s' => Ascii.eqb a b && startswith p' s'
  | String _ _, EmptyString => false
  end.

(** [sub in s] *)
Fixpoint contains (sub s : string) : bool :=
  startswith sub s ||
  match s with
  | EmptyString => false
  | String _ s' => contains sub s'
  end.

Fixpoint lstrip_by (ws : ascii -> bool) (s : string) : string :=
  match s with
  | String c s' => if ws c then lstrip_by ws s' else s
  | EmptyString => EmptyString
  end.

Fixpoint rstrip_by (ws : ascii -> bool) (s : string) : string :=
  match s with
  | String c s' =>
      match rstrip_by ws s' with
      | EmptyString => if ws c then EmptyString else String c EmptyString
      | r => String c r
      end
  | EmptyString => EmptyString
  end.

(** [s] without the characters of [ws] at its two ends. *)
Definition strip_by (ws : ascii -> bool) (s : string) : string :=
  rstrip_by ws (lstrip_by ws s).

(** [s.strip()] *)
Definition strip (s : string) : string := strip_by Chars.is_space s.

(** [s.split(sep)] for a separator of one character: never empty. *)
Fixpoint split_on (sep : ascii) (s : string) : list string :=
  match s with
  | EmptyString => [EmptyString]
  | String c s' =>
      if Ascii.eqb c sep then EmptyString :: split_on sep s'
      else match split_on sep s' with
           | w :: ws => String c w :: ws
           | [] => [String c EmptyString]
           end
  end.

(** [s.split()]: the maximal runs of characters that are not white space. *)
Fixpoint split_ws_aux (s : string) : option string * list string :=
  match s with
  | EmptyString => (None, [])
  | String c s' =>
      let '(cur, ws) := split_ws_aux s' in
      if Chars.is_space c then
        (None, match cur with Some w => w :: ws | None => ws end)
      else
        (Some (String c (default EmptyString cur)), ws)
  end.

Definition split_ws (s : string) : list string :=
  let '(cur, ws) := split_ws_aux s in
  match cur with Some w => w :: ws | None => ws end.

(** [l[i:j]] *)
Definition slice {A} (i j : nat) (l : list A) : list A := take (j - i) (drop i l).

(** [x in l] for a list of strings *)
Definition mem (x : string) (l : list string) : bool :=
  existsb (String.eqb x) l.

(** [s[:n]] *)
Fixpoint take_str (n : nat) (s : string) : string :=
  match n, s with
  | S n', String c s' => String c (take_str n' s')
  | _, _ => EmptyString
  end.

Definition is_empty (s : string) : bool :=
  match s with EmptyString => true | _ => false end.

End Str.

(** ** Integers as Python reads and prints them *)

Module PyInt.

(** The digits of [int(s)] after the sign: decimal digits, where one
    underscore may stand between two digits. [ok] tells whether the
    previous character was a digit. *)
Fixpoint digits (s : string) (acc : Z) (ok : bool) : option Z :=
  match s with
  | EmptyString => if ok then Some acc else None
  | String c s' =>
      if Chars.is_digit c then digits s' (10 * acc + Chars.digit_value c) true
      else if Ascii.eqb c "_" && ok then digits s' acc false
      else None
  end.

(** The limit of the interpreter on the number of digits of an integer
    text, [sys.get_int_max_str_digits()], at its default. *)
Definition max_str_digits : Z := 4300.

(** The number of digits of a text: every digit counts, leading zeros
    too, and underscores do not. *)
Fixpoint count_digits (s : string) : Z :=
  match s with
  | EmptyString => 0
  | String c s' => (if Chars.is_digit c then 1 else 0) + count_digits s'
  end.

(** The digits of a literal, within the limit. *)
Definition limited (r : string) : option Z :=
  if count_digits r <=? max_str_digits then digits r 0 false else None.

(** [int(s)] in base ten: surrounding white space, an optional sign, the
    digits. [None] stands for the [ValueError], that of a text that is no
    integer literal and that of a literal with more digits than the
    limit. *)
Definition py_int (s : string) : option Z :=
  match Str.strip_by Chars.is_int_space s with
  | String "-" r => Z.opp <$> limited r
  | String "+" r => limited r
  | r => limited r
  end.

(** [str(n)] for [0 <= n] *)
Definition decimal (n : Z) : string :=
  DecimalString.NilZero.string_of_uint (N.to_uint (Z.to_N n)).

(** [f"{n:02d}"]: the sign counts in the width of two. The numbers that
    the program formats come from [int] and so have no more digits than
    the limit, under which the conversion to text never raises. *)
Definition format_02d (n : Z) : string :=
  if n <? 0 then "-" +:+ decimal (- n)
  else let d := decimal n in
       if (String.length d <? 2)%nat then "0" +:+ d else d.

End PyInt.

(** ** The time normaliser *)

(** [parse_time]: the bare [except] turns every exception into [None]; the
    unpacking [hours, minutes = ...] raises unless there are exactly two
    parts, and [int] raises on a part that is not an integer. *)
Definition parse_time (time_str : string) : option string :=
  if negb (Str.contains ":" time_str) then None
  else
    match map PyInt.py_int (Str.split_on ":" (Str.strip time_str)) with
    | [Some hours; Some minutes] =>
        Some (PyInt.format_02d hours +:+ ":" +:+ PyInt.format_02d minutes)
    | _ => None
    end.

(** ** Regular expressions

    The fragment of Python's [re] that the program and [strptime] use:
    character classes, greedy bounded repetition of a class, sequence,
    ordered alternative and capturing groups. The matcher backtracks in
    the order of [re]: a repetition first takes as many characters as it
    can, an alternative first tries its left branch. *)

Module Re.

Inductive cls : Type :=
  | Digit                      (* \d *)
  | Word                       (* \w *)
  | Space                      (* \s *)
  | Chr (c : ascii)            (* a literal character *)
  | Range (lo hi : ascii).     (* [lo-hi] *)

Definition cls_mem (p : cls) (c : ascii) : bool :=
  match p with
  | Digit => Chars.is_digit c
  | Word => Chars.is_word c
  | Space => Chars.is_space c
  | Chr a => Ascii.eqb a c
  | Range lo hi => Chars.between (Chars.code lo) (Chars.code hi) (Chars.code c)
  end.

Inductive regex : Type :=
  | Eps
  | One (p : cls)
  | Rep (p : cls) (lo : nat) (hi : option nat)   (* p{lo,hi}, p+ is p{1,} *)
  | Seq (r1 r2 : regex)
  | Alt (r1 r2 : regex)
  | Grp (r : regex).

Fixpoint lit (s : string) : regex :=
  match s with
  | EmptyString => Eps
  | String c s' => Seq (One (Chr c)) (lit s')
  end.

Definition cat (rs : list regex) : regex := foldr Seq Eps rs.

Definition alt (r : regex) (rs : list regex) : regex := foldl Alt r rs.

Definition plus (p : cls) : regex := Rep p 1 None.

Definition upto (p : cls) (lo hi : nat) : regex := Rep p lo (Some hi).

(** Whether [hi] allows one more repetition, and the bound that remains. *)
Definition more (hi : option nat) : bool :=
  match hi with Some O => false | _ => true end.

Definition less (hi : option nat) : option nat := Nat.pred <$> hi.

(** The text between two positions of a subject, the second given by what
    is left of it. *)
Definition consumed (s rest : string) : string :=
  Str.take_str (String.length s - String.length rest) s.

Section Matcher.
Context {A : Type}.

Fixpoint rep (p : cls) (lo : nat) (hi : option nat) (s : string)
    (k : string -> option A) : option A :=
  let stop := if Nat.eqb lo 0 then k s else None in
  match s with
  | String c s' =>
      if cls_mem p c && more hi then
        match rep p (Nat.pred lo) (less hi) s' k with
        | Some x => Some x
        | None => stop
        end
      else stop
  | EmptyString => stop
  end.

Fixpoint rmatch (r : regex) (s : string) (caps : list string)
    (k : string -> list string -> option A) : option A :=
  match r with
  | Eps => k s caps
  | One p =>
      match s with
      | String c s' => if cls_mem p c then k s' caps else None
      | EmptyString => None
      end
  | Rep p lo hi => rep p lo hi s (fun s' => k s' caps)
  | Seq r1 r2 => rmatch r1 s caps (fun s1 caps1 => rmatch r2 s1 caps1 k)
  | Alt r1 r2 =>
      match rmatch r1 s caps k with
      | Some x => Some x
      | None => rmatch r2 s caps k
      end
  | Grp r1 => rmatch r1 s caps (fun s' caps' => k s' (caps' ++ [consumed s s']))
  end.
End Matcher.

(** [re.match(r, s)]: the groups and what is left of [s] after the match. *)
Definition exec (r : regex) (s : string) : option (list string * string) :=
  rmatch r s [] (fun s' caps => Some (caps, s')).

(** [re.search(r, s)]: the leftmost position at which [r] matches. *)
Fixpoint search (r : regex) (s : string) : option (list string * string) :=
  match exec r s with
  | Some m => Some m
  | None =>
      match s with
      | String _ s' => search r s'
      | EmptyString => None
      end
  end.

(** [re.finditer(r, s)] for an [r] that matches no empty string: the
    matches from left to right, each search resuming where the previous
    match ended. [skip] counts the characters of the previous match that
    are still to be passed. *)
Fixpoint finditer_from (r : regex) (s : string) (skip : nat) : list (list string) :=
  match s with
  | EmptyString => []
  | String _ s' =>
      match skip with
      | S n => finditer_from r s' n
      | O =>
          match exec r s with
          | Some (caps, rest) =>
              caps :: finditer_from r s' (String.length s - String.length rest - 1)
          | None => finditer_from r s' 0
          end
      end
  end.

Definition finditer (r : regex) (s : string) : list (list string) :=
  finditer_from r s 0.

(** [match.group(n)] for [1 <= n] *)
Definition group (n : nat) (caps : list string) : string :=
  nth (n - 1) caps EmptyString.

End Re.

(** ** The field extractors *)

Import Re.

(** [\d{1,2}:\d{2}] *)
Definition time_re : regex :=
  cat [upto Digit 1 2; One (Chr ":"); upto Digit 2 2].

(** [(?:BO|DP|DPO)\s+(\d{1,2}:\d{2})\s+\d{1,2}:\d{2}\s+\w+\s+(\d+)\s+\d+\s+-\s+\d+\s+(\w+)] *)
Definition first_shift_pattern : regex :=
  cat [alt (lit "BO") [lit "DP"; lit "DPO"]; plus Space;
       Grp time_re; plus Space; time_re; plus Space;
       plus Word; plus Space; Grp (plus Digit); plus Space;
       plus Digit; plus Space; One (Chr "-"); plus Space;
       plus Digit; plus Space; Grp (plus Word)].

(** [(\d+)\s+(\d+)\s+-\s+(\d+)\s+(\w+)\s+(\d{1,2}:\d{2})\s+(\d{1,2}:\d{2})\s+(\w+)] *)
Definition shift_pattern : regex :=
  cat [Grp (plus Digit); plus Space; Grp (plus Digit); plus Space;
       One (Chr "-"); plus Space; Grp (plus Digit); plus Space;
       Grp (plus Word); plus Space; Grp time_re; plus Space;
       Grp time_re; plus Space; Grp (plus Word)].

(** [9387\s+\w+\.\s+(\d{2}/\d{2}/\d{4})] *)
Definition date_pattern : regex :=
  cat [lit "9387"; plus Space; plus Word; One (Chr "."); plus Space;
       Grp (cat [upto Digit 2 2; One (Chr "/"); upto Digit 2 2;
                 One (Chr "/"); upto Digit 4 4])].

(** The dictionary that [extract_first_shift_time] returns. *)
Record first_shift : Type := FirstShift {
  fs_ldebpce : string;
  fs_start_time : option string
}.

(** The dictionary that [extract_shifts_info] appends for one match. *)
Record shift_info : Type := ShiftInfo {
  ligne : string;
  ldebpce : string;
  lfinpce : string;
  start_time : option string;
  end_time : option string;
  full_line : string
}.

(** [extract_first_shift_time]: nothing in the body raises, so its
    [except] branch is never taken. *)
Definition extract_first_shift_time (line : string) : option first_shift :=
  match search first_shift_pattern line with
  | Some (caps, _) =>
      Some {| fs_ldebpce := group 3 caps;
              fs_start_time := parse_time (group 1 caps) |}
  | None => None
  end.

Definition shift_of_match (line : string) (caps : list string) : shift_info :=
  {| ligne := group 1 caps;
     ldebpce := group 4 caps;
     lfinpce := group 7 caps;
     start_time := parse_time (group 5 caps);
     end_time := parse_time (group 6 caps);
     full_line := line |}.

(** [extract_shifts_info]: one dictionary for each match, in order. *)
Definition extract_shifts_info (line : string) : list shift_info :=
  map (shift_of_match line) (finditer shift_pattern line).

(** ** Dates and times

    A [datetime] holds the wall-clock fields; seconds and microseconds are
    always zero here and the zone is always the one [ZoneInfo] object, so
    neither is stored. For two aware datetimes that share their [tzinfo]
    object, Python compares and subtracts the wall-clock fields and makes
    no zone adjustment: [dt_lt] and [minutes_between] are those two
    operations. *)

Module DT.

Record datetime : Type := DateTime {
  year : Z; month : Z; day : Z; hour : Z; minute : Z
}.

Record date : Type := Date { d_year : Z; d_month : Z; d_day : Z }.

Definition date_of (t : datetime) : date :=
  {| d_year := year t; d_month := month t; d_day := day t |}.

Definition is_leap (y : Z) : bool :=
  (y mod 4 =? 0) && (negb (y mod 100 =? 0) || (y mod 400 =? 0)).

Definition days_in_month (y m : Z) : Z :=
  if m =? 2 then (if is_leap y then 29 else 28)
  else if (m =? 4) || (m =? 6) || (m =? 9) || (m =? 11) then 30
  else 31.

Definition days_before_year (y : Z) : Z :=
  let y := y - 1 in y * 365 + y / 4 - y / 100 + y / 400.

Definition days_before_month (y m : Z) : Z :=
  foldr Z.add 0 (map (days_in_month y) (map Z.of_nat (List.seq 1 (Z.to_nat (m - 1))))).

(** [date.toordinal()] *)
Definition ymd2ord (y m d : Z) : Z :=
  days_before_year y + days_before_month y m + d.

Definition toordinal (t : datetime) : Z := ymd2ord (year t) (month t) (day t).

Definition MINYEAR : Z := 1.
Definition MAXYEAR : Z := 9999.

(** What the [date] constructor accepts. *)
Definition valid_date (y m d : Z) : bool :=
  (MINYEAR <=? y) && (y <=? MAXYEAR) && (1 <=? m) && (m <=? 12)
  && (1 <=? d) && (d <=? days_in_month y m).

(** [a < b] on the tuples of fields *)
Definition dt_lt (a b : datetime) : bool :=
  if negb (year a =? year b) then year a <? year b
  else if negb (month a =? month b) then month a <? month b
  else if negb (day a =? day b) then day a <? day b
  else if negb (hour a =? hour b) then hour a <? hour b
  else minute a <? minute b.

(** [t + timedelta(days=1)]: the fields of the next ordinal; past the last
    day of [MAXYEAR] the addition raises [OverflowError]. *)
Definition add_one_day (t : datetime) : option datetime :=
  if day t <? days_in_month (year t) (month t) then
    Some {| year := year t; month := month t; day := day t + 1;
            hour := hour t; minute := minute t |}
  else if month t <? 12 then
    Some {| year := year t; month := month t + 1; day := 1;
            hour := hour t; minute := minute t |}
  else if year t <? MAXYEAR then
    Some {| year := year t + 1; month := 1; day := 1;
            hour := hour t; minute := minute t |}
  else None.

(** [(a - b)] in minutes *)
Definition minutes_between (a b : datetime) : Z :=
  (toordinal a - toordinal b) * 1440
  + (hour a * 60 + minute a) - (hour b * 60 + minute b).

(** The regular expression that [strptime] builds from
    ['%d/%m/%Y %H:%M']. *)
Definition digit_range (lo hi : ascii) : regex := One (Range lo hi).

Definition directive_d : regex :=
  alt (cat [lit "3"; digit_range "0" "1"])
      [cat [digit_range "1" "2"; One Digit];
       cat [lit "0"; digit_range "1" "9"];
       digit_range "1" "9";
       cat [lit " "; digit_range "1" "9"]].

Definition directive_m : regex :=
  alt (cat [lit "1"; digit_range "0" "2"])
      [cat [lit "0"; digit_range "1" "9"]; digit_range "1" "9"].

Definition directive_Y : regex := cat [One Digit; One Digit; One Digit; One Digit].

Definition directive_H : regex :=
  alt (cat [lit "2"; digit_range "0" "3"])
      [cat [digit_range "0" "1"; One Digit]; One Digit].

Definition directive_M : regex :=
  alt (cat [digit_range "0" "5"; One Digit]) [One Digit].

Definition format_regex : regex :=
  cat [Grp directive_d; lit "/"; Grp directive_m; lit "/"; Grp directive_Y;
       plus Space; Grp directive_H; lit ":"; Grp directive_M].

(** [datetime.strptime(data, '%d/%m/%Y %H:%M')]; [None] is the
    [ValueError]: no match, unconverted data, or a date that does not
    exist. *)
Definition strptime (data : string) : option datetime :=
  match exec format_regex data with
  | Some (caps, rest) =>
      if Str.is_empty rest then
        d ← PyInt.py_int (group 1 caps);
        m ← PyInt.py_int (group 2 caps);
        y ← PyInt.py_int (group 3 caps);
        H ← PyInt.py_int (group 4 caps);
        M ← PyInt.py_int (group 5 caps);
        if valid_date y m d
        then Some {| year := y; month := m; day := d; hour := H; minute := M |}
        else None
      else None
  | None => None
  end.

(** [f"{minutes * 60 / 3600:.2f}"]. The quotient is [minutes / 60], and a
    hundred times that is [5 * minutes / 3], which never lies halfway
    between two integers and is at least a sixth away from any such
    point; the binary rounding of the division is far smaller, so the two
    printed decimals are those of the exact quotient rounded to the
    nearest hundredth. *)
Definition format_hours (minutes : Z) : string :=
  let a := Z.abs minutes in
  let cents := (10 * a + 3) / 6 in
  (if minutes <? 0 then "-" else "")
  +:+ PyInt.decimal (cents / 100) +:+ "."
  +:+ PyInt.decimal (cents mod 100 / 10) +:+ PyInt.decimal (cents mod 10).

End DT.

Import DT.

(** ** The shift builder *)

(** The dictionary that [create_shift] returns. *)
Record shift : Type := Shift {
  s_date : date;
  s_start : datetime;
  s_end : datetime;
  s_ligne : string;
  s_ldebpce : string;
  s_lfinpce : string;
  s_duration : string;
  s_details : string
}.

(** How an f-string prints a value that is a string or [None]. *)
Definition fstr (v : option string) : string := default "None" v.

(** [create_shift]: every exception of the body is caught and gives
    [None]. *)
Definition create_shift (date_str : string) (shift_info : shift_info) : option shift :=
  start_dt ← strptime (date_str +:+ " " +:+ fstr (start_time shift_info));
  end_dt ← strptime (date_str +:+ " " +:+ fstr (end_time shift_info));
  end_dt ← (if dt_lt end_dt start_dt then add_one_day end_dt else Some end_dt);
  let duration := minutes_between end_dt start_dt in
  Some {| s_date := date_of start_dt;
          s_start := start_dt;
          s_end := end_dt;
          s_ligne := ligne shift_info;
          s_ldebpce := ldebpce shift_info;
          s_lfinpce := lfinpce shift_info;
          s_duration := format_hours duration +:+ "h";
          s_details := full_line shift_info |}.

(** ** The schedule parser *)

(** The three variables that the line loop of [parse_schedule] updates. *)
Record parser : Type := Parser {
  current_date : option string;
  first_shift_time : option first_shift;
  shifts : list shift
}.

Definition initial : parser :=
  {| current_date := None; first_shift_time := None; shifts := [] |}.

(** Equality of two such dictionaries, as [==] decides it. *)
#[global] Instance shift_info_eq_dec : EqDecision shift_info.
Proof. solve_decision. Defined.

(** [l.index(x)]: the first position whose dictionary equals [x]. *)
Definition index (l : list shift_info) (x : shift_info) : option nat :=
  fst <$> list_find (λ y, y = x) l.

(** The two assignments [shift_info['ldebpce'] = ...] and
    [shift_info['start_time'] = ...]. *)
Definition carry (f : first_shift) (x : shift_info) : shift_info :=
  {| ligne := ligne x;
     ldebpce := fs_ldebpce f;
     lfinpce := lfinpce x;
     start_time := fs_start_time f;
     end_time := end_time x;
     full_line := full_line x |}.

(** The state of one [for shift_info in second_shifts] loop: the list,
    whose dictionaries the body mutates in place, the pending fragment and
    the output list. *)
Definition loop_state : Type := list shift_info * option first_shift * list shift.

(** One iteration, at position [i] of the list. *)
Definition loop_body (date : string) (st : loop_state) (i : nat) : loop_state :=
  let '(second_shifts, pending, out) := st in
  match second_shifts !! i with
  | None => st
  | Some shift_info =>
      let '(second_shifts, pending) :=
        match pending with
        | Some f =>
            if bool_decide (index second_shifts shift_info = Some 0%nat)
            then (<[i := carry f shift_info]> second_shifts, None)
            else (second_shifts, pending)
        | None => (second_shifts, pending)
        end in
      match second_shifts !! i ≫= create_shift date with
      | Some shift => (second_shifts, pending, out ++ [shift])
      | None => (second_shifts, pending, out)
      end
  end.

(** The whole loop: the list keeps its length, so the positions visited
    are 0 up to its length. *)
Definition for_shifts (date : string) (second_shifts : list shift_info)
    (pending : option first_shift) (out : list shift) : loop_state :=
  foldl (loop_body date) (second_shifts, pending, out)
        (List.seq 0 (length second_shifts)).

(** [any(x in line for x in ['tl Jour', 'HASTUS', 'Division:', 'Page:'])] *)
Definition is_header (line : string) : bool :=
  existsb (λ x, Str.contains x line) ["tl Jour"; "HASTUS"; "Division:"; "Page:"].

(** [re.search(r'9387\s+\w+\.\s+(\d{2}/\d{2}/\d{4})', line)], group 1 *)
Definition date_match (line : string) : option string :=
  (λ m, group 1 (fst m)) <$> search date_pattern line.

(** [any(x in line.split()[3:5] for x in ['R', 'C', 'VAP', 'X'])] *)
Definition is_rest_day (line : string) : bool :=
  existsb (λ x, Str.mem x (Str.slice 3 5 (Str.split_ws line))) ["R"; "C"; "VAP"; "X"].

(** [if current_date]: [None] and the empty string are false. *)
Definition truthy (v : option string) : bool :=
  match v with
  | Some s => negb (Str.is_empty s)
  | None => false
  end.

(** From [second_shifts = extract_shifts_info(line)] to the end of the
    loop over it, with [date] the current date. *)
Definition run_loop (date : string) (line : string)
    (pending : option first_shift) (out : list shift) : parser :=
  let '(_, pending, out) := for_shifts date (extract_shifts_info line) pending out in
  {| current_date := Some date; first_shift_time := pending; shifts := out |}.

(** The body of [for line in lines]. *)
Definition step (st : parser) (line : string) : parser :=
  if is_header line then st
  else if Str.startswith "9387" line then
    match date_match line with
    | Some date =>
        if is_rest_day line then
          {| current_date := Some date;
             first_shift_time := first_shift_time st;
             shifts := shifts st |}
        else
          run_loop date line (extract_first_shift_time line) (shifts st)
    | None => st
    end
  else if truthy (current_date st) && Str.contains "-" line then
    match current_date st with
    | Some date => run_loop date line (first_shift_time st) (shifts st)
    | None => st
    end
  else st.

(** [[line.strip() for line in text.split('\n') if line.strip()]] *)
Definition lines_of (text : string) : list string :=
  filter (λ l, l ≠ EmptyString) (map Str.strip (Str.split_on "010" text)).

Definition run (lines : list string) (st : parser) : parser :=
  foldl step st lines.

Definition parse_schedule (text : string) : list shift :=
  shifts (run (lines_of text) initial).

(** ** Vocabulary of the specification *)

(** *** What a regular expression matches

    [matches r w caps]: [r] matches exactly the text [w], and its groups,
    in the order in which they close, captured [caps]. *)

Fixpoint str_all (f : ascii -> bool) (s : string) : bool :=
  match s with
  | EmptyString => true
  | String c s' => f c && str_all f s'
  end.

Definition within (hi : option nat) (n : nat) : Prop :=
  match hi with
  | Some h => (n <= h)%nat
  | None => True
  end.

Inductive matches : regex -> string -> list string -> Prop :=
  | M_eps : matches Eps EmptyString []
  | M_one p c : cls_mem p c = true -> matches (One p) (String c EmptyString) []
  | M_rep p lo hi w :
      str_all (cls_mem p) w = true -> (lo <= String.length w)%nat ->
      within hi (String.length w) -> matches (Rep p lo hi) w []
  | M_seq r1 r2 w1 w2 c1 c2 :
      matches r1 w1 c1 -> matches r2 w2 c2 ->
      matches (Seq r1 r2) (w1 +:+ w2) (c1 ++ c2)
  | M_alt_l r1 r2 w c : matches r1 w c -> matches (Alt r1 r2) w c
  | M_alt_r r1 r2 w c : matches r2 w c -> matches (Alt r1 r2) w c
  | M_grp r w c : matches r w c -> matches (Grp r) w (c ++ [w]).

(** *** Tokens *)

(** A token "H:MM" or "HH:MM". *)
Definition valid_time_token (t : string) : bool :=
  match t with
  | String h (String c (String m1 (String m2 EmptyString))) =>
      Chars.is_digit h && Ascii.eqb c ":"
      && Chars.is_digit m1 && Chars.is_digit m2
  | String h1 (String h2 (String c (String m1 (String m2 EmptyString)))) =>
      Chars.is_digit h1 && Chars.is_digit h2 && Ascii.eqb c ":"
      && Chars.is_digit m1 && Chars.is_digit m2
  | _ => false
  end.

(** A token "H:MM" or "HH:MM" with its hour padded with a zero to two
    digits. *)
Definition padded (t : string) : string :=
  if (String.length t <? 5)%nat then "0" +:+ t else t.

(** A canonical "HH:MM": two digits, a colon, two digits. *)
Definition canonical_time (s : string) : bool :=
  match s with
  | String h1 (String h2 (String c (String m1 (String m2 EmptyString)))) =>
      Chars.is_digit h1 && Chars.is_digit h2 && Ascii.eqb c ":"
      && Chars.is_digit m1 && Chars.is_digit m2
  | _ => false
  end.

(** Each side of the colon has at least two characters. *)
Definition zero_padded (s : string) : bool :=
  match Str.split_on ":" s with
  | [h; m] => (2 <=? String.length h)%nat && (2 <=? String.length m)%nat
  | _ => false
  end.

(** A date text "DD/MM/YYYY": what group 1 of the date pattern holds. *)
Definition date_form (d : string) : bool :=
  match d with
  | String d1 (String d2 (String s1 (String m1 (String m2 (String s2
      (String y1 (String y2 (String y3 (String y4 EmptyString))))))))) =>
      forallb Chars.is_digit [d1; d2; m1; m2; y1; y2; y3; y4]
      && Ascii.eqb s1 "/" && Ascii.eqb s2 "/"
  | _ => false
  end.

(** The number that a text of digits denotes, zero for any other text. *)
Definition number (s : string) : Z := default 0 (PyInt.digits s 0 false).

(** The calendar date that a text "DD/MM/YYYY" names. *)
Definition date_of_text (d : string) : date :=
  match d with
  | String d1 (String d2 (String _ (String m1 (String m2 (String _ y))))) =>
      {| d_year := number y;
         d_month := number (String m1 (String m2 EmptyString));
         d_day := number (String d1 (String d2 EmptyString)) |}
  | _ => {| d_year := 0; d_month := 0; d_day := 0 |}
  end.

(** One or two characters: a digit, or a digit or space and then a digit.
    Every directive of the format but the year matches such a text. *)
Definition short_number (w : string) : Prop :=
  (∃ a, w = String a EmptyString ∧ Chars.is_digit a = true)
  ∨ (∃ a b, w = String a (String b EmptyString)
            ∧ (Chars.is_digit a = true ∨ a = " "%char) ∧ Chars.is_digit b = true).

(** The characters of a printed integer: digits and the minus sign. *)
Definition is_sign_or_digit (c : ascii) : bool :=
  Chars.is_digit c || Ascii.eqb c "-".

(** [sep not in s] *)
Definition no_char (sep : ascii) (s : string) : bool :=
  str_all (λ c, negb (Ascii.eqb c sep)) s.

(** *** Durations *)

(** The number of hundredths of an hour that a stored duration text
    "[-]I.FFh" denotes. *)
Definition read_hundredths (s : string) : option Z :=
  let '(sign, body) :=
    match s with
    | String c r => if Ascii.eqb c "-" then (-1, r) else (1, s)
    | EmptyString => (1, s)
    end in
  match Str.split_on "." body with
  | [i; String a (String b (String h EmptyString))] =>
      if Chars.is_digit a && Chars.is_digit b && Ascii.eqb h "h" then
        (λ n, sign * (100 * n + 10 * Chars.digit_value a + Chars.digit_value b))
          <$> PyInt.digits i 0 false
      else None
  | _ => None
  end.

(** Two datetimes at the same time of day. *)
Definition same_time_of_day (a b : datetime) : Prop :=
  hour a = hour b ∧ minute a = minute b.

(** *** The carry-over, as the specification words it *)

(** The groups as they reach the builder: a pending fragment replaces the
    origin and the start time of the first group and of no other. *)
Definition apply_carry (pending : option first_shift) (groups : list shift_info)
    : list shift_info :=
  match pending, groups with
  | Some f, g :: rest => carry f g :: rest
  | _, _ => groups
  end.

(** The pending slot after these groups: used up by the first of them. *)
Definition pending_after (pending : option first_shift) (groups : list shift_info)
    : option first_shift :=
  match groups with
  | [] => pending
  | _ :: _ => None
  end.

(** A line that sets the current date. *)
Definition sets_date (line : string) : bool :=
  negb (is_header line) && Str.startswith "9387" line
  && bool_decide (is_Some (date_match line)).

(** The general matches of a line that does not set the date, processed
    while a date is current. *)
Definition continuation_groups (line : string) : list shift_info :=
  if is_header line then []
  else if Str.startswith "9387" line then []
  else if Str.contains "-" line then extract_shifts_info line
  else [].

(** The date and the groups that [step] hands to [create_shift] on one
    line, in the order of the calls. *)
Definition handed (st : parser) (line : string) : list (string * shift_info) :=
  if is_header line then []
  else if Str.startswith "9387" line then
    match date_match line with
    | Some date =>
        if is_rest_day line then []
        else (λ g, (date, g)) <$>
               apply_carry (extract_first_shift_time line) (extract_shifts_info line)
    | None => []
    end
  else if truthy (current_date st) && Str.contains "-" line then
    match current_date st with
    | Some date =>
        (λ g, (date, g)) <$>
          apply_carry (first_shift_time st) (extract_shifts_info line)
    | None => []
    end
  else [].

(** The same over a sequence of lines, each in the state that the lines
    before it leave. *)
Fixpoint handed_all (st : parser) (lines : list string) : list (string * shift_info) :=
  match lines with
  | [] => []
  | line :: rest => handed st line ++ handed_all (step st line) rest
  end.

Definition build (dg : string * shift_info) : option shift :=
  create_shift dg.1 dg.2.

(** The current date, once set, is a text "DD/MM/YYYY". *)
Definition date_ok (st : parser) : Prop :=
  ∀ d, current_date st = Some d -> date_form d = true.

(** The line separator of the input text. *)
Definition nl : string := String "010" EmptyString.

(** ** Further vocabulary

    What the properties of the second half of the development speak of:
    the calendar, the reader and the conversion, which complete the
    embedding of the program, and the notions in which their properties
    and those of the parser are stated. *)

From Stdlib Require Import Sorting.Sorted.

(** *** Texts of one class *)

(** A text that is not empty and whose characters all satisfy [f]. *)
Definition text_of (f : ascii -> bool) (s : string) : bool :=
  negb (Str.is_empty s) && str_all f s.

(** *** The day of a record's end *)

(** The time of day of a datetime, in minutes after midnight. *)
Definition time_of_day (t : datetime) : Z := hour t * 60 + minute t.

(** *** The date in force *)

(** The date that a line sets, if it sets one. *)
Definition date_set_by (line : string) : option string :=
  if sets_date line then date_match line else None.

(** The date in force after some lines, [cur] being the one in force
    before them: that of the last line that sets one. *)
Definition date_after (cur : option string) (lines : list string) : option string :=
  foldl (λ cur l, from_option Some cur (date_set_by l)) cur lines.

(** A pending fragment is one that [extract_first_shift_time] returned
    for some line. *)
Definition pending_ok (st : parser) : Prop :=
  ∀ f, first_shift_time st = Some f -> ∃ l, extract_first_shift_time l = Some f.

(** The fields of a group as X1 describes them. *)
Definition group_ok (g : shift_info) : Prop :=
  text_of Chars.is_digit (ligne g) = true
  ∧ text_of Chars.is_word (ldebpce g) = true
  ∧ text_of Chars.is_word (lfinpce g) = true
  ∧ (∃ s, start_time g = Some s ∧ canonical_time s = true)
  ∧ (∃ e, end_time g = Some e ∧ canonical_time e = true).

(** *** The lines that count *)

(** A line that [step] looks at: no header or footer line, and either a
    line with the record prefix or one that contains a "-". *)
Definition relevant (line : string) : bool :=
  negb (is_header line)
  && (Str.startswith "9387" line || Str.contains "-" line).

(** ** The calendar

    [Calendar] and [Event] belong to the [ics] library, which is not part
    of the program: the embedding follows [create_calendar] up to the
    values that it assigns to the fields of each event and the order in
    which it adds the events, and it keeps the one check of the library
    that these values can fail: the setter of [event.end] raises a
    [ValueError] when the end is before the begin set just before it.
    The text that [str(cal)] gives is outside the embedding. *)

(** The fields that [create_calendar] assigns to an [Event]. *)
Record event : Type := Event {
  e_name : string;
  e_begin : datetime;
  e_end : datetime;
  e_location : string;
  e_description : string
}.

#[global] Instance datetime_eq_dec : EqDecision datetime.
Proof. solve_decision. Defined.

(** [shifts.sort(key=lambda x: x['start'])]: the sort is stable and
    compares the keys with [<], which for the starts of the records, all
    in the one zone object, is [dt_lt]. The records are inserted from the
    last to the first, each before the first record that does not start
    before it. *)
Fixpoint insert_by_start (x : shift) (l : list shift) : list shift :=
  match l with
  | [] => [x]
  | y :: l' =>
      if dt_lt (s_start y) (s_start x) then y :: insert_by_start x l'
      else x :: y :: l'
  end.

Definition sort_by_start (l : list shift) : list shift :=
  foldr insert_by_start [] l.

(** No record of the list starts before one that precedes it. *)
Definition starts_in_order (l : list shift) : Prop :=
  StronglySorted (λ a b, dt_lt (s_start b) (s_start a) = false) l.

(** No event of the list begins before one that precedes it. *)
Definition begins_in_order (l : list event) : Prop :=
  StronglySorted (λ a b, dt_lt (e_begin b) (e_begin a) = false) l.

(** The fields of the event of a record, as the body of
    [for shift in shifts] assigns them. *)
Definition event_of (shift : shift) : event :=
  {| e_name := "Ligne " +:+ s_ligne shift +:+ " | " +:+ s_ldebpce shift
               +:+ " -> " +:+ s_lfinpce shift;
     e_begin := s_start shift;
     e_end := s_end shift;
     e_location := s_ldebpce shift +:+ " -> " +:+ s_lfinpce shift;
     e_description :=
       "Work shift details:" +:+ nl
       +:+ "Duration: " +:+ s_duration shift +:+ nl
       +:+ "Ligne: " +:+ s_ligne shift +:+ nl
       +:+ "From: " +:+ s_ldebpce shift +:+ nl
       +:+ "To: " +:+ s_lfinpce shift +:+ nl
       +:+ "Full details: " +:+ s_details shift |}.

(** The body of [for shift in shifts] up to [cal.events.add(event)]:
    [None] is the [ValueError] of [event.end = shift['end']] for a record
    that ends before it starts, in the order in which the two datetimes
    compare. *)
Definition new_event (shift : shift) : option event :=
  if dt_lt (s_end shift) (s_start shift) then None else Some (event_of shift).

(** [create_calendar]: the list of the caller as the sort leaves it, and
    the events in the order in which they are added, or [None] if making
    one of them raises: the function catches nothing, and the sort is
    done by then. *)
Definition create_calendar (shifts : list shift) : list shift * option (list event) :=
  let shifts := sort_by_start shifts in
  (shifts, mapM new_event shifts).

(** ** Reading and converting *)

(** [read_pdf]. The argument is what the reader finds at [pdf_path]:
    [None] if opening or parsing the file raises; otherwise, for each
    page, the text that [extract_text] returns, or [None] if it raises.
    Any exception gives [None]. *)
Definition read_pdf (file : option (list (option string))) : option string :=
  pages ← file;
  foldl (λ text page, t ← text; p ← page; Some (t +:+ (p +:+ nl))) (Some "") pages.

(** What a call of [convert_pdf_to_ics] does: it returns a count, having
    written the calendar or not, or it raises on the way. *)
Inductive conversion : Type :=
  | Returns (count : nat) (written : option (list event))
  | Raises.

(** [convert_pdf_to_ics]. Nothing catches an exception of
    [create_calendar] or of the writing. [can_write] tells whether
    [str(cal)], the opening of the output file and the writing to it go
    through. The calendar written stands for its text. The length
    returned is that of the list that [create_calendar] sorted in
    place. *)
Definition convert_pdf_to_ics (file : option (list (option string))) (can_write : bool)
    : conversion :=
  match read_pdf file with
  | None => Returns 0 None
  | Some text =>
      if Str.is_empty text then Returns 0 None
      else
        match parse_schedule text with
        | [] => Returns 0 None
        | shifts =>
            match create_calendar shifts with
            | (shifts, Some cal) =>
                if can_write then Returns (length shifts) (Some cal) else Raises
            | (_, None) => Raises
            end
        end
  end.

(** The text of a document whose pages have the texts [pages]. *)
Definition document (pages : list string) : string :=
  foldr (λ p text, p +:+ nl +:+ text) "" pages.

(** *** When the builder succeeds *)

(** The hour and the minute that a canonical time "HH:MM" names. *)
Definition hour_of (t : string) : Z :=
  match t with
  | String h1 (String h2 _) => number (String h1 (String h2 EmptyString))
  | _ => 0
  end.

Definition minute_of (t : string) : Z :=
  match t with
  | String _ (String _ (String _ m)) => number m
  | _ => 0
  end.

(** A time of the 24-hour clock. *)
Definition on_clock (t : string) : bool :=
  (hour_of t <=? 23) && (minute_of t <=? 59).

(** A date of the calendar, between the years 1 and 9999. *)
Definition real_date (d : date) : bool :=
  valid_date (d_year d) (d_month d) (d_day d).

(** The last day that a datetime can hold. *)
Definition last_day (d : date) : bool :=
  (d_year d =? MAXYEAR) && (d_month d =? 12) && (d_day d =? 31).

(** The instant at a time "HH:MM" of a date. *)
Definition instant (d : date) (t : string) : datetime :=
  {| year := d_year d; month := d_month d; day := d_day d;
     hour := hour_of t; minute := minute_of t |}.

(** A regular expression that, before two given characters, can take
    both, whatever follows them: if the rest of a pattern succeeds after
    them, so does the whole. *)
Definition takes_two (r : regex) (a b : ascii) : Prop :=
  ∀ (A : Type) (rest : string) (caps : list string)
    (k : string -> list string -> option A) (x : A),
    k rest caps = Some x ->
    rmatch r (String a (String b rest)) caps k = Some x.

(** *** A group in the layout of the schedule *)

(** A text at whose head a repetition of the class [p] stops: it is empty
    or its first character is not of the class. *)
Definition stops (p : cls) (rest : string) : bool :=
  match rest with
  | String c _ => negb (cls_mem p c)
  | EmptyString => true
  end.

(** A line that holds one group: route, the two numbers of the piece
    around a "-", origin, the two times and destination, one blank
    between them. *)
Definition group_line (route n1 n2 origin t1 t2 destination : string) : string :=
  route +:+ " " +:+ n1 +:+ " - " +:+ n2 +:+ " " +:+ origin +:+ " "
  +:+ t1 +:+ " " +:+ t2 +:+ " " +:+ destination.

(** A line that holds a first-shift fragment after one of the codes
    "BO", "DP" and "DPO": the two times, a word, the route, the two numbers
    of the piece around a "-" and the origin. *)
Definition fragment_line (code t1 t2 kind route n1 n2 origin : string) : string :=
  code +:+ " " +:+ t1 +:+ " " +:+ t2 +:+ " " +:+ kind +:+ " " +:+ route +:+ " "
  +:+ n1 +:+ " - " +:+ n2 +:+ " " +:+ origin.

(** The seven texts of a group. *)
Record layout : Type := Layout {
  l_route : string;
  l_n1 : string;
  l_n2 : string;
  l_origin : string;
  l_t1 : string;
  l_t2 : string;
  l_destination : string
}.

(** Digits for the route and the two numbers, word characters for the
    two checkpoints, "H:MM" or "HH:MM" for the two times. *)
Definition layout_ok (g : layout) : Prop :=
  text_of Chars.is_digit (l_route g) = true
  ∧ text_of Chars.is_digit (l_n1 g) = true
  ∧ text_of Chars.is_digit (l_n2 g) = true
  ∧ text_of Chars.is_word (l_origin g) = true
  ∧ valid_time_token (l_t1 g) = true
  ∧ valid_time_token (l_t2 g) = true
  ∧ text_of Chars.is_word (l_destination g) = true.

Definition render (g : layout) : string :=
  group_line (l_route g) (l_n1 g) (l_n2 g) (l_origin g) (l_t1 g) (l_t2 g)
             (l_destination g).

(** Groups one after the other, one blank between them. *)
Fixpoint render_all (gs : list layout) : string :=
  match gs with
  | [] => ""
  | [g] => render g
  | g :: gs' => render g +:+ " " +:+ render_all gs'
  end.

(** The dictionary that such a group gives on the line [line]. *)
Definition info_of (line : string) (g : layout) : shift_info :=
  {| ligne := l_route g;
     ldebpce := l_origin g;
     lfinpce := l_destination g;
     start_time := parse_time (l_t1 g);
     end_time := parse_time (l_t2 g);
     full_line := line |}.


(** * Properties *)

(** ** Strings *)

#[local] Arguments String.append !_ _ / : simpl nomatch.

Lemma str_app_length (a b : string) :
  String.length (a +:+ b) = (String.length a + String.length b)%nat.
Proof. induction a as [|c a IH]; simpl; [done | by rewrite IH]. Qed.

Lemma str_app_assoc (a b c : string) : (a +:+ b) +:+ c = a +:+ (b +:+ c).
Proof. induction a as [|x a IH]; simpl; [done | by rewrite IH]. Qed.

Lemma str_app_nil_r (a : string) : a +:+ "" = a.
Proof. induction a as [|x a IH]; simpl; [done | by rewrite IH]. Qed.

Lemma take_str_app (w rest : string) :
  Str.take_str (String.length w) (w +:+ rest) = w.
Proof. induction w as [|c w IH]; simpl; [by destruct rest | by rewrite IH]. Qed.

Lemma consumed_app (w rest : string) : consumed (w +:+ rest) rest = w.
Proof.
  unfold consumed. rewrite str_app_length.
  replace (String.length w + String.length rest - String.length rest)%nat
    with (String.length w) by lia.
  apply take_str_app.
Qed.

Lemma str_all_app (f : ascii -> bool) (a b : string) :
  str_all f (a +:+ b) = str_all f a && str_all f b.
Proof. induction a as [|c a IH]; simpl; [done | by rewrite IH, andb_assoc]. Qed.

(** ** The matcher returns only what the expression matches *)

Section MatcherSound.
Context {A : Type}.

Lemma rep_sound p s : ∀ lo hi (k : string -> option A) x,
  rep p lo hi s k = Some x ->
  ∃ w s', s = w +:+ s' ∧ str_all (cls_mem p) w = true
          ∧ (lo <= String.length w)%nat ∧ within hi (String.length w)
          ∧ k s' = Some x.
Proof.
  induction s as [|c s IH]; intros lo hi k x H; simpl in H.
  - destruct (Nat.eqb_spec lo 0) as [->|]; [|done].
    exists "", "". repeat split; simpl; [lia | by destruct hi as [[]|]; simpl; lia | done].
  - assert (Hstop : (if Nat.eqb lo 0 then k (String c s) else None) = Some x ->
      ∃ w s', String c s = w +:+ s' ∧ str_all (cls_mem p) w = true
              ∧ (lo <= String.length w)%nat ∧ within hi (String.length w)
              ∧ k s' = Some x).
    { destruct (Nat.eqb_spec lo 0) as [->|]; [|done]. intros Hk.
      exists "", (String c s). repeat split; simpl;
        [lia | by destruct hi as [[]|]; simpl; lia | done]. }
    destruct (cls_mem p c) eqn:Hc; simpl in H; [|by apply Hstop].
    destruct (more hi) eqn:Hm; [|by apply Hstop].
    destruct (rep p (Nat.pred lo) (less hi) s k) as [y|] eqn:Hr; [|by apply Hstop].
    inversion H; subst y; clear H.
    destruct (IH _ _ _ _ Hr) as (w & s' & -> & Hw & Hlo & Hhi & Hk).
    exists (String c w), s'. repeat split; simpl; [by rewrite Hc | lia | | done].
    destruct hi as [[|h]|]; simpl in *; [done | lia | done].
Qed.

Lemma rmatch_sound r : ∀ s caps (k : string -> list string -> option A) x,
  rmatch r s caps k = Some x ->
  ∃ w s' c, s = w +:+ s' ∧ matches r w c ∧ k s' (caps ++ c) = Some x.
Proof.
  induction r as [|p|p lo hi|r1 IH1 r2 IH2|r1 IH1 r2 IH2|r IH];
    intros s caps k x H; simpl in H.
  - exists "", s, []. rewrite app_nil_r. repeat split; [constructor | done].
  - destruct s as [|c s]; [done|]. destruct (cls_mem p c) eqn:Hc; [|done].
    exists (String c ""), s, []. rewrite app_nil_r.
    repeat split; [by constructor | done].
  - destruct (rep_sound _ _ _ _ _ _ H) as (w & s' & -> & Hw & Hlo & Hhi & Hk).
    exists w, s', []. rewrite app_nil_r. repeat split; [by constructor | done].
  - destruct (IH1 _ _ _ _ H) as (w1 & s1 & c1 & -> & M1 & H1).
    destruct (IH2 _ _ _ _ H1) as (w2 & s2 & c2 & -> & M2 & H2).
    exists (w1 +:+ w2), s2, (c1 ++ c2).
    rewrite str_app_assoc, app_assoc. repeat split; [by constructor | done].
  - destruct (rmatch r1 s caps k) as [y|] eqn:H1.
    + inversion H; subst y.
      destruct (IH1 _ _ _ _ H1) as (w & s' & c & -> & M & Hk).
      exists w, s', c. repeat split; [by apply M_alt_l | done].
    + destruct (IH2 _ _ _ _ H) as (w & s' & c & -> & M & Hk).
      exists w, s', c. repeat split; [by apply M_alt_r | done].
  - destruct (IH _ _ _ _ H) as (w & s' & c & -> & M & Hk).
    rewrite consumed_app in Hk.
    exists w, s', (c ++ [w]). rewrite app_assoc.
    repeat split; [by constructor | done].
Qed.
End MatcherSound.

Lemma exec_sound r s caps rest :
  exec r s = Some (caps, rest) -> ∃ w, s = w +:+ rest ∧ matches r w caps.
Proof.
  intros H. destruct (rmatch_sound _ _ _ _ _ H) as (w & s' & c & -> & M & Hk).
  simpl in Hk. inversion Hk; subst. by exists w.
Qed.

Lemma search_sound r s caps rest :
  search r s = Some (caps, rest) -> ∃ w, matches r w caps.
Proof.
  induction s as [|c s IH]; simpl; intros H.
  - destruct (exec r "") as [[c0 r0]|] eqn:He; [|done].
    inversion H; subst. destruct (exec_sound _ _ _ _ He) as (w & _ & M). by exists w.
  - destruct (exec r (String c s)) as [[c0 r0]|] eqn:He.
    + inversion H; subst. destruct (exec_sound _ _ _ _ He) as (w & _ & M). by exists w.
    + by apply IH.
Qed.

(** ** Reading back what was printed *)

Lemma is_digit_cases (c : ascii) :
  Chars.is_digit c = true ->
  In c ["0"; "1"; "2"; "3"; "4"; "5"; "6"; "7"; "8"; "9"]%char.
Proof.
  destruct c as [[] [] [] [] [] [] [] []]; vm_compute; intros H;
    first [discriminate H | tauto].
Qed.

Lemma is_digit_not_space (c : ascii) :
  Chars.is_digit c = true -> Chars.is_space c = false.
Proof.
  intros H. apply is_digit_cases in H. simpl in H.
  repeat destruct H as [<-|H]; try reflexivity. destruct H.
Qed.

Lemma digit_value_range (c : ascii) :
  Chars.is_digit c = true -> 0 <= Chars.digit_value c <= 9.
Proof.
  intros H. apply is_digit_cases in H. simpl in H.
  repeat destruct H as [<-|H]; try (vm_compute; split; discriminate). destruct H.
Qed.

Lemma uint_string_digits (d : Decimal.uint) :
  str_all Chars.is_digit (NilEmpty.string_of_uint d) = true.
Proof. induction d; simpl; try done; by rewrite IHd. Qed.

Lemma digits_of_uint (d : Decimal.uint) : ∀ acc,
  PyInt.digits (NilEmpty.string_of_uint d) acc true
  = Some (acc * 10 ^ Z.of_N (DecimalPos.Unsigned.usize d)
          + Z.of_N (DecimalPos.Unsigned.of_lu (Decimal.rev d))).
Proof.
  induction d; intros acc;
    [simpl; f_equal; lia | ..];
    simpl PyInt.digits; change (Chars.is_digit _) with true; cbv iota;
    unfold Decimal.rev; simpl Decimal.revapp;
    rewrite (DecimalPos.Unsigned.of_lu_revapp d);
    rewrite IHd; f_equal;
    simpl DecimalPos.Unsigned.usize;
    rewrite N2Z.inj_succ, Z.pow_succ_r by lia;
    rewrite N2Z.inj_add, N2Z.inj_mul, N2Z.inj_pow;
    match goal with
    | |- context [Chars.digit_value ?c] =>
        let v := eval vm_compute in (Chars.digit_value c) in
        change (Chars.digit_value c) with v
    end;
    match goal with
    | |- context [Z.of_N (DecimalPos.Unsigned.of_lu (?f Decimal.Nil))] =>
        let v := eval vm_compute in (Z.of_N (DecimalPos.Unsigned.of_lu (f Decimal.Nil))) in
        change (Z.of_N (DecimalPos.Unsigned.of_lu (f Decimal.Nil))) with v
    end;
    change (Z.of_N 10) with 10; ring.
Qed.

Lemma digits_first (d : Decimal.uint) acc :
  d ≠ Decimal.Nil ->
  PyInt.digits (NilEmpty.string_of_uint d) acc false
  = PyInt.digits (NilEmpty.string_of_uint d) acc true.
Proof. destruct d; simpl; done. Qed.

Lemma to_uint_nonnil (n : N) : N.to_uint n ≠ Decimal.Nil.
Proof.
  destruct n; simpl; [discriminate | apply DecimalPos.Unsigned.to_uint_nonnil].
Qed.

Lemma decimal_eq (n : Z) :
  PyInt.decimal n = NilEmpty.string_of_uint (N.to_uint (Z.to_N n)).
Proof.
  unfold PyInt.decimal, NilZero.string_of_uint.
  pose proof (to_uint_nonnil (Z.to_N n)). by destruct (N.to_uint (Z.to_N n)).
Qed.

Lemma decimal_digits (n : Z) : str_all Chars.is_digit (PyInt.decimal n) = true.
Proof. rewrite decimal_eq. apply uint_string_digits. Qed.

Lemma decimal_nonempty (n : Z) : PyInt.decimal n ≠ "".
Proof.
  rewrite decimal_eq. pose proof (to_uint_nonnil (Z.to_N n)).
  by destruct (N.to_uint (Z.to_N n)).
Qed.

(** Reading the digits of a printed number continues the number read so
    far. *)
Lemma digits_decimal_acc (n acc : Z) :
  0 <= n ->
  PyInt.digits (PyInt.decimal n) acc true
  = Some (acc * 10 ^ Z.of_nat (String.length (PyInt.decimal n)) + n).
Proof.
  intros Hn. rewrite decimal_eq, digits_of_uint. f_equal.
  rewrite <- DecimalPos.Unsigned.of_uint_alt.
  change (Pos.of_uint ?d) with (N.of_uint d).
  rewrite DecimalN.Unsigned.of_to, Z2N.id by done. do 3 f_equal.
  generalize (N.to_uint (Z.to_N n)). intros d.
  induction d; simpl String.length; simpl DecimalPos.Unsigned.usize;
    [done | ..]; rewrite N2Z.inj_succ, IHd; lia.
Qed.

Lemma digits_decimal (n : Z) :
  0 <= n -> PyInt.digits (PyInt.decimal n) 0 false = Some n.
Proof.
  intros Hn. rewrite decimal_eq, digits_first by apply to_uint_nonnil.
  rewrite <- decimal_eq, digits_decimal_acc by done. f_equal; lia.
Qed.

(** ** Splitting and stripping *)

Lemma str_all_impl (f g : ascii -> bool) (s : string) :
  (∀ c, f c = true -> g c = true) -> str_all f s = true -> str_all g s = true.
Proof.
  intros Hfg. induction s as [|c s IH]; simpl; [done|].
  intros [Hc Hs]%andb_true_iff. by rewrite (Hfg _ Hc), IH.
Qed.

Lemma sign_or_digit_not_space (c : ascii) :
  is_sign_or_digit c = true -> negb (Chars.is_space c) = true.
Proof.
  unfold is_sign_or_digit. intros [H|H]%orb_true_iff.
  - by rewrite is_digit_not_space.
  - apply Ascii.eqb_eq in H. by subst c.
Qed.

Lemma sign_or_digit_not_colon (c : ascii) :
  is_sign_or_digit c = true -> negb (Ascii.eqb c ":") = true.
Proof.
  unfold is_sign_or_digit. intros [H|H]%orb_true_iff.
  - apply is_digit_cases in H. simpl in H.
    repeat destruct H as [<-|H]; try reflexivity. destruct H.
  - apply Ascii.eqb_eq in H. by subst c.
Qed.

Lemma lstrip_id (ws : ascii -> bool) (s : string) :
  str_all (λ c, negb (ws c)) s = true -> Str.lstrip_by ws s = s.
Proof.
  destruct s as [|c s]; simpl; [done|].
  intros [Hc _]%andb_true_iff. apply negb_true_iff in Hc. by rewrite Hc.
Qed.

Lemma rstrip_id (ws : ascii -> bool) (s : string) :
  str_all (λ c, negb (ws c)) s = true -> Str.rstrip_by ws s = s.
Proof.
  induction s as [|c s IH]; simpl; [done|].
  intros [Hc Hs]%andb_true_iff. apply negb_true_iff in Hc.
  rewrite (IH Hs), Hc. by destruct s.
Qed.

Lemma strip_by_id (ws : ascii -> bool) (s : string) :
  str_all (λ c, negb (ws c)) s = true -> Str.strip_by ws s = s.
Proof. intros H. unfold Str.strip_by. by rewrite lstrip_id, rstrip_id. Qed.

Lemma strip_id (s : string) :
  str_all (λ c, negb (Chars.is_space c)) s = true -> Str.strip s = s.
Proof. apply strip_by_id. Qed.

Lemma int_space_is_space (c : ascii) :
  Chars.is_int_space c = true -> Chars.is_space c = true.
Proof.
  unfold Chars.is_int_space, Chars.is_space, Chars.between.
  intros H. repeat (apply orb_true_iff in H as [H|H]).
  - by rewrite H.
  - apply N.eqb_eq in H. by rewrite H.
  - rewrite H. by rewrite !orb_true_r.
  - rewrite H. by rewrite !orb_true_r.
Qed.

Lemma int_strip_id (s : string) :
  str_all (λ c, negb (Chars.is_space c)) s = true ->
  Str.strip_by Chars.is_int_space s = s.
Proof.
  intros H. apply strip_by_id. eapply str_all_impl; [|exact H].
  intros c Hc. apply negb_true_iff. apply negb_true_iff in Hc.
  destruct (Chars.is_int_space c) eqn:E; [|done].
  by rewrite (int_space_is_space _ E) in Hc.
Qed.

Lemma split_on_none (sep : ascii) (s : string) :
  no_char sep s = true -> Str.split_on sep s = [s].
Proof.
  unfold no_char. induction s as [|c s IH]; simpl; [done|].
  intros [Hc Hs]%andb_true_iff. apply negb_true_iff in Hc.
  by rewrite Hc, (IH Hs).
Qed.

Lemma split_on_app (sep : ascii) (a b : string) :
  no_char sep a = true ->
  Str.split_on sep (a +:+ String sep b) = a :: Str.split_on sep b.
Proof.
  unfold no_char. induction a as [|c a IH]; simpl.
  - intros _. by rewrite Ascii.eqb_refl.
  - intros [Hc Ha]%andb_true_iff. apply negb_true_iff in Hc.
    by rewrite Hc, (IH Ha).
Qed.

Lemma contains_char (sep : ascii) (s : string) :
  Str.contains (String sep "") s = negb (no_char sep s).
Proof.
  induction s as [|c s IH]; simpl; [done|].
  rewrite IH. unfold no_char. simpl.
  rewrite (Ascii.eqb_sym sep c).
  destruct (Ascii.eqb c sep); simpl; [done|]. by destruct s.
Qed.

Lemma no_char_lstrip (ws : ascii -> bool) (sep : ascii) (s : string) :
  no_char sep s = true -> no_char sep (Str.lstrip_by ws s) = true.
Proof.
  unfold no_char. induction s as [|c s IH]; simpl; [done|].
  intros H. destruct (ws c); [|done].
  apply andb_true_iff in H as [_ H]. by apply IH.
Qed.

Lemma no_char_rstrip (ws : ascii -> bool) (sep : ascii) (s : string) :
  no_char sep s = true -> no_char sep (Str.rstrip_by ws s) = true.
Proof.
  unfold no_char. induction s as [|c s IH]; simpl; [done|].
  intros [Hc Hs]%andb_true_iff. specialize (IH Hs).
  destruct (Str.rstrip_by ws s) as [|c' r].
  - destruct (ws c); simpl; [done | by rewrite Hc].
  - simpl in *. by rewrite Hc, IH.
Qed.

Lemma no_char_strip (sep : ascii) (s : string) :
  no_char sep s = true -> no_char sep (Str.strip s) = true.
Proof. intros H. by apply no_char_rstrip, no_char_lstrip. Qed.

(** ** [int] and the two-digit format *)

Lemma count_digits_range (s : string) :
  0 <= PyInt.count_digits s <= Z.of_nat (String.length s).
Proof.
  induction s as [|c s IH]; [done|]. cbn [PyInt.count_digits String.length].
  destruct (Chars.is_digit c); lia.
Qed.

Lemma count_digits_length (s : string) :
  str_all Chars.is_digit s = true ->
  PyInt.count_digits s = Z.of_nat (String.length s).
Proof.
  induction s as [|c s IH]; [done|]. cbn [PyInt.count_digits String.length str_all].
  intros [-> Hs]%andb_true_iff. rewrite (IH Hs). lia.
Qed.

Lemma limited_digits (s : string) :
  PyInt.count_digits s <= PyInt.max_str_digits ->
  PyInt.limited s = PyInt.digits s 0 false.
Proof.
  intros H. unfold PyInt.limited.
  by destruct (Z.leb_spec (PyInt.count_digits s) PyInt.max_str_digits); [|lia].
Qed.

Lemma limited_inv (s : string) (v : Z) :
  PyInt.limited s = Some v ->
  PyInt.count_digits s <= PyInt.max_str_digits ∧ PyInt.digits s 0 false = Some v.
Proof.
  unfold PyInt.limited.
  by destruct (Z.leb_spec (PyInt.count_digits s) PyInt.max_str_digits).
Qed.

(** A text of digits within the limit is read by its digits. *)
Lemma py_int_digits (s : string) :
  str_all Chars.is_digit s = true ->
  Z.of_nat (String.length s) <= 4300 ->
  PyInt.py_int s = PyInt.digits s 0 false.
Proof.
  intros H Hl. unfold PyInt.py_int. rewrite int_strip_id.
  - assert (Hlim : PyInt.limited s = PyInt.digits s 0 false).
    { apply limited_digits. by rewrite count_digits_length. }
    destruct s as [|c s]; [done|]. simpl in H.
    apply andb_true_iff in H as [Hc _]. apply is_digit_cases in Hc. simpl in Hc.
    repeat destruct Hc as [<-|Hc]; try exact Hlim. destruct Hc.
  - eapply str_all_impl; [|exact H]. intros c Hc. by rewrite is_digit_not_space.
Qed.

(** A text of digits beyond the limit is rejected. *)
Lemma py_int_too_long (s : string) :
  str_all Chars.is_digit s = true ->
  4300 < Z.of_nat (String.length s) ->
  PyInt.py_int s = None.
Proof.
  intros H Hl. unfold PyInt.py_int. rewrite int_strip_id.
  - assert (Hlim : PyInt.limited s = None).
    { unfold PyInt.limited. rewrite count_digits_length by done.
      destruct (Z.leb_spec (Z.of_nat (String.length s)) PyInt.max_str_digits) as [Hle|];
        [|done].
      unfold PyInt.max_str_digits in Hle. lia. }
    destruct s as [|c s]; [done|]. simpl in H.
    apply andb_true_iff in H as [Hc _]. apply is_digit_cases in Hc. simpl in Hc.
    repeat destruct Hc as [<-|Hc]; try exact Hlim. destruct Hc.
  - eapply str_all_impl; [|exact H]. intros c Hc. by rewrite is_digit_not_space.
Qed.

(** What the digits of a text denote lies between the number read so far,
    shifted by their count, and the next number shifted alike. *)
Lemma digits_bounds (s : string) : ∀ (acc : Z) (ok : bool) (v : Z),
  0 <= acc ->
  PyInt.digits s acc ok = Some v ->
  acc * 10 ^ PyInt.count_digits s <= v < (acc + 1) * 10 ^ PyInt.count_digits s.
Proof.
  induction s as [|c s IH]; intros acc ok v Hacc; cbn [PyInt.digits PyInt.count_digits].
  - destruct ok; [|done]. intros [= <-]. lia.
  - pose proof (count_digits_range s) as [Hc _].
    destruct (Chars.is_digit c) eqn:Hd.
    + pose proof (digit_value_range _ Hd) as Hv.
      intros H%IH; [|lia].
      rewrite Z.pow_add_r by lia. change (10 ^ 1) with 10.
      assert (0 < 10 ^ PyInt.count_digits s) by (apply Z.pow_pos_nonneg; lia).
      nia.
    + destruct (Ascii.eqb c "_" && ok); [|done]. intros H%IH; [|done].
      by rewrite Z.add_0_l.
Qed.

Lemma pow10_mono (a b : Z) : 0 <= a <= b -> 10 ^ a <= 10 ^ b.
Proof. intros H. apply Z.pow_le_mono_r; lia. Qed.

Lemma limited_bound (s : string) (v : Z) :
  PyInt.limited s = Some v -> 0 <= v < 10 ^ PyInt.max_str_digits.
Proof.
  intros [Hc Hd]%limited_inv.
  apply digits_bounds in Hd; [|done].
  pose proof (count_digits_range s) as [H0 _].
  pose proof (pow10_mono (PyInt.count_digits s) PyInt.max_str_digits (conj H0 Hc)).
  lia.
Qed.

Lemma py_int_cases (s : string) (v : Z) :
  PyInt.py_int s = Some v ->
  ∃ r, PyInt.limited r = Some v ∨ PyInt.limited r = Some (- v).
Proof.
  unfold PyInt.py_int.
  destruct (Str.strip_by Chars.is_int_space s) as [|c r]; [by exists ""; left|].
  destruct c as [[] [] [] [] [] [] [] []];
    try (intros H; eexists; left; exact H).
  destruct (PyInt.limited r) as [w|] eqn:E; [|done]. simpl. intros [= <-].
  exists r. right. rewrite E. f_equal. lia.
Qed.

(** Every number that [int] returns has no more digits than the limit. *)
Lemma py_int_bound (s : string) (v : Z) :
  PyInt.py_int s = Some v ->
  - 10 ^ PyInt.max_str_digits < v < 10 ^ PyInt.max_str_digits.
Proof.
  intros [r [H|H]]%py_int_cases; apply limited_bound in H; lia.
Qed.

(** The printed form of a number has no zero in front. *)
Lemma to_uint_normal (m : N) (d : Decimal.uint) :
  N.to_uint m = Decimal.D0 d -> d = Decimal.Nil.
Proof.
  intros H.
  pose proof (DecimalN.Unsigned.to_of (N.to_uint m)) as Hn.
  rewrite DecimalN.Unsigned.of_to, H in Hn.
  unfold Decimal.unorm in Hn. cbn [Decimal.nzhead] in Hn.
  destruct (Decimal.nzhead d) eqn:E; try (by injection Hn);
    pose proof (DecimalFacts.nb_digits_nzhead d) as Hb; rewrite E in Hb;
    rewrite <- Hn in Hb; simpl in Hb; lia.
Qed.

Lemma uint_string_zero (d : Decimal.uint) (s : string) :
  NilEmpty.string_of_uint d = String "0" s ->
  ∃ d', d = Decimal.D0 d' ∧ s = NilEmpty.string_of_uint d'.
Proof. destruct d; simpl; try done. intros [= <-]. by eexists. Qed.

Lemma decimal_length (n : Z) :
  0 <= n < 10 ^ PyInt.max_str_digits ->
  Z.of_nat (String.length (PyInt.decimal n)) <= PyInt.max_str_digits.
Proof.
  intros [Hn Hlt].
  assert (Hmax : 1 <= PyInt.max_str_digits) by done.
  pose proof (decimal_digits n) as Hd. pose proof (digits_decimal n Hn) as Hv.
  pose proof (decimal_eq n) as He.
  destruct (PyInt.decimal n) as [|c s] eqn:E; [simpl; lia|].
  simpl in Hd. apply andb_true_iff in Hd as [Hc Hs].
  destruct (Ascii.eqb c "0") eqn:Hz.
  - apply Ascii.eqb_eq in Hz as ->. symmetry in He.
    apply uint_string_zero in He as (d' & Hd' & ->).
    apply to_uint_normal in Hd' as ->. simpl. lia.
  - cbn [PyInt.digits] in Hv. rewrite Hc in Hv.
    apply digits_bounds in Hv; [|pose proof (digit_value_range _ Hc); lia].
    rewrite count_digits_length in Hv by done.
    assert (1 <= Chars.digit_value c).
    { apply is_digit_cases in Hc. simpl in Hc.
      repeat destruct Hc as [<-|Hc];
        first [ done | by vm_compute | by vm_compute in Hz ]. }
    assert (Hp : 10 ^ Z.of_nat (String.length s) < 10 ^ PyInt.max_str_digits).
    { assert (0 < 10 ^ Z.of_nat (String.length s)) by (apply Z.pow_pos_nonneg; lia).
      nia. }
    apply Z.pow_lt_mono_r_iff in Hp; [|lia..].
    cbn [String.length]. lia.
Qed.

Lemma py_int_decimal (n : Z) :
  0 <= n < 10 ^ PyInt.max_str_digits -> PyInt.py_int (PyInt.decimal n) = Some n.
Proof.
  intros Hn. rewrite py_int_digits.
  - apply digits_decimal. lia.
  - apply decimal_digits.
  - by apply decimal_length.
Qed.

Lemma format_02d_chars (n : Z) : str_all is_sign_or_digit (PyInt.format_02d n) = true.
Proof.
  assert (Hd : ∀ m, str_all is_sign_or_digit (PyInt.decimal m) = true).
  { intros m. eapply str_all_impl; [|apply decimal_digits].
    intros c Hc. unfold is_sign_or_digit. by rewrite Hc. }
  unfold PyInt.format_02d. destruct (n <? 0); simpl; [apply Hd|].
  destruct (_ <? _)%nat; simpl; apply Hd.
Qed.

Lemma py_int_format_02d (n : Z) :
  - 10 ^ PyInt.max_str_digits < n < 10 ^ PyInt.max_str_digits ->
  PyInt.py_int (PyInt.format_02d n) = Some n.
Proof.
  intros Hb. unfold PyInt.py_int. rewrite int_strip_id.
  2:{ eapply str_all_impl; [apply sign_or_digit_not_space | apply format_02d_chars]. }
  unfold PyInt.format_02d. destruct (Z.ltb_spec n 0) as [Hn|Hn].
  - simpl. rewrite limited_digits.
    + rewrite digits_decimal by lia. simpl. f_equal; lia.
    + rewrite count_digits_length by apply decimal_digits.
      apply decimal_length. lia.
  - destruct (Nat.ltb_spec (String.length (PyInt.decimal n)) 2) as [Hl|Hl].
    + simpl. rewrite limited_digits.
      * cbn [PyInt.digits]. change (Chars.is_digit "0") with true. cbv iota.
        rewrite digits_decimal_acc by done. f_equal; lia.
      * cbn [PyInt.count_digits]. change (Chars.is_digit "0") with true. cbv iota.
        pose proof (count_digits_range (PyInt.decimal n)).
        assert (2 <= PyInt.max_str_digits) by done. lia.
    + fold (PyInt.py_int (PyInt.decimal n)).
      assert (Hd : 0 <= n < 10 ^ PyInt.max_str_digits) by lia.
      generalize (py_int_decimal n Hd). unfold PyInt.py_int.
      rewrite int_strip_id; [done|].
      eapply str_all_impl; [|apply decimal_digits].
      intros c Hc. by rewrite is_digit_not_space.
Qed.

Lemma format_02d_length (n : Z) : (2 <= String.length (PyInt.format_02d n))%nat.
Proof.
  unfold PyInt.format_02d. destruct (n <? 0).
  - pose proof (decimal_nonempty (- n)). destruct (PyInt.decimal (- n)); [done|].
    simpl. lia.
  - destruct (Nat.ltb_spec (String.length (PyInt.decimal n)) 2) as [H|H]; [|done].
    pose proof (decimal_nonempty n). destruct (PyInt.decimal n); [done|].
    simpl. lia.
Qed.

(** ** The normaliser on its own outputs *)

Lemma parse_time_colon (a b : string) (za zb : Z) :
  str_all (λ c, negb (Chars.is_space c)) a = true ->
  str_all (λ c, negb (Chars.is_space c)) b = true ->
  no_char ":" a = true -> no_char ":" b = true ->
  PyInt.py_int a = Some za -> PyInt.py_int b = Some zb ->
  parse_time (a +:+ ":" +:+ b)
  = Some (PyInt.format_02d za +:+ ":" +:+ PyInt.format_02d zb).
Proof.
  intros Hsa Hsb Hca Hcb Ha Hb. unfold parse_time.
  rewrite contains_char. unfold no_char. rewrite str_all_app. simpl.
  rewrite andb_false_r. simpl.
  rewrite strip_id by (rewrite str_all_app; simpl; by rewrite Hsa, Hsb).
  change (a +:+ ":" +:+ b) with (a +:+ String ":" b).
  rewrite split_on_app, split_on_none by done. simpl. by rewrite Ha, Hb.
Qed.

Lemma parse_time_formatted (h m : Z) :
  - 10 ^ PyInt.max_str_digits < h < 10 ^ PyInt.max_str_digits ->
  - 10 ^ PyInt.max_str_digits < m < 10 ^ PyInt.max_str_digits ->
  parse_time (PyInt.format_02d h +:+ ":" +:+ PyInt.format_02d m)
  = Some (PyInt.format_02d h +:+ ":" +:+ PyInt.format_02d m).
Proof.
  intros Hh Hm.
  apply parse_time_colon; try (by apply py_int_format_02d);
    (eapply str_all_impl; [|apply format_02d_chars]);
    auto using sign_or_digit_not_space, sign_or_digit_not_colon.
Qed.

Lemma parse_time_inv (t s : string) :
  parse_time t = Some s ->
  ∃ a b h m, Str.split_on ":" (Str.strip t) = [a; b]
             ∧ PyInt.py_int a = Some h ∧ PyInt.py_int b = Some m
             ∧ s = PyInt.format_02d h +:+ ":" +:+ PyInt.format_02d m.
Proof.
  unfold parse_time. destruct (negb _); [done|].
  destruct (Str.split_on ":" (Str.strip t)) as [|a [|b [|]]]; simpl; try done.
  - by destruct (PyInt.py_int a).
  - destruct (PyInt.py_int a) as [h|] eqn:Ha; [|done].
    destruct (PyInt.py_int b) as [m|] eqn:Hb; [|done].
    intros [= <-]. by exists a, b, h, m.
  - destruct (PyInt.py_int a); [|done]. destruct (PyInt.py_int b); [|done].
    by destruct (PyInt.py_int s0).
Qed.

Lemma parse_time_idempotent (t s : string) :
  parse_time t = Some s -> parse_time s = Some s.
Proof.
  intros (a & b & h & m & _ & Ha & Hb & ->)%parse_time_inv.
  apply parse_time_formatted; by eapply py_int_bound.
Qed.

Lemma zero_padded_formatted (h m : Z) :
  zero_padded (PyInt.format_02d h +:+ ":" +:+ PyInt.format_02d m) = true.
Proof.
  unfold zero_padded.
  change (PyInt.format_02d h +:+ ":" +:+ PyInt.format_02d m)
    with (PyInt.format_02d h +:+ String ":" (PyInt.format_02d m)).
  rewrite split_on_app, split_on_none;
    try (eapply str_all_impl; [|apply format_02d_chars];
         apply sign_or_digit_not_colon).
  pose proof (format_02d_length h). pose proof (format_02d_length m).
  apply andb_true_iff; split; by apply Nat.leb_le.
Qed.

(** ** The time normaliser (claims C7 and C8) *)

Lemma format_02d_two_digits_upto_99 :
  forallb (λ n, match PyInt.format_02d (Z.of_nat n) with
                | String a (String b EmptyString) =>
                    Chars.is_digit a && Chars.is_digit b
                | _ => false
                end) (List.seq 0 100) = true.
Proof. vm_compute. reflexivity. Qed.

Lemma format_02d_two_digits (z : Z) :
  0 <= z < 100 ->
  ∃ a b, PyInt.format_02d z = String a (String b "")
         ∧ Chars.is_digit a = true ∧ Chars.is_digit b = true.
Proof.
  intros Hz. pose proof format_02d_two_digits_upto_99 as H.
  rewrite forallb_forall in H. specialize (H (Z.to_nat z)).
  rewrite Z2Nat.id in H by lia.
  assert (Hin : In (Z.to_nat z) (List.seq 0 100)) by (apply in_seq; lia).
  specialize (H Hin).
  destruct (PyInt.format_02d z) as [|a [|b [|]]]; try done.
  apply andb_true_iff in H as [Ha Hb]. by exists a, b.
Qed.

Lemma digits_not_space (s : string) :
  str_all Chars.is_digit s = true ->
  str_all (λ c, negb (Chars.is_space c)) s = true.
Proof.
  apply str_all_impl. intros c Hc. by rewrite is_digit_not_space.
Qed.

Lemma digits_no_colon (s : string) :
  str_all Chars.is_digit s = true -> no_char ":" s = true.
Proof.
  apply str_all_impl. intros c Hc. apply sign_or_digit_not_colon.
  unfold is_sign_or_digit. by rewrite Hc.
Qed.

(** A token of digits, a colon and digits is normalised to the two numbers
    in the two-digit format. *)
Lemma parse_time_digit_token (a b : string) (za zb : Z) :
  str_all Chars.is_digit a = true -> str_all Chars.is_digit b = true ->
  Z.of_nat (String.length a) <= 4300 -> Z.of_nat (String.length b) <= 4300 ->
  PyInt.digits a 0 false = Some za -> PyInt.digits b 0 false = Some zb ->
  parse_time (a +:+ ":" +:+ b)
  = Some (PyInt.format_02d za +:+ ":" +:+ PyInt.format_02d zb).
Proof.
  intros Ha Hb La Lb Hza Hzb.
  apply parse_time_colon; auto using digits_not_space, digits_no_colon.
  - by rewrite py_int_digits.
  - by rewrite py_int_digits.
Qed.

Lemma canonical_formatted (za zb : Z) :
  0 <= za < 100 -> 0 <= zb < 100 ->
  canonical_time (PyInt.format_02d za +:+ ":" +:+ PyInt.format_02d zb) = true.
Proof.
  intros (a1 & a2 & -> & Ha1 & Ha2)%format_02d_two_digits
         (b1 & b2 & -> & Hb1 & Hb2)%format_02d_two_digits.
  simpl. by rewrite Ha1, Ha2, Hb1, Hb2.
Qed.

(** The two-digit format of a number below 100 is its two digits. *)
Lemma format_02d_digit (c : ascii) :
  Chars.is_digit c = true ->
  PyInt.format_02d (Chars.digit_value c) = String "0" (String c "").
Proof.
  intros Hc. apply is_digit_cases in Hc. simpl in Hc.
  repeat destruct Hc as [<-|Hc]; try (vm_compute; reflexivity). destruct Hc.
Qed.

Lemma format_02d_digits (c d : ascii) :
  Chars.is_digit c = true -> Chars.is_digit d = true ->
  PyInt.format_02d (10 * Chars.digit_value c + Chars.digit_value d)
  = String c (String d "").
Proof.
  intros Hc Hd. apply is_digit_cases in Hc, Hd. simpl in Hc, Hd.
  repeat destruct Hc as [<-|Hc]; try destruct Hc;
    repeat destruct Hd as [<-|Hd]; try destruct Hd; vm_compute; reflexivity.
Qed.

(** A token "H:MM" or "HH:MM" is normalised to itself, a zero put before
    an hour of one digit. *)
Lemma parse_time_padded (t : string) :
  valid_time_token t = true -> parse_time t = Some (padded t).
Proof.
  intros Hv.
  destruct t as [|c1 [|c2 [|c3 [|c4 [|c5 [|]]]]]]; try done; unfold valid_time_token in Hv.
  - (* H:MM *)
    apply andb_true_iff in Hv as [[[H1 ->%Ascii.eqb_eq]%andb_true_iff H3]%andb_true_iff H4].
    change (String c1 (String ":" (String c3 (String c4 ""))))
      with (String c1 "" +:+ ":" +:+ String c3 (String c4 "")).
    rewrite (parse_time_digit_token _ _ (Chars.digit_value c1)
               (10 * Chars.digit_value c3 + Chars.digit_value c4));
      try (simpl; by rewrite ?H1, ?H3, ?H4); try (simpl; lia).
    by rewrite format_02d_digit, format_02d_digits.
  - (* HH:MM *)
    apply andb_true_iff in Hv
      as [[[[H1 H2]%andb_true_iff ->%Ascii.eqb_eq]%andb_true_iff H4]%andb_true_iff H5].
    change (String c1 (String c2 (String ":" (String c4 (String c5 "")))))
      with (String c1 (String c2 "") +:+ ":" +:+ String c4 (String c5 "")).
    rewrite (parse_time_digit_token _ _ (10 * Chars.digit_value c1 + Chars.digit_value c2)
               (10 * Chars.digit_value c4 + Chars.digit_value c5));
      try (simpl; by rewrite ?H1, ?H2, ?H4, ?H5); try (simpl; lia).
    by rewrite !format_02d_digits.
Qed.

Lemma padded_canonical (t : string) :
  valid_time_token t = true -> canonical_time (padded t) = true.
Proof.
  intros Hv.
  by destruct t as [|c1 [|c2 [|c3 [|c4 [|c5 [|]]]]]].
Qed.

Lemma parse_time_token (t : string) :
  valid_time_token t = true ->
  ∃ s, parse_time t = Some s
       ∧ canonical_time s = true
       ∧ zero_padded s = true
       ∧ parse_time s = Some s.
Proof.
  intros Hv. pose proof (parse_time_padded t Hv) as Hp.
  exists (padded t). split; [done|]. split; [by apply padded_canonical|].
  split; [|by eapply parse_time_idempotent].
  apply parse_time_inv in Hp as (a & b & h & m & _ & _ & _ & ->).
  apply zero_padded_formatted.
Qed.

(** C7. Every token "H:MM" or "HH:MM" is normalised, and the result is
    the token itself with a zero put before an hour of one digit: its
    hour and its minute are those of the token. The result is two digits,
    a colon and two digits, and normalising it again returns it
    unchanged. Of every result of the normaliser, whatever the token: it
    is the two integers that are the components of the token, each in the
    two-digit format; each of its components has at least two characters;
    and normalising it returns it. *)
Theorem parse_time_valid_token :
  (∀ t, valid_time_token t = true ->
        parse_time t = Some (padded t)
        ∧ canonical_time (padded t) = true
        ∧ zero_padded (padded t) = true
        ∧ parse_time (padded t) = Some (padded t))
  ∧ (∀ t s, parse_time t = Some s ->
            (∃ a b h m, Str.split_on ":" (Str.strip t) = [a; b]
                        ∧ PyInt.py_int a = Some h ∧ PyInt.py_int b = Some m
                        ∧ s = PyInt.format_02d h +:+ ":" +:+ PyInt.format_02d m)
            ∧ zero_padded s = true ∧ parse_time s = Some s).
Proof.
  split.
  - intros t Hv. pose proof (parse_time_padded t Hv) as Hp.
    split; [done|]. split; [by apply padded_canonical|].
    split; [|by eapply parse_time_idempotent].
    apply parse_time_inv in Hp as (a & b & h & m & _ & _ & _ & ->).
    apply zero_padded_formatted.
  - intros t s H. split; [by apply parse_time_inv|].
    split; [|by eapply parse_time_idempotent].
    apply parse_time_inv in H as (a & b & h & m & _ & _ & _ & ->).
    apply zero_padded_formatted.
Qed.

Lemma parse_time_valid_token_witness :
  (valid_time_token "5:10" = true
   ∧ parse_time "5:10" = Some "05:10"
   ∧ canonical_time "05:10" = true
   ∧ zero_padded "05:10" = true
   ∧ parse_time "05:10" = Some "05:10")
  ∧ (valid_time_token "17:45" = true
     ∧ parse_time "17:45" = Some "17:45"
     ∧ canonical_time "17:45" = true
     ∧ zero_padded "17:45" = true
     ∧ parse_time "17:45" = Some "17:45")
  ∧ (parse_time " 7 : 5 " = Some "07:05"
     ∧ (∃ a b h m, Str.split_on ":" (Str.strip " 7 : 5 ") = [a; b]
                   ∧ PyInt.py_int a = Some h ∧ PyInt.py_int b = Some m
                   ∧ "07:05" = PyInt.format_02d h +:+ ":" +:+ PyInt.format_02d m)
     ∧ zero_padded "07:05" = true ∧ parse_time "07:05" = Some "07:05").
Proof.
  destruct parse_time_valid_token as [H1 H2].
  split; [split; [reflexivity | apply (H1 "5:10"); reflexivity]|].
  split; [split; [reflexivity | apply (H1 "17:45"); reflexivity]|].
  split; [reflexivity | apply (H2 " 7 : 5 " "07:05"); reflexivity].
Defined.

Lemma parse_time_two_parts (t a b : string) :
  Str.split_on ":" (Str.strip t) = [a; b] -> Str.contains ":" t = true.
Proof.
  intros Hs. rewrite contains_char. destruct (no_char ":" t) eqn:Hn; [|done].
  apply no_char_strip in Hn. apply split_on_none in Hn. congruence.
Qed.

(** C8. A token without a colon is rejected, and so is a token one of
    whose components is not an integer, which includes a component of
    more digits than the interpreter's limit of 4300. A token with two
    integer components is never rejected, whatever their magnitude within
    that limit: the result is the two integers in the two-digit format,
    as for "25:99". In particular the decimal texts of any two naturals
    below 10^4300, joined by a colon, are accepted. *)
Theorem parse_time_rejects_only_non_integers :
  (∀ t, Str.contains ":" t = false -> parse_time t = None)
  ∧ (∀ t p, In p (Str.split_on ":" (Str.strip t)) -> PyInt.py_int p = None ->
            parse_time t = None)
  ∧ (∀ t a b h m,
       Str.split_on ":" (Str.strip t) = [a; b] ->
       PyInt.py_int a = Some h -> PyInt.py_int b = Some m ->
       parse_time t = Some (PyInt.format_02d h +:+ ":" +:+ PyInt.format_02d m)
       ∧ zero_padded (PyInt.format_02d h +:+ ":" +:+ PyInt.format_02d m) = true)
  ∧ (∀ h m, 0 <= h < 10 ^ 4300 -> 0 <= m < 10 ^ 4300 ->
       parse_time (PyInt.decimal h +:+ ":" +:+ PyInt.decimal m)
       = Some (PyInt.format_02d h +:+ ":" +:+ PyInt.format_02d m))
  ∧ (∀ t p, In p (Str.split_on ":" (Str.strip t)) ->
            str_all Chars.is_digit p = true -> 4300 < Z.of_nat (String.length p) ->
            parse_time t = None)
  ∧ (∀ s h, PyInt.py_int s = Some h -> - 10 ^ 4300 < h < 10 ^ 4300)
  ∧ parse_time "25:99" = Some "25:99".
Proof.
  assert (Hnone : ∀ t p, In p (Str.split_on ":" (Str.strip t)) ->
                         PyInt.py_int p = None -> parse_time t = None).
  { intros t p Hin Hp. unfold parse_time. destruct (negb _); [done|].
    destruct (Str.split_on ":" (Str.strip t)) as [|a [|b [|c l]]]; simpl; try done.
    + by destruct (PyInt.py_int a).
    + destruct Hin as [->|[->|[]]]; rewrite Hp; [done|]. by destruct (PyInt.py_int a).
    + destruct (PyInt.py_int a); [|done]. destruct (PyInt.py_int b); [|done].
      by destruct (PyInt.py_int c). }
  split; [|split; [|split; [|split; [|split; [|split]]]]].
  - intros t H. unfold parse_time. by rewrite H.
  - exact Hnone.
  - intros t a b h m H Ha Hb. split; [|apply zero_padded_formatted].
    unfold parse_time. rewrite (parse_time_two_parts _ _ _ H), H. simpl.
    by rewrite Ha, Hb.
  - intros h m Hh Hm.
    change (10 ^ 4300) with (10 ^ PyInt.max_str_digits) in Hh, Hm.
    apply parse_time_digit_token;
      try apply decimal_digits; try (by apply decimal_length);
      apply digits_decimal; lia.
  - intros t p Hin Hd Hl. apply (Hnone t p Hin). by apply py_int_too_long.
  - intros s h H. by apply py_int_bound in H.
  - reflexivity.
Qed.

Lemma parse_time_rejects_only_non_integers_witness :
  parse_time "0530" = None
  ∧ parse_time "5:3O" = None
  ∧ parse_time " 7 : 5 " = Some "07:05"
  ∧ parse_time "123:4567" = Some "123:4567".
Proof.
  destruct parse_time_rejects_only_non_integers as (H1 & H2 & H3 & H4 & _).
  split; [apply H1; reflexivity|].
  split; [apply (H2 "5:3O" "3O"); [vm_compute; tauto | reflexivity]|].
  split; [apply (H3 " 7 : 5 " "7 " " 5" 7 5); reflexivity|].
  apply (H4 123 4567); split; [lia | reflexivity | lia | reflexivity].
Defined.

(** ** What [strptime] reads *)

Ltac inv_matches :=
  repeat match goal with
  | H : matches Eps _ _ |- _ => inversion H; subst; clear H
  | H : matches (One _) _ _ |- _ => inversion H; subst; clear H
  | H : matches (Seq _ _) _ _ |- _ => inversion H; subst; clear H
  | H : matches (Grp _) _ _ |- _ => inversion H; subst; clear H
  | H : matches (Alt _ _) _ _ |- _ => inversion H; subst; clear H
  end.

Lemma digit_range_digit (lo hi c : ascii) :
  Chars.is_digit lo = true -> Chars.is_digit hi = true ->
  cls_mem (Range lo hi) c = true -> Chars.is_digit c = true.
Proof.
  unfold cls_mem, Chars.is_digit, Chars.between.
  intros [L1 L2]%andb_true_iff [H1 H2]%andb_true_iff [C1 C2]%andb_true_iff.
  apply N.leb_le in L1, L2, H1, H2, C1, C2.
  apply andb_true_iff; split; apply N.leb_le; lia.
Qed.

Lemma chr_mem (a c : ascii) : cls_mem (Chr a) c = true -> c = a.
Proof. simpl. by intros ->%Ascii.eqb_eq. Qed.

Ltac digit_facts :=
  repeat match goal with
  | H : cls_mem (Chr _) _ = true |- _ => apply chr_mem in H; subst
  | H : cls_mem (Range _ _) _ = true |- _ =>
      apply digit_range_digit in H; [|reflexivity|reflexivity]
  | H : cls_mem Digit _ = true |- _ => change (cls_mem Digit ?c) with (Chars.is_digit c) in H
  end.

Ltac short_number_tac :=
  intros M; unfold directive_d, directive_m, directive_H, directive_M, digit_range, alt, cat in M;
  simpl in M; inv_matches; digit_facts; simpl; (split; [reflexivity|]);
  first [ left; eexists; split; [reflexivity | assumption]
        | right; eexists _, _; split; [reflexivity | split; [by left | assumption]]
        | right; eexists _, _; split; [reflexivity | split; [by right | assumption]]
        | right; eexists _, _; split; [reflexivity | split; [left; reflexivity | assumption]] ].

Lemma directive_d_short w c : matches directive_d w c -> c = [] ∧ short_number w.
Proof. short_number_tac. Qed.

Lemma directive_m_short w c : matches directive_m w c -> c = [] ∧ short_number w.
Proof. short_number_tac. Qed.

Lemma directive_H_short w c : matches directive_H w c -> c = [] ∧ short_number w.
Proof. short_number_tac. Qed.

Lemma directive_M_short w c : matches directive_M w c -> c = [] ∧ short_number w.
Proof. short_number_tac. Qed.

Lemma directive_Y_four w c :
  matches directive_Y w c ->
  c = [] ∧ ∃ y1 y2 y3 y4,
    w = String y1 (String y2 (String y3 (String y4 "")))
    ∧ forallb Chars.is_digit [y1; y2; y3; y4] = true.
Proof.
  intros M. unfold directive_Y, cat in M. simpl in M. inv_matches. digit_facts.
  split; [reflexivity|]. eexists _, _, _, _. split; [reflexivity|].
  simpl. by repeat match goal with
                | H : Chars.is_digit _ = true |- _ => rewrite H; clear H
                end.
Qed.

Lemma range_value (lo hi c : ascii) :
  cls_mem (Range lo hi) c = true ->
  Chars.digit_value lo <= Chars.digit_value c <= Chars.digit_value hi.
Proof.
  unfold cls_mem, Chars.between, Chars.digit_value.
  intros [H1 H2]%andb_true_iff. apply N.leb_le in H1, H2. lia.
Qed.

Ltac number_value :=
  intros M Hz; unfold directive_H, directive_M, digit_range, alt, cat in M;
  simpl in M; inv_matches;
  repeat match goal with
  | H : cls_mem (Chr _) _ = true |- _ => apply chr_mem in H; subst
  | H : cls_mem (Range ?lo ?hi) ?c = true |- _ =>
      pose proof (range_value _ _ _ H);
      apply digit_range_digit in H; [|reflexivity|reflexivity]
  | H : cls_mem Digit ?c = true |- _ =>
      change (cls_mem Digit c) with (Chars.is_digit c) in H
  end;
  repeat match goal with
  | H : Chars.is_digit ?c = true |- _ =>
      pose proof (digit_value_range _ H); revert H
  end;
  intros; rewrite py_int_digits in Hz
    by first [ simpl; lia
             | simpl; by repeat match goal with
                         | H : Chars.is_digit _ = true |- _ => rewrite H
                         end ];
  simpl in Hz;
  repeat match goal with
  | H : Chars.is_digit _ = true |- _ => rewrite H in Hz
  end;
  simpl in Hz; injection Hz as <-;
  repeat match goal with
  | H : context [Chars.digit_value (Ascii ?a ?b ?c ?d ?e ?f ?g ?h)] |- _ =>
      let v := eval vm_compute in (Chars.digit_value (Ascii a b c d e f g h)) in
      change (Chars.digit_value (Ascii a b c d e f g h)) with v in H
  | |- context [Chars.digit_value (Ascii ?a ?b ?c ?d ?e ?f ?g ?h)] =>
      let v := eval vm_compute in (Chars.digit_value (Ascii a b c d e f g h)) in
      change (Chars.digit_value (Ascii a b c d e f g h)) with v
  end;
  lia.

Lemma directive_H_value w c h :
  matches directive_H w c -> PyInt.py_int w = Some h -> 0 <= h <= 23.
Proof. number_value. Qed.

Lemma directive_M_value w c m :
  matches directive_M w c -> PyInt.py_int w = Some m -> 0 <= m <= 59.
Proof. number_value. Qed.

Lemma strptime_inv (data : string) (dt : datetime) :
  strptime data = Some dt ->
  ∃ wd wm wy ws wH wM,
    data = wd +:+ "/" +:+ wm +:+ "/" +:+ wy +:+ ws +:+ wH +:+ ":" +:+ wM
    ∧ short_number wd ∧ short_number wm
    ∧ (∃ y1 y2 y3 y4, wy = String y1 (String y2 (String y3 (String y4 "")))
                      ∧ forallb Chars.is_digit [y1; y2; y3; y4] = true)
    ∧ (str_all Chars.is_space ws = true ∧ (1 <= String.length ws)%nat)
    ∧ short_number wH ∧ short_number wM
    ∧ PyInt.py_int wd = Some (day dt) ∧ PyInt.py_int wm = Some (month dt)
    ∧ PyInt.py_int wy = Some (year dt)
    ∧ PyInt.py_int wH = Some (hour dt) ∧ PyInt.py_int wM = Some (minute dt)
    ∧ valid_date (year dt) (month dt) (day dt) = true
    ∧ 0 <= hour dt <= 23 ∧ 0 <= minute dt <= 59.
Proof.
  unfold strptime. destruct (exec format_regex data) as [[caps rest]|] eqn:He; [|done].
  destruct rest; simpl; [|done].
  apply exec_sound in He as (w & Hw & M). rewrite str_app_nil_r in Hw. subst w.
  unfold format_regex, cat, lit, plus in M. simpl foldr in M.
  inversion M as [| | |? ? wd w2 cd c2 Md M2| | |]; subst; clear M.
  inversion M2 as [| | |? ? wl1 w3 cl1 c3 Ml1 M3| | |]; subst; clear M2.
  inversion M3 as [| | |? ? wm w4 cm c4 Mm M4| | |]; subst; clear M3.
  inversion M4 as [| | |? ? wl2 w5 cl2 c5 Ml2 M5| | |]; subst; clear M4.
  inversion M5 as [| | |? ? wy w6 cy c6 My M6| | |]; subst; clear M5.
  inversion M6 as [| | |? ? ws w7 cs c7 Ms M7| | |]; subst; clear M6.
  inversion M7 as [| | |? ? wH w8 cH c8 MH M8| | |]; subst; clear M7.
  inversion M8 as [| | |? ? wl3 w9 cl3 c9 Ml3 M9| | |]; subst; clear M8.
  inversion M9 as [| | |? ? wM w10 cM c10 MM M10| | |]; subst; clear M9.
  inversion M10; subst; clear M10.
  inversion Md as [| | | | | |? ? ? Md']; subst; clear Md.
  inversion Mm as [| | | | | |? ? ? Mm']; subst; clear Mm.
  inversion My as [| | | | | |? ? ? My']; subst; clear My.
  inversion MH as [| | | | | |? ? ? MH']; subst; clear MH.
  inversion MM as [| | | | | |? ? ? MM']; subst; clear MM.
  inversion Ms; subst; clear Ms.
  inv_matches. digit_facts.
  apply directive_d_short in Md' as [-> Sd]. apply directive_m_short in Mm' as [-> Sm].
  pose proof (λ h, directive_H_value _ _ h MH') as RH.
  pose proof (λ m, directive_M_value _ _ m MM') as RM.
  apply directive_Y_four in My' as [-> SY]. apply directive_H_short in MH' as [-> SH].
  apply directive_M_short in MM' as [-> SM].
  simpl. unfold group. simpl nth.
  destruct (PyInt.py_int wd) as [d|] eqn:Ed; [|done]. simpl.
  destruct (PyInt.py_int wm) as [m|] eqn:Em; [|done]. simpl.
  destruct (PyInt.py_int wy) as [y|] eqn:Ey; [|done]. simpl.
  destruct (PyInt.py_int wH) as [H|] eqn:EH; [|done]. simpl.
  destruct (PyInt.py_int wM) as [Mi|] eqn:EM; [|done]. simpl.
  destruct (valid_date y m d) eqn:Hv; [|done]. intros [= <-]. simpl.
  exists wd, wm, wy, ws, wH, wM. rewrite !str_app_nil_r.
  specialize (RH _ eq_refl). specialize (RM _ eq_refl).
  repeat split; try done; lia.
Qed.

Ltac absurd_digit :=
  match goal with
  | H : Chars.is_digit (Ascii _ _ _ _ _ _ _ _) = true |- _ => vm_compute in H
  end.

Ltac simpl_string_eq :=
  match goal with
  | H : String _ _ = _ |- _ => simpl in H
  end.

Ltac all_digits :=
  simpl;
  repeat match goal with
  | H : Chars.is_digit _ = true |- _ => rewrite H; clear H
  end;
  reflexivity.

(** With a date text of the form "DD/MM/YYYY" in front, the date that
    [strptime] reads is the date of that text, whatever follows it. *)
Lemma strptime_date (d t : string) (dt : datetime) :
  date_form d = true ->
  strptime (d +:+ " " +:+ t) = Some dt -> date_of dt = date_of_text d.
Proof.
  intros Hd Hs.
  destruct d as [|d1 [|d2 [|s1 [|m1 [|m2 [|s2 [|y1 [|y2 [|y3 [|y4 [|]]]]]]]]]]];
    try done.
  simpl in Hd.
  apply andb_true_iff in Hd as [[Hd ->%Ascii.eqb_eq]%andb_true_iff ->%Ascii.eqb_eq].
  repeat (apply andb_true_iff in Hd as [? Hd]).
  apply strptime_inv in Hs
    as (wd & wm & wy & ws & wH & wM & Heq & Sd & Sm & SY & _ & _ & _
        & Pd & Pm & Py & _).
  destruct SY as (a1 & a2 & a3 & a4 & -> & HY).
  destruct Sd as [(a & -> & Ha)|(a & b & -> & Ha & Hb)];
    simpl in Heq; simplify_eq; try (by absurd_digit).
  destruct Sm as [(e & -> & He)|(e & f & -> & He & Hf)];
    simpl_string_eq; simplify_eq; try (by absurd_digit).
  simpl_string_eq. simplify_eq.
  unfold date_of, date_of_text. f_equal.
  - rewrite py_int_digits in Py by first [simpl; lia | done].
    unfold number. by rewrite Py.
  - rewrite py_int_digits in Pm by first [simpl; lia | all_digits].
    unfold number. by rewrite Pm.
  - rewrite py_int_digits in Pd by first [simpl; lia | all_digits].
    unfold number. by rewrite Pd.
Qed.

(** ** The shift builder (claims C2, C3 and C4) *)

(** C2. On "02/09/2024" a group that starts at "23:30" and ends at
    "00:15" is built: the end read on the same day lies before the start,
    one day is added to it, the end is then 45 minutes after the start and
    the duration is shown as "0.75h". *)
Theorem create_shift_midnight_rollover (lg deb fin line : string) :
  ∃ r e0,
    create_shift "02/09/2024"
      {| ligne := lg; ldebpce := deb; lfinpce := fin;
         start_time := Some "23:30"; end_time := Some "00:15";
         full_line := line |} = Some r
    ∧ s_start r = {| year := 2024; month := 9; day := 2; hour := 23; minute := 30 |}
    ∧ strptime "02/09/2024 00:15" = Some e0
    ∧ dt_lt e0 (s_start r) = true
    ∧ add_one_day e0 = Some (s_end r)
    ∧ s_end r = {| year := 2024; month := 9; day := 3; hour := 0; minute := 15 |}
    ∧ minutes_between (s_end r) (s_start r) = 45
    ∧ s_duration r = "0.75h".
Proof.
  eexists _, _. split; [vm_compute; reflexivity|].
  repeat split; vm_compute; reflexivity.
Qed.

Lemma dt_lt_iff (a b : datetime) :
  dt_lt a b = true <->
  year a < year b ∨ (year a = year b ∧
  (month a < month b ∨ (month a = month b ∧
  (day a < day b ∨ (day a = day b ∧
  (hour a < hour b ∨ (hour a = hour b ∧ minute a < minute b))))))).
Proof.
  unfold dt_lt.
  destruct (Z.eqb_spec (year a) (year b)); simpl; [|rewrite Z.ltb_lt; lia].
  destruct (Z.eqb_spec (month a) (month b)); simpl; [|rewrite Z.ltb_lt; lia].
  destruct (Z.eqb_spec (day a) (day b)); simpl; [|rewrite Z.ltb_lt; lia].
  destruct (Z.eqb_spec (hour a) (hour b)); simpl; rewrite Z.ltb_lt; lia.
Qed.

Lemma dt_lt_false_iff (a b : datetime) :
  dt_lt a b = false <-> ¬ (dt_lt a b = true).
Proof. destruct (dt_lt a b); split; congruence. Qed.

Lemma add_one_day_fields (t t' : datetime) :
  add_one_day t = Some t' ->
  hour t' = hour t ∧ minute t' = minute t
  ∧ (year t < year t' ∨ (year t = year t' ∧
      (month t < month t' ∨ (month t = month t' ∧ day t < day t')))).
Proof.
  unfold add_one_day. intros H.
  destruct (_ <? _); [injection H as <-; simpl; lia|].
  destruct (_ <? _); [injection H as <-; simpl; lia|].
  destruct (_ <? _); [injection H as <-; simpl; lia|done].
Qed.

(** What a successful build consists of. *)
Lemma create_shift_inv (date : string) (info : shift_info) (r : shift) :
  create_shift date info = Some r ->
  ∃ a b,
    strptime (date +:+ " " +:+ fstr (start_time info)) = Some a
    ∧ strptime (date +:+ " " +:+ fstr (end_time info)) = Some b
    ∧ (if dt_lt b a then add_one_day b else Some b) = Some (s_end r)
    ∧ s_start r = a ∧ s_date r = date_of a
    ∧ s_ligne r = ligne info ∧ s_ldebpce r = ldebpce info
    ∧ s_lfinpce r = lfinpce info ∧ s_details r = full_line info
    ∧ s_duration r = format_hours (minutes_between (s_end r) a) +:+ "h".
Proof.
  unfold create_shift. intros H.
  destruct (strptime (date +:+ " " +:+ fstr (start_time info))) as [a|]; [|done].
  destruct (strptime (date +:+ " " +:+ fstr (end_time info))) as [b|]; [|done].
  simpl in H.
  destruct (if dt_lt b a then add_one_day b else Some b) as [e|] eqn:He; [|done].
  simpl in H. injection H as <-. exists a, b. simpl. by rewrite He.
Qed.

Lemma create_shift_needs_date_form :
  ∃ r, create_shift ""
         {| ligne := "1"; ldebpce := "A"; lfinpce := "B";
            start_time := Some "3/2/2024 5:30"; end_time := Some "1/2/2024 5:20";
            full_line := "" |} = Some r
       ∧ dt_lt (s_end r) (s_start r) = true.
Proof. eexists. split; vm_compute; reflexivity. Qed.

(** C3, as the claim states it, fails: a group whose two times are the
    same is built with an end equal to its start. *)
Lemma create_shift_end_after_start_fails :
  ¬ (∀ date info r,
       create_shift date info = Some r -> dt_lt (s_start r) (s_end r) = true).
Proof.
  intros H.
  specialize (H "02/09/2024"
    {| ligne := "12"; ldebpce := "ABC"; lfinpce := "DEF";
       start_time := Some "08:00"; end_time := Some "08:00"; full_line := "" |}).
  vm_compute in H. specialize (H _ eq_refl). discriminate H.
Qed.

(** For a date text "DD/MM/YYYY" the start and the end are read on the
    same day, so the end of a built shift is on or after its start. *)
Lemma create_shift_order (date : string) (info : shift_info) (r : shift) :
  date_form date = true ->
  create_shift date info = Some r ->
  dt_lt (s_end r) (s_start r) = false
  ∧ (dt_lt (s_start r) (s_end r) = true <-> ¬ same_time_of_day (s_start r) (s_end r))
  ∧ (same_time_of_day (s_start r) (s_end r) -> s_end r = s_start r).
Proof.
  intros Hd (a & b & Ha & Hb & He & -> & _)%create_shift_inv.
  pose proof (strptime_date _ _ _ Hd Ha) as Da.
  pose proof (strptime_date _ _ _ Hd Hb) as Db.
  rewrite <- Db in Da. unfold date_of in Da. injection Da as Hy Hm Hdd.
  unfold same_time_of_day. rewrite dt_lt_false_iff, !dt_lt_iff.
  destruct (dt_lt b a) eqn:Hlt.
  - apply dt_lt_iff in Hlt. apply add_one_day_fields in He as (Hh & Hmi & Hnext).
    repeat split; try lia.
  - injection He as <-. apply dt_lt_false_iff in Hlt. rewrite dt_lt_iff in Hlt.
    repeat split; try lia.
    intros [Hh Hmi]. destruct a, b; simpl in *; by subst.
Qed.

(** C3, amended. For a date text "DD/MM/YYYY", the end of a built shift
    is never before its start; it is strictly after the start unless the
    two times of day are the same, and then the end equals the start. *)
Theorem create_shift_end_not_before_start (date : string) (info : shift_info) (r : shift) :
  date_form date = true ->
  create_shift date info = Some r ->
  dt_lt (s_end r) (s_start r) = false
  ∧ (dt_lt (s_start r) (s_end r) = true <-> ¬ same_time_of_day (s_start r) (s_end r))
  ∧ (same_time_of_day (s_start r) (s_end r) -> s_end r = s_start r).
Proof. apply create_shift_order. Qed.

Lemma create_shift_end_not_before_start_witness :
  let info := {| ligne := "12"; ldebpce := "ABC"; lfinpce := "DEF";
                 start_time := Some "23:30"; end_time := Some "00:15";
                 full_line := "" |} in
  let r := {| s_date := {| d_year := 2024; d_month := 9; d_day := 2 |};
              s_start := {| year := 2024; month := 9; day := 2; hour := 23; minute := 30 |};
              s_end := {| year := 2024; month := 9; day := 3; hour := 0; minute := 15 |};
              s_ligne := "12"; s_ldebpce := "ABC"; s_lfinpce := "DEF";
              s_duration := "0.75h"; s_details := "" |} in
  date_form "02/09/2024" = true
  ∧ create_shift "02/09/2024" info = Some r
  ∧ dt_lt (s_end r) (s_start r) = false
  ∧ (dt_lt (s_start r) (s_end r) = true <-> ¬ same_time_of_day (s_start r) (s_end r))
  ∧ (same_time_of_day (s_start r) (s_end r) -> s_end r = s_start r).
Proof.
  intros info r. split; [reflexivity|]. split; [vm_compute; reflexivity|].
  apply (create_shift_end_not_before_start "02/09/2024" info r);
    [reflexivity | vm_compute; reflexivity].
Defined.

Lemma decimal_one_digit_upto_9 :
  forallb (λ n, match PyInt.decimal (Z.of_nat n) with
                | String a EmptyString =>
                    Chars.is_digit a && (Chars.digit_value a =? Z.of_nat n)
                | _ => false
                end) (List.seq 0 10) = true.
Proof. vm_compute. reflexivity. Qed.

Lemma decimal_one_digit (z : Z) :
  0 <= z <= 9 ->
  ∃ a, PyInt.decimal z = String a ""
       ∧ Chars.is_digit a = true ∧ Chars.digit_value a = z.
Proof.
  intros Hz. pose proof decimal_one_digit_upto_9 as H.
  rewrite forallb_forall in H. specialize (H (Z.to_nat z)).
  rewrite Z2Nat.id in H by lia.
  assert (Hin : In (Z.to_nat z) (List.seq 0 10)) by (apply in_seq; lia).
  specialize (H Hin).
  destruct (PyInt.decimal z) as [|a [|]]; try done.
  apply andb_true_iff in H as [Ha Hb]. apply Z.eqb_eq in Hb. by exists a.
Qed.

Lemma digit_not_minus (c : ascii) : Chars.is_digit c = true -> Ascii.eqb c "-" = false.
Proof.
  intros H. apply is_digit_cases in H. simpl in H.
  repeat destruct H as [<-|H]; try reflexivity. destruct H.
Qed.

Lemma digits_no_dot (s : string) :
  str_all Chars.is_digit s = true -> no_char "." s = true.
Proof.
  apply str_all_impl. intros c H. apply is_digit_cases in H. simpl in H.
  repeat destruct H as [<-|H]; try reflexivity. destruct H.
Qed.

(** Reading a stored duration gives back the rounded number of hundredths
    that was printed. *)
Lemma read_format_hours (m : Z) :
  read_hundredths (format_hours m +:+ "h")
  = Some (Z.sgn m * ((10 * Z.abs m + 3) / 6)).
Proof.
  unfold format_hours. set (cents := (10 * Z.abs m + 3) / 6).
  assert (Hc : 0 <= cents) by (apply Z.div_pos; lia).
  assert (H1 : 0 <= cents mod 100 / 10 <= 9).
  { pose proof (Z.mod_pos_bound cents 100 ltac:(lia)).
    split; [apply Z.div_pos; lia|]. apply Z.lt_succ_r.
    apply Z.div_lt_upper_bound; lia. }
  assert (H2 : 0 <= cents mod 10 <= 9).
  { pose proof (Z.mod_pos_bound cents 10 ltac:(lia)). lia. }
  destruct (decimal_one_digit _ H1) as (a & -> & Ha & Va).
  destruct (decimal_one_digit _ H2) as (b & -> & Hb & Vb).
  set (body := PyInt.decimal (cents / 100) +:+ String "." (String a (String b "h"))).
  assert (Hfmt :
    ((if m <? 0 then "-" else "") +:+ PyInt.decimal (cents / 100) +:+ "."
       +:+ String a "" +:+ String b "") +:+ "h"
    = (if m <? 0 then "-" else "") +:+ body).
  { by rewrite !str_app_assoc. }
  rewrite Hfmt. clear Hfmt.
  assert (Hbody : ∀ sign,
    match Str.split_on "." body with
    | [i; String a (String b (String h EmptyString))] =>
        if Chars.is_digit a && Chars.is_digit b && Ascii.eqb h "h" then
          (λ n, sign * (100 * n + 10 * Chars.digit_value a + Chars.digit_value b))
            <$> PyInt.digits i 0 false
        else None
    | _ => None
    end = Some (sign * cents)).
  { intros sign. unfold body.
    rewrite split_on_app by apply digits_no_dot, decimal_digits.
    rewrite split_on_none.
    2:{ unfold no_char. simpl.
        pose proof (digits_no_dot (String a (String b "")) ltac:(simpl; by rewrite Ha, Hb)) as Hn.
        unfold no_char in Hn. simpl in Hn.
        apply andb_true_iff in Hn as [-> Hn]. apply andb_true_iff in Hn as [-> _]. done. }
    rewrite Ha, Hb. simpl.
    rewrite digits_decimal by (apply Z.div_pos; lia). simpl. f_equal.
    rewrite Va, Vb. f_equal. clear. Z.to_euclidean_division_equations. lia. }
  unfold read_hundredths.
  destruct (Z.ltb_spec m 0) as [Hm|Hm].
  - change ("-" +:+ body) with (String "-" body). cbv beta iota.
    change (Ascii.eqb "-" "-") with true. cbv beta iota.
    replace (Z.sgn m) with (-1) by lia. apply Hbody.
  - change ("" +:+ body) with body.
    assert (Hs : Z.sgn m * cents = 1 * cents).
    { destruct (Z.eq_dec m 0) as [->|]; [by vm_compute|].
      replace (Z.sgn m) with 1 by lia. done. }
    rewrite Hs, <- (Hbody 1).
    pose proof (decimal_nonempty (cents / 100)) as Hne.
    pose proof (decimal_digits (cents / 100)) as Hdig.
    unfold body in *. clear Hbody.
    destruct (PyInt.decimal (cents / 100)) as [|c s] eqn:E; [done|].
    simpl in Hdig. apply andb_true_iff in Hdig as [Hcd _].
    change (String c s +:+ ?x) with (String c (s +:+ x)).
    cbv beta iota. by rewrite (digit_not_minus _ Hcd).
Qed.

(** C4, as the claim states it, fails: the stored duration of a shift of
    ten minutes is the text "0.17h", seventeen hundredths of an hour,
    which is not the sixth of an hour between its start and its end. *)
Lemma create_shift_duration_exact_fails :
  ¬ (∀ date info r,
       create_shift date info = Some r ->
       ∃ c, read_hundredths (s_duration r) = Some c
            ∧ 60 * c = 100 * minutes_between (s_end r) (s_start r)).
Proof.
  intros H.
  destruct (H "02/09/2024"
    {| ligne := "12"; ldebpce := "ABC"; lfinpce := "DEF";
       start_time := Some "08:00"; end_time := Some "08:10"; full_line := "" |}
    {| s_date := {| d_year := 2024; d_month := 9; d_day := 2 |};
       s_start := {| year := 2024; month := 9; day := 2; hour := 8; minute := 0 |};
       s_end := {| year := 2024; month := 9; day := 2; hour := 8; minute := 10 |};
       s_ligne := "12"; s_ldebpce := "ABC"; s_lfinpce := "DEF";
       s_duration := "0.17h"; s_details := "" |})
    as (c & Hc & Heq); [vm_compute; reflexivity|].
  vm_compute in Hc. injection Hc as <-. vm_compute in Heq. discriminate Heq.
Qed.

(** C4, amended. The duration field of a built shift is the display text
    itself: the minutes between start and end as hours, rounded to the
    nearest hundredth and followed by "h". The number it denotes is within
    half a hundredth of an hour of the exact duration, which is stored
    nowhere else than in the start and the end. *)
Theorem create_shift_duration_is_display_text (date : string) (info : shift_info) (r : shift) :
  create_shift date info = Some r ->
  let m := minutes_between (s_end r) (s_start r) in
  s_duration r = format_hours m +:+ "h"
  ∧ ∃ c, read_hundredths (s_duration r) = Some c ∧ -3 <= 6 * c - 10 * m <= 3.
Proof.
  intros (a & b & _ & _ & _ & -> & _ & _ & _ & _ & _ & Hdur)%create_shift_inv m.
  split; [done|]. rewrite Hdur. fold m. rewrite read_format_hours.
  eexists. split; [reflexivity|].
  pose proof (Z.div_mod (10 * Z.abs m + 3) 6 ltac:(lia)) as Hdiv.
  pose proof (Z.mod_pos_bound (10 * Z.abs m + 3) 6 ltac:(lia)) as Hmod.
  destruct (Z.lt_trichotomy m 0) as [Hm|[->|Hm]].
  - replace (Z.sgn m) with (-1) by lia. lia.
  - vm_compute. split; discriminate.
  - replace (Z.sgn m) with 1 by lia. lia.
Qed.

Lemma create_shift_duration_is_display_text_witness :
  let info := {| ligne := "12"; ldebpce := "ABC"; lfinpce := "DEF";
                 start_time := Some "08:00"; end_time := Some "08:10";
                 full_line := "" |} in
  let r := {| s_date := {| d_year := 2024; d_month := 9; d_day := 2 |};
              s_start := {| year := 2024; month := 9; day := 2; hour := 8; minute := 0 |};
              s_end := {| year := 2024; month := 9; day := 2; hour := 8; minute := 10 |};
              s_ligne := "12"; s_ldebpce := "ABC"; s_lfinpce := "DEF";
              s_duration := "0.17h"; s_details := "" |} in
  create_shift "02/09/2024" info = Some r
  ∧ let m := minutes_between (s_end r) (s_start r) in
    s_duration r = format_hours m +:+ "h"
    ∧ ∃ c, read_hundredths (s_duration r) = Some c ∧ -3 <= 6 * c - 10 * m <= 3.
Proof.
  intros info r. split; [vm_compute; reflexivity|].
  apply (create_shift_duration_is_display_text "02/09/2024" info r).
  vm_compute; reflexivity.
Defined.

(** ** The calendar *)

Lemma days_before_month_succ (y m : Z) :
  1 <= m < 12 ->
  days_before_month y (m + 1) = days_before_month y m + days_in_month y m.
Proof.
  intros Hm.
  assert (Hc : m = 1 ∨ m = 2 ∨ m = 3 ∨ m = 4 ∨ m = 5 ∨ m = 6 ∨ m = 7
               ∨ m = 8 ∨ m = 9 ∨ m = 10 ∨ m = 11) by lia.
  unfold days_before_month.
  repeat destruct Hc as [->|Hc]; try subst m;
    cbv -[is_leap Z.add]; destruct (is_leap y); reflexivity.
Qed.

Lemma days_before_year_succ (y : Z) :
  days_before_year (y + 1) = days_before_year y + (if is_leap y then 366 else 365).
Proof.
  unfold days_before_year, is_leap.
  replace (y + 1 - 1) with y by lia.
  destruct (Z.eqb_spec (y mod 4) 0) as [H4|H4];
    destruct (Z.eqb_spec (y mod 100) 0) as [H100|H100];
    destruct (Z.eqb_spec (y mod 400) 0) as [H400|H400]; simpl;
    Z.to_euclidean_division_equations; lia.
Qed.

Lemma days_before_month_12 (y : Z) :
  days_before_month y 12 = (if is_leap y then 335 else 334).
Proof. unfold days_before_month. cbv -[is_leap Z.add]. by destruct (is_leap y). Qed.

Lemma days_in_month_12 (y : Z) : days_in_month y 12 = 31.
Proof. reflexivity. Qed.

(** [add_one_day] is the date of the next ordinal. *)
Lemma add_one_day_ordinal (t t' : datetime) :
  valid_date (year t) (month t) (day t) = true ->
  add_one_day t = Some t' -> toordinal t' = toordinal t + 1.
Proof.
  unfold valid_date, add_one_day, toordinal, ymd2ord, MINYEAR, MAXYEAR.
  intros Hv.
  repeat (apply andb_true_iff in Hv as [Hv ?]).
  repeat match goal with H : (_ <=? _) = true |- _ => apply Z.leb_le in H end.
  destruct (Z.ltb_spec (day t) (days_in_month (year t) (month t))) as [Hd|Hd].
  { intros [= <-]. simpl. lia. }
  destruct (Z.ltb_spec (month t) 12) as [Hm|Hm].
  { intros [= <-]. simpl. rewrite days_before_month_succ by lia. lia. }
  destruct (Z.ltb_spec (year t) 9999) as [Hy|Hy]; [|done].
  intros [= <-]. simpl.
  assert (Hm12 : month t = 12) by lia. rewrite Hm12 in *.
  rewrite days_before_year_succ, days_before_month_12.
  rewrite days_in_month_12 in *.
  change (days_before_month (year t + 1) 1) with 0.
  destruct (is_leap (year t)); lia.
Qed.

(** For a date text "DD/MM/YYYY", a built shift lasts less than a day. *)
Lemma create_shift_duration_range (date : string) (info : shift_info) (r : shift) :
  date_form date = true ->
  create_shift date info = Some r ->
  0 <= minutes_between (s_end r) (s_start r) <= 1439.
Proof.
  intros Hd (a & b & Ha & Hb & He & -> & _)%create_shift_inv.
  pose proof (strptime_date _ _ _ Hd Ha) as Da.
  pose proof (strptime_date _ _ _ Hd Hb) as Db.
  rewrite <- Db in Da. unfold date_of in Da. injection Da as Hy Hm Hdd.
  apply strptime_inv in Ha as (? & ? & ? & ? & ? & ? & _ & _ & _ & _ & _ & _ & _
                               & _ & _ & _ & _ & _ & _ & RHa & RMa).
  apply strptime_inv in Hb as (? & ? & ? & ? & ? & ? & _ & _ & _ & _ & _ & _ & _
                               & _ & _ & _ & _ & _ & Vb & RHb & RMb).
  assert (Hord : toordinal a = toordinal b).
  { unfold toordinal. by rewrite Hy, Hm, Hdd. }
  unfold minutes_between.
  destruct (dt_lt b a) eqn:Hlt.
  - apply dt_lt_iff in Hlt.
    pose proof (add_one_day_ordinal _ _ Vb He) as Hnext.
    apply add_one_day_fields in He as (Hh & Hmi & _).
    rewrite Hnext, Hh, Hmi, Hord. lia.
  - injection He as <-. apply dt_lt_false_iff in Hlt. rewrite dt_lt_iff in Hlt.
    rewrite Hord. lia.
Qed.

(** ** The loop over the matches of one line *)

Section Loop.
Variable date : string.

Lemma loop_body_none (store : list shift_info) (out : list shift) (i : nat) (x : shift_info) :
  store !! i = Some x ->
  loop_body date (store, None, out) i
  = (store, None, out ++ omap (create_shift date) [x]).
Proof.
  intros Hx. unfold loop_body. rewrite Hx. simpl.
  destruct (create_shift date x); simpl; [done | by rewrite app_nil_r].
Qed.

(** Once nothing is pending, the iterations leave the list as it is and
    append every group that builds. *)
Lemma loop_without_pending (store : list shift_info) : ∀ (n k : nat) (out : list shift),
  (k + n)%nat = length store ->
  foldl (loop_body date) (store, None, out) (List.seq k n)
  = (store, None, out ++ omap (create_shift date) (drop k store)).
Proof.
  induction n as [|n IH]; intros k out Hlen.
  - simpl. by rewrite drop_ge, app_nil_r by lia.
  - destruct (lookup_lt_is_Some_2 store k ltac:(lia)) as [x Hx].
    change (List.seq k (S n)) with (k :: List.seq (S k) n). cbn [foldl].
    rewrite (loop_body_none _ _ _ _ Hx), IH by lia.
    rewrite (drop_S _ _ _ Hx), <- app_assoc. f_equal.
    change (x :: drop (S k) store) with ([x] ++ drop (S k) store).
    by rewrite omap_app.
Qed.

Lemma index_head (x : shift_info) (l : list shift_info) : index (x :: l) x = Some 0%nat.
Proof. unfold index. simpl. by rewrite decide_True. Qed.

(** The loop hands the groups to the builder with the carry-over applied
    to the first of them, uses up the pending fragment there, and appends
    every successful build in order. *)
Lemma for_shifts_spec (groups : list shift_info) (pending : option first_shift)
    (out : list shift) :
  for_shifts date groups pending out
  = (apply_carry pending groups, pending_after pending groups,
     out ++ omap (create_shift date) (apply_carry pending groups)).
Proof.
  unfold for_shifts. destruct pending as [f|].
  - destruct groups as [|g rest]; simpl; [by rewrite app_nil_r|].
    rewrite index_head. simpl.
    assert (Hlen : (1 + length rest)%nat = length (carry f g :: rest)) by done.
    destruct (create_shift date (carry f g)) as [s|] eqn:Hs.
    + rewrite (loop_without_pending (carry f g :: rest) _ 1 _ Hlen).
      simpl. by rewrite <- app_assoc.
    + by rewrite (loop_without_pending (carry f g :: rest) _ 1 _ Hlen).
  - rewrite (loop_without_pending groups (length groups) 0 out eq_refl).
    by destruct groups.
Qed.
End Loop.

Lemma run_loop_spec (date line : string) (pending : option first_shift) (out : list shift) :
  run_loop date line pending out
  = {| current_date := Some date;
       first_shift_time := pending_after pending (extract_shifts_info line);
       shifts := out ++ omap (create_shift date)
                          (apply_carry pending (extract_shifts_info line)) |}.
Proof. unfold run_loop. by rewrite for_shifts_spec. Qed.

(** ** The date of a date line *)

Lemma rep_exact (p : cls) (n : nat) (w : string) (c : list string) :
  matches (Rep p n (Some n)) w c ->
  c = [] ∧ String.length w = n ∧ str_all (cls_mem p) w = true.
Proof. intros M. inversion M; subst. simpl in *. repeat split; [lia | done]. Qed.

Lemma rep_no_groups (p : cls) (lo : nat) (hi : option nat) (w : string) (c : list string) :
  matches (Rep p lo hi) w c -> c = [].
Proof. intros M. by inversion M. Qed.

(** Group 1 of the date pattern is a text "DD/MM/YYYY". *)
Lemma date_pattern_group (w : string) (caps : list string) :
  matches date_pattern w caps -> date_form (group 1 caps) = true.
Proof.
  intros M. unfold date_pattern, cat, lit, plus, upto in M. simpl in M.
  inv_matches.
  repeat match goal with
  | H : matches (Rep _ ?n (Some ?n)) _ _ |- _ =>
      apply rep_exact in H as (-> & ? & ?)
  | H : matches (Rep _ _ None) _ _ |- _ => apply rep_no_groups in H as ->
  end.
  digit_facts. simpl. unfold group. simpl.
  repeat match goal with
  | H : String.length ?w = _ |- _ =>
      destruct w as [|? [|? [|? [|? [|? ?]]]]]; try discriminate H; clear H
  end.
  simpl in *.
  repeat match goal with
  | H : _ && _ = true |- _ => apply andb_true_iff in H as [? ?]
  end.
  by repeat match goal with
     | H : Chars.is_digit _ = true |- _ => rewrite H; clear H
     end.
Qed.

Lemma date_match_form (line d : string) :
  date_match line = Some d -> date_form d = true.
Proof.
  unfold date_match.
  destruct (search date_pattern line) as [[caps rest]|] eqn:Hs; [|done].
  simpl. intros [= <-]. apply search_sound in Hs as (w & M).
  by eapply date_pattern_group.
Qed.

Lemma date_form_truthy (d : string) : date_form d = true -> truthy (Some d) = true.
Proof. by destruct d. Qed.

Lemma date_match_truthy (line d : string) :
  date_match line = Some d -> truthy (Some d) = true.
Proof. intros H. by eapply date_form_truthy, date_match_form. Qed.

(** The general pattern matches no empty text, as [finditer] assumes:
    every match leaves strictly less of the line. *)
Lemma shift_pattern_consumes (s rest : string) (caps : list string) :
  exec shift_pattern s = Some (caps, rest) ->
  (String.length rest < String.length s)%nat.
Proof.
  intros (w & -> & M)%exec_sound. rewrite str_app_length.
  unfold shift_pattern, cat, plus in M. simpl in M.
  inversion M as [| | |? ? w1 w2 c1 c2 M1 M2| | |]; subst.
  inversion M1 as [| | | | | |? ? ? M1']; subst.
  inversion M1'; subst. rewrite str_app_length. lia.
Qed.

(** ** One line of the schedule *)

Lemma omap_build (date : string) (groups : list shift_info) :
  omap build ((λ g, (date, g)) <$> groups) = omap (create_shift date) groups.
Proof.
  induction groups as [|g groups IH]; [done|].
  cbn. unfold build at 1. simpl. by rewrite IH.
Qed.

(** Every line appends to the output the successful builds of the groups
    it hands to the builder, and nothing else. *)
Lemma step_shifts (st : parser) (line : string) :
  shifts (step st line) = shifts st ++ omap build (handed st line).
Proof.
  unfold step, handed.
  destruct (is_header line); [by rewrite app_nil_r|].
  destruct (Str.startswith "9387" line).
  - destruct (date_match line) as [date|]; [|by rewrite app_nil_r].
    destruct (is_rest_day line); [by rewrite app_nil_r|].
    by rewrite run_loop_spec, omap_build.
  - destruct (truthy (current_date st) && Str.contains "-" line);
      [|by rewrite app_nil_r].
    destruct (current_date st) as [date|]; [|by rewrite app_nil_r].
    by rewrite run_loop_spec, omap_build.
Qed.

Lemma run_shifts (lines : list string) : ∀ st,
  shifts (run lines st) = shifts st ++ omap build (handed_all st lines).
Proof.
  induction lines as [|line lines IH]; intros st; simpl.
  - by rewrite app_nil_r.
  - unfold run in *. simpl. by rewrite IH, step_shifts, omap_app, app_assoc.
Qed.

(** A line that does not set the date, met while a date is current. *)
Lemma step_continuation (st : parser) (line date : string) :
  sets_date line = false ->
  current_date st = Some date -> truthy (Some date) = true ->
  step st line
  = {| current_date := Some date;
       first_shift_time := pending_after (first_shift_time st) (continuation_groups line);
       shifts := shifts st ++ omap (create_shift date)
                   (apply_carry (first_shift_time st) (continuation_groups line)) |}.
Proof.
  intros Hsd Hdate Htruthy. unfold step, continuation_groups, sets_date in *.
  assert (Hsame : st = {| current_date := Some date;
                          first_shift_time := pending_after (first_shift_time st) [];
                          shifts := shifts st ++
                            omap (create_shift date) (apply_carry (first_shift_time st) []) |}).
  { destruct st as [cd fs sh]; simpl in *. subst cd.
    destruct fs; simpl; by rewrite app_nil_r. }
  destruct (is_header line); [done|].
  destruct (Str.startswith "9387" line).
  - simpl in Hsd. apply bool_decide_eq_false in Hsd.
    destruct (date_match line); [|done]. exfalso. by apply Hsd.
  - rewrite Hdate, Htruthy. simpl.
    destruct (Str.contains "-" line); [|done]. apply run_loop_spec.
Qed.

Lemma apply_carry_app (p : option first_shift) (g1 g2 : list shift_info) :
  apply_carry p (g1 ++ g2) = apply_carry p g1 ++ apply_carry (pending_after p g1) g2.
Proof.
  destruct p as [f|]; destruct g1 as [|x g1]; simpl; try done; by destruct g2.
Qed.

Lemma pending_after_app (p : option first_shift) (g1 g2 : list shift_info) :
  pending_after p (g1 ++ g2) = pending_after (pending_after p g1) g2.
Proof. destruct g1; simpl; [done | by destruct g2]. Qed.

(** A run of lines none of which sets the date, met while a date is
    current: the groups of all the lines form one sequence, and the
    pending fragment goes to the first group of that sequence. *)
Lemma run_continuation (lines : list string) : ∀ (st : parser) (date : string),
  Forall (λ l, sets_date l = false) lines ->
  current_date st = Some date -> truthy (Some date) = true ->
  run lines st
  = {| current_date := Some date;
       first_shift_time :=
         pending_after (first_shift_time st) (flat_map continuation_groups lines);
       shifts := shifts st ++ omap (create_shift date)
                   (apply_carry (first_shift_time st)
                      (flat_map continuation_groups lines)) |}.
Proof.
  induction lines as [|line lines IH]; intros st date Hall Hdate Htruthy.
  - simpl. destruct st as [cd fs sh]; simpl in *. subst cd.
    destruct fs; simpl; by rewrite app_nil_r.
  - apply Forall_cons in Hall as [Hline Hall].
    unfold run in *. cbn [foldl].
    rewrite (step_continuation st line date Hline Hdate Htruthy).
    rewrite (IH _ date Hall) by done. cbn [flat_map].
    cbn [current_date first_shift_time shifts].
    by rewrite apply_carry_app, pending_after_app, omap_app, app_assoc.
Qed.

(** ** The schedule parser (claims C1, C5, C6, C9 and C10) *)

(** C5. A date line whose date is read and whose tokens 3 and 4 hold a
    rest or holiday code sets the current date and does nothing else: no
    group is handed to the builder, the output and the pending fragment
    are as before, whatever else the line contains. *)
Theorem rest_day_line_only_sets_date (st : parser) (line date : string) :
  is_header line = false ->
  Str.startswith "9387" line = true ->
  date_match line = Some date ->
  is_rest_day line = true ->
  step st line = {| current_date := Some date;
                    first_shift_time := first_shift_time st;
                    shifts := shifts st |}
  ∧ handed st line = [].
Proof.
  intros Hh Hp Hd Hr. unfold step, handed. by rewrite Hh, Hp, Hd, Hr.
Qed.

Lemma rest_day_line_only_sets_date_witness :
  let line := "9387 ma. 03/09/2024 R BO 5:10 13:45 Urb 12 1201 - 3 ABC 5:10 6:40 DEF" in
  (extract_shifts_info line ≠ [] ∧ is_Some (extract_first_shift_time line))
  ∧ step initial line = {| current_date := Some "03/09/2024";
                           first_shift_time := first_shift_time initial;
                           shifts := shifts initial |}
  ∧ handed initial line = [].
Proof.
  intros line. split; [split; [vm_compute; discriminate | eexists; vm_compute; reflexivity]|].
  apply (rest_day_line_only_sets_date initial line "03/09/2024"); reflexivity.
Defined.

(** C6. A line that starts with the record prefix and whose date is not
    read changes nothing; a line without the prefix changes nothing while
    no date is current; hence the state stays as it is over any run of
    lines that set no date, as long as no date is current. *)
Theorem no_date_no_effect :
  (∀ st line, Str.startswith "9387" line = true -> date_match line = None ->
              step st line = st ∧ handed st line = [])
  ∧ (∀ st line, current_date st = None -> Str.startswith "9387" line = false ->
                step st line = st ∧ handed st line = [])
  ∧ (∀ lines st, current_date st = None ->
                 Forall (λ l, sets_date l = false) lines ->
                 run lines st = st ∧ handed_all st lines = []).
Proof.
  assert (H1 : ∀ st line, Str.startswith "9387" line = true -> date_match line = None ->
                          step st line = st ∧ handed st line = []).
  { intros st line Hp Hd. unfold step, handed. rewrite Hp, Hd. by destruct (is_header line). }
  assert (H2 : ∀ st line, current_date st = None -> Str.startswith "9387" line = false ->
                          step st line = st ∧ handed st line = []).
  { intros st line Hc Hp. unfold step, handed. rewrite Hp, Hc. simpl.
    by destruct (is_header line). }
  split; [done|]. split; [done|].
  induction lines as [|line lines IH]; intros st Hc Hall; [done|].
  apply Forall_cons in Hall as [Hline Hall].
  assert (Hstep : step st line = st ∧ handed st line = []).
  { unfold sets_date in Hline.
    destruct (is_header line) eqn:Hh.
    { unfold step, handed. by rewrite Hh. }
    destruct (Str.startswith "9387" line) eqn:Hp; [|by apply H2].
    apply H1; [done|]. simpl in Hline. apply bool_decide_eq_false in Hline.
    destruct (date_match line); [|done]. exfalso. by apply Hline. }
  destruct Hstep as [Hs Hh]. unfold run in *. simpl. rewrite Hs, Hh.
  by apply IH.
Qed.

Lemma no_date_no_effect_witness :
  (let line := "9387 lundi 02/09/2024 12 1201 - 3 ABC 5:10 6:40 DEF" in
   let st := {| current_date := Some "01/09/2024"; first_shift_time := None; shifts := [] |} in
   extract_shifts_info line ≠ [] ∧ step st line = st ∧ handed st line = [])
  ∧ (let line := "12 1201 - 3 ABC 5:10 6:40 DEF" in
     extract_shifts_info line ≠ []
     ∧ step initial line = initial ∧ handed initial line = [])
  ∧ (let lines := ["12 1201 - 3 ABC 5:10 6:40 DEF";
                   "9387 lundi 02/09/2024 12 1201 - 3 ABC 5:10 6:40 DEF";
                   "7 22 - 4 GHI 7:00 8:15 JKL"] in
     run lines initial = initial ∧ handed_all initial lines = []).
Proof.
  destruct no_date_no_effect as (H1 & H2 & H3).
  split; [|split].
  - intros line st. split; [vm_compute; discriminate|]. apply (H1 st line); reflexivity.
  - intros line. split; [vm_compute; discriminate|]. apply (H2 initial line); reflexivity.
  - intros lines. apply (H3 lines initial); [reflexivity|].
    repeat constructor.
Defined.

(** C9. A group whose date and time are not read as an instant is not
    built. The output of a pass is the output before it followed by the
    successful builds of all the groups handed to the builder, in order:
    a group that fails to build is left out, and every other group, of the
    same line or of a later one, is built and appended all the same. *)
Theorem failed_build_is_skipped :
  (∀ date g,
     strptime (date +:+ " " +:+ fstr (start_time g)) = None
     ∨ strptime (date +:+ " " +:+ fstr (end_time g)) = None ->
     create_shift date g = None)
  ∧ (∀ lines st,
       shifts (run lines st) = shifts st ++ omap build (handed_all st lines))
  ∧ (∀ lines st before dg after,
       handed_all st lines = before ++ dg :: after -> build dg = None ->
       shifts (run lines st) = shifts st ++ omap build before ++ omap build after).
Proof.
  split; [|split].
  - intros date g [H|H]; unfold create_shift; rewrite H; [done|].
    by destruct (strptime (date +:+ " " +:+ fstr (start_time g))).
  - intros lines st. apply run_shifts.
  - intros lines st before dg after Hh Hb.
    rewrite run_shifts, Hh, omap_app. f_equal. f_equal.
    change (dg :: after) with ([dg] ++ after). rewrite omap_app. simpl.
    by rewrite Hb.
Qed.

Lemma failed_build_is_skipped_witness :
  let lines := ["9387 lu. 02/09/2024 A B 12 1201 - 3 ABC 25:99 6:40 DEF 7 22 - 4 GHI 7:00 8:15 JKL";
                "8 1 - 2 MNO 9:00 10:30 PQR"] in
  ∃ dg after,
    handed_all initial lines = [] ++ dg :: after
    ∧ length after = 2%nat
    ∧ build dg = None
    ∧ shifts (run lines initial) = shifts initial ++ omap build [] ++ omap build after
    ∧ length (shifts (run lines initial)) = 2%nat.
Proof.
  intros lines. destruct failed_build_is_skipped as (H1 & H2 & H3).
  eexists _, _. split; [vm_compute; reflexivity|].
  split; [reflexivity|].
  assert (Hb : build ("02/09/2024",
                      {| ligne := "12"; ldebpce := "ABC"; lfinpce := "DEF";
                         start_time := Some "25:99"; end_time := Some "06:40";
                         full_line := "9387 lu. 02/09/2024 A B 12 1201 - 3 ABC 25:99 6:40 DEF 7 22 - 4 GHI 7:00 8:15 JKL" |})
               = None).
  { apply H1. left. vm_compute. reflexivity. }
  split; [exact Hb|].
  split; [|vm_compute; reflexivity].
  eapply (H3 lines initial []); [vm_compute; reflexivity | exact Hb].
Defined.

(** C1. On a date line that is not a rest day, followed by lines that set
    no date, the general matches of all these lines form the groups of
    the date. The fragment of the date line replaces the origin and the
    start time of the first of these groups, whose other fields are kept,
    and of no later group; the slot is empty as soon as there is a first
    group. Without a fragment every group is built as it was matched. *)
Theorem first_shift_carry_over (st : parser) (line date : string) (rest_lines : list string) :
  is_header line = false ->
  Str.startswith "9387" line = true ->
  date_match line = Some date ->
  is_rest_day line = false ->
  Forall (λ l, sets_date l = false) rest_lines ->
  let groups := extract_shifts_info line ++ flat_map continuation_groups rest_lines in
  let pending := extract_first_shift_time line in
  run (line :: rest_lines) st
  = {| current_date := Some date;
       first_shift_time := pending_after pending groups;
       shifts := shifts st ++ omap (create_shift date) (apply_carry pending groups) |}
  ∧ (∀ f g rest,
       apply_carry (Some f) (g :: rest)
       = {| ligne := ligne g; ldebpce := fs_ldebpce f; lfinpce := lfinpce g;
            start_time := fs_start_time f; end_time := end_time g;
            full_line := full_line g |} :: rest
       ∧ pending_after (Some f) (g :: rest) = None)
  ∧ (∀ gs, apply_carry None gs = gs).
Proof.
  intros Hh Hp Hd Hr Hall groups pending. split; [|done].
  unfold run. cbn [foldl].
  assert (Hstep : step st line = run_loop date line pending (shifts st)).
  { unfold step. by rewrite Hh, Hp, Hd, Hr. }
  rewrite Hstep, run_loop_spec.
  pose proof (date_match_truthy _ _ Hd) as Htruthy.
  fold (run rest_lines
    {| current_date := Some date;
       first_shift_time := pending_after pending (extract_shifts_info line);
       shifts := shifts st ++ omap (create_shift date)
                   (apply_carry pending (extract_shifts_info line)) |}).
  rewrite (run_continuation rest_lines _ date Hall) by done.
  cbn [current_date first_shift_time shifts]. unfold groups.
  by rewrite apply_carry_app, pending_after_app, omap_app, app_assoc.
Qed.

Lemma first_shift_carry_over_witness :
  let line := "9387 lu. 02/09/2024 BO 5:10 13:45 Urb 12 1201 - 3 ABC 12 1201 - 3 XYZ 5:25 6:40 DEF 7 22 - 4 GHI 7:00 8:15 JKL" in
  let rest_lines := ["8 1 - 2 MNO 9:00 10:30 PQR"] in
  let groups := extract_shifts_info line ++ flat_map continuation_groups rest_lines in
  let pending := extract_first_shift_time line in
  (pending = Some {| fs_ldebpce := "ABC"; fs_start_time := Some "05:10" |}
   ∧ length groups = 3%nat)
  ∧ run (line :: rest_lines) initial
    = {| current_date := Some "02/09/2024";
         first_shift_time := pending_after pending groups;
         shifts := shifts initial
                   ++ omap (create_shift "02/09/2024") (apply_carry pending groups) |}
  ∧ (∀ f g rest,
       apply_carry (Some f) (g :: rest)
       = {| ligne := ligne g; ldebpce := fs_ldebpce f; lfinpce := lfinpce g;
            start_time := fs_start_time f; end_time := end_time g;
            full_line := full_line g |} :: rest
       ∧ pending_after (Some f) (g :: rest) = None)
  ∧ (∀ gs, apply_carry None gs = gs).
Proof.
  intros line rest_lines groups pending.
  split; [split; vm_compute; reflexivity|].
  apply (first_shift_carry_over initial line "02/09/2024" rest_lines);
    try reflexivity.
  repeat constructor.
Defined.

(** C10. A rest-day line updates the date and nothing else: the pending
    fragment and the output stay as they are. Over the lines that follow
    it and set no date, a fragment that was pending before the rest-day
    line therefore goes to the first general match: the group that is
    built has the origin and the start time of the fragment and the
    route, the destination, the end time and the line of the match; it is
    built under the date of the rest day, and the slot is empty
    afterwards. The record, if the build succeeds, has the origin of the
    fragment and starts at the fragment's time on the rest day's date. *)
Theorem rest_day_keeps_pending_fragment (st : parser) (line date : string)
    (rest_lines : list string) :
  is_header line = false ->
  Str.startswith "9387" line = true ->
  date_match line = Some date ->
  is_rest_day line = true ->
  Forall (λ l, sets_date l = false) rest_lines ->
  let groups := flat_map continuation_groups rest_lines in
  step st line = {| current_date := Some date;
                    first_shift_time := first_shift_time st;
                    shifts := shifts st |}
  ∧ run (line :: rest_lines) st
    = {| current_date := Some date;
         first_shift_time := pending_after (first_shift_time st) groups;
         shifts := shifts st ++ omap (create_shift date)
                     (apply_carry (first_shift_time st) groups) |}
  ∧ (∀ f g rest,
       first_shift_time st = Some f -> groups = g :: rest ->
       let g' := {| ligne := ligne g; ldebpce := fs_ldebpce f; lfinpce := lfinpce g;
                    start_time := fs_start_time f; end_time := end_time g;
                    full_line := full_line g |} in
       run (line :: rest_lines) st
       = {| current_date := Some date;
            first_shift_time := None;
            shifts := shifts st ++ omap (create_shift date) (g' :: rest) |}
       ∧ ∀ r, create_shift date g' = Some r ->
              shifts (run (line :: rest_lines) st)
              = shifts st ++ r :: omap (create_shift date) rest
              ∧ s_ldebpce r = fs_ldebpce f
              ∧ strptime (date +:+ " " +:+ fstr (fs_start_time f)) = Some (s_start r)
              ∧ s_date r = date_of_text date
              ∧ s_ligne r = ligne g ∧ s_lfinpce r = lfinpce g
              ∧ s_details r = full_line g).
Proof.
  intros Hh Hp Hd Hr Hall groups.
  assert (Hstep : step st line = {| current_date := Some date;
                                    first_shift_time := first_shift_time st;
                                    shifts := shifts st |}).
  { unfold step. by rewrite Hh, Hp, Hd, Hr. }
  assert (Hrun : run (line :: rest_lines) st
                 = {| current_date := Some date;
                      first_shift_time := pending_after (first_shift_time st) groups;
                      shifts := shifts st ++ omap (create_shift date)
                                  (apply_carry (first_shift_time st) groups) |}).
  { unfold run. cbn [foldl]. rewrite Hstep.
    pose proof (date_match_truthy _ _ Hd) as Htruthy.
    fold (run rest_lines {| current_date := Some date;
                            first_shift_time := first_shift_time st;
                            shifts := shifts st |}).
    by rewrite (run_continuation rest_lines _ date Hall) by done. }
  split; [done|]. split; [done|].
  intros f g rest Hf Hg g'. rewrite Hrun, Hf, Hg. split; [done|].
  intros r Hb.
  assert (Hom : omap (create_shift date) (g' :: rest)
                = r :: omap (create_shift date) rest).
  { change (omap (create_shift date) (g' :: rest))
      with (match create_shift date g' with
            | Some y => y :: omap (create_shift date) rest
            | None => omap (create_shift date) rest
            end).
    by rewrite Hb. }
  split.
  { transitivity (shifts st ++ omap (create_shift date) (g' :: rest));
      [reflexivity | by rewrite Hom]. }
  pose proof (date_match_form _ _ Hd) as Hform.
  pose proof (create_shift_inv _ _ _ Hb)
    as (a & b & Ha & _ & _ & Hs & Hdate & Hl & Ho & Hfin & Hdet & _).
  pose proof (strptime_date _ _ _ Hform Ha) as Hda.
  subst a. repeat split; try done. by rewrite Hdate.
Qed.

Lemma rest_day_keeps_pending_fragment_witness :
  let st := run ["9387 lu. 02/09/2024 BO 5:10 13:45 Urb 12 1201 - 3 ABC"] initial in
  let line := "9387 ma. 03/09/2024 R" in
  let rest_lines := ["8 1 - 2 MNO 9:00 10:30 PQR"; "7 22 - 4 GHI 11:00 12:15 JKL"] in
  (first_shift_time st = Some {| fs_ldebpce := "ABC"; fs_start_time := Some "05:10" |}
   ∧ current_date st = Some "02/09/2024" ∧ shifts st = [])
  ∧ step st line = {| current_date := Some "03/09/2024";
                      first_shift_time := first_shift_time st;
                      shifts := shifts st |}
  ∧ run (line :: rest_lines) st
    = {| current_date := Some "03/09/2024";
         first_shift_time := None;
         shifts :=
           [ {| s_date := {| d_year := 2024; d_month := 9; d_day := 3 |};
                s_start := {| year := 2024; month := 9; day := 3; hour := 5; minute := 10 |};
                s_end := {| year := 2024; month := 9; day := 3; hour := 10; minute := 30 |};
                s_ligne := "8"; s_ldebpce := "ABC"; s_lfinpce := "PQR";
                s_duration := "5.33h";
                s_details := "8 1 - 2 MNO 9:00 10:30 PQR" |};
             {| s_date := {| d_year := 2024; d_month := 9; d_day := 3 |};
                s_start := {| year := 2024; month := 9; day := 3; hour := 11; minute := 0 |};
                s_end := {| year := 2024; month := 9; day := 3; hour := 12; minute := 15 |};
                s_ligne := "7"; s_ldebpce := "GHI"; s_lfinpce := "JKL";
                s_duration := "1.25h";
                s_details := "7 22 - 4 GHI 11:00 12:15 JKL" |} ] |}.
Proof.
  intros st line rest_lines.
  assert (Hst : first_shift_time st
                = Some {| fs_ldebpce := "ABC"; fs_start_time := Some "05:10" |})
    by (vm_compute; reflexivity).
  split; [split; [exact Hst | split; vm_compute; reflexivity]|].
  destruct (rest_day_keeps_pending_fragment st line "03/09/2024" rest_lines)
    as (Hstep & _ & Hcarry); try reflexivity; [by repeat constructor|].
  split; [exact Hstep|].
  destruct (Hcarry {| fs_ldebpce := "ABC"; fs_start_time := Some "05:10" |}
              {| ligne := "8"; ldebpce := "MNO"; lfinpce := "PQR";
                 start_time := Some "09:00"; end_time := Some "10:30";
                 full_line := "8 1 - 2 MNO 9:00 10:30 PQR" |}
              [ {| ligne := "7"; ldebpce := "GHI"; lfinpce := "JKL";
                   start_time := Some "11:00"; end_time := Some "12:15";
                   full_line := "7 22 - 4 GHI 11:00 12:15 JKL" |} ]
              Hst) as [Hrun _]; [vm_compute; reflexivity|].
  rewrite Hrun. vm_compute. reflexivity.
Defined.

(** ** The records of a whole pass *)

Lemma step_date_ok (st : parser) (line : string) :
  date_ok st -> date_ok (step st line).
Proof.
  intros Hst d. unfold step.
  destruct (is_header line); [apply Hst|].
  destruct (Str.startswith "9387" line).
  - destruct (date_match line) as [date|] eqn:Hd; [|apply Hst].
    destruct (is_rest_day line); [|rewrite run_loop_spec]; simpl;
      intros [= <-]; by eapply date_match_form.
  - destruct (truthy (current_date st) && Str.contains "-" line); [|apply Hst].
    destruct (current_date st) as [date|] eqn:Hc; [|apply Hst].
    rewrite run_loop_spec. simpl. intros [= <-]. by apply Hst.
Qed.

Lemma handed_date_form (st : parser) (line : string) (dg : string * shift_info) :
  date_ok st -> dg ∈ handed st line -> date_form dg.1 = true.
Proof.
  intros Hst. unfold handed.
  destruct (is_header line); [by intros ?%elem_of_nil|].
  destruct (Str.startswith "9387" line).
  - destruct (date_match line) as [date|] eqn:Hd; [|by intros ?%elem_of_nil].
    destruct (is_rest_day line); [by intros ?%elem_of_nil|].
    intros (g & -> & _)%list_elem_of_fmap. simpl. by eapply date_match_form.
  - destruct (truthy (current_date st) && Str.contains "-" line);
      [|by intros ?%elem_of_nil].
    destruct (current_date st) as [date|] eqn:Hc; [|by intros ?%elem_of_nil].
    intros (g & -> & _)%list_elem_of_fmap. simpl. by apply Hst.
Qed.

Lemma handed_all_date_form (lines : list string) : ∀ (st : parser) (dg : string * shift_info),
  date_ok st -> dg ∈ handed_all st lines -> date_form dg.1 = true.
Proof.
  induction lines as [|line lines IH]; intros st dg Hst; simpl.
  - by intros ?%elem_of_nil.
  - intros [H|H]%elem_of_app; [by eapply handed_date_form|].
    eapply IH; [|exact H]. by apply step_date_ok.
Qed.

(** Every record that a pass over a text returns ends on or after its
    start: the builder only ever receives dates of the form "DD/MM/YYYY". *)
Lemma parse_schedule_order (text : string) (r : shift) :
  r ∈ parse_schedule text -> dt_lt (s_end r) (s_start r) = false.
Proof.
  unfold parse_schedule. rewrite run_shifts. simpl.
  intros ([date g] & Hin & Hb)%list_elem_of_omap.
  assert (Hd : date_form date = true).
  { apply (handed_all_date_form (lines_of text) initial (date, g)); [|done].
    by intros d. }
  by destruct (create_shift_order date g r Hd Hb) as [H _].
Qed.

(** ** The scenarios of the specification, evaluated *)

(** The carry-over scenario: the first record of the date takes origin
    "ABC" and start 05:10 from the fragment and keeps route "12",
    destination "DEF" and end 06:40 of the general match; the second
    record is the second match as it stands. *)
Example carry_over_scenario :
  map (λ r, (s_ligne r, s_ldebpce r, s_lfinpce r, hour (s_start r), minute (s_start r),
             hour (s_end r), minute (s_end r)))
      (parse_schedule
         ("tl Jour HASTUS" +:+ nl +:+
          "9387 lu. 02/09/2024 BO 5:10 13:45 Urb 12 1201 - 3 ABC 12 1201 - 3 XYZ 5:25 6:40 DEF 7 22 - 4 GHI 7:00 8:15 JKL"
          +:+ nl +:+ "  8 1 - 2 MNO 9:00 10:30 PQR"))
  = [("12", "ABC", "DEF", 5, 10, 6, 40);
     ("7", "GHI", "JKL", 7, 0, 8, 15);
     ("8", "MNO", "PQR", 9, 0, 10, 30)].
Proof. vm_compute. reflexivity. Qed.

(** A fragment left pending by one date is used under the date of the
    rest day that follows. *)
Example pending_fragment_crosses_rest_day :
  map (λ r, (s_date r, s_ligne r, s_ldebpce r, s_lfinpce r,
             hour (s_start r), minute (s_start r)))
      (parse_schedule
         ("9387 lu. 02/09/2024 BO 5:10 13:45 Urb 12 1201 - 3 ABC" +:+ nl +:+
          "9387 ma. 03/09/2024 R" +:+ nl +:+
          "8 1 - 2 MNO 9:00 10:30 PQR"))
  = [({| d_year := 2024; d_month := 9; d_day := 3 |}, "8", "ABC", "PQR", 5, 10)].
Proof. vm_compute. reflexivity. Qed.

(** A general match whose two times are the same gives a record of length
    zero, and a match of ten minutes is stored as "0.17h". *)
Example equal_times_scenario :
  map (λ r, (s_start r, s_end r, s_duration r))
      (parse_schedule
         ("9387 lu. 02/09/2024 A B 12 1201 - 3 ABC 8:00 8:00 DEF" +:+ nl +:+
          "7 22 - 4 GHI 8:00 8:10 JKL"))
  = [({| year := 2024; month := 9; day := 2; hour := 8; minute := 0 |},
      {| year := 2024; month := 9; day := 2; hour := 8; minute := 0 |}, "0.00h");
     ({| year := 2024; month := 9; day := 2; hour := 8; minute := 0 |},
      {| year := 2024; month := 9; day := 2; hour := 8; minute := 10 |}, "0.17h")].
Proof. vm_compute. reflexivity. Qed.

(** * Further properties of the program *)

(** ** What the extractors return *)

Lemma finditer_from_exec (r : regex) (s : string) : ∀ (skip : nat) (caps : list string),
  caps ∈ finditer_from r s skip ->
  ∃ pre s' rest, s = pre +:+ s' ∧ exec r s' = Some (caps, rest).
Proof.
  induction s as [|c s IH]; intros skip caps; simpl.
  - by intros ?%elem_of_nil.
  - assert (Htail : ∀ k, caps ∈ finditer_from r s k ->
      ∃ pre s' rest, String c s = pre +:+ s' ∧ exec r s' = Some (caps, rest)).
    { intros k (pre & s' & rest & -> & He)%IH. by exists (String c pre), s', rest. }
    destruct skip as [|n]; [|apply Htail].
    destruct (exec r (String c s)) as [[caps0 rest0]|] eqn:He; [|apply Htail].
    intros [->|Hin]%elem_of_cons; [|by eapply Htail].
    by exists "", (String c s), rest0.
Qed.

Lemma search_exec (r : regex) (s : string) (caps : list string) (rest : string) :
  search r s = Some (caps, rest) ->
  ∃ pre s', s = pre +:+ s' ∧ exec r s' = Some (caps, rest).
Proof.
  induction s as [|c s IH]; simpl.
  - destruct (exec r "") as [m|] eqn:He; [|done]. intros [= ->]. by exists "", "".
  - destruct (exec r (String c s)) as [m|] eqn:He.
    + intros [= ->]. by exists "", (String c s).
    + intros (pre & s' & -> & He')%IH. by exists (String c pre), s'.
Qed.

Lemma rep_plus_text (p : cls) (w : string) (c : list string) :
  matches (Rep p 1 None) w c -> c = [] ∧ text_of (cls_mem p) w = true.
Proof.
  intros M. inversion M; subst. split; [done|].
  unfold text_of. destruct w; simpl in *; [lia | done].
Qed.

(** A text that [\d{1,2}:\d{2}] matches is a token "H:MM" or "HH:MM". *)
Lemma time_re_token (w : string) (c : list string) :
  matches time_re w c -> c = [] ∧ valid_time_token w = true.
Proof.
  intros M. unfold time_re, cat, upto in M. simpl in M. inv_matches.
  match goal with H : matches (Rep _ 2 _) _ _ |- _ => apply rep_exact in H as (-> & Hl2 & Hd2) end.
  match goal with H : matches (Rep _ 1 _) ?w _ |- _ => inversion H as [| |? ? ? ? Hd1 Hlo Hhi| | | |]; subst end.
  digit_facts. simpl in Hhi. split; [done|].
  repeat match goal with
  | H : String.length ?w = _ |- _ =>
      destruct w as [|? [|? [|? ?]]]; try discriminate H; clear H
  end.
  match goal with
  | H : (1 <= String.length ?w)%nat |- _ =>
      destruct w as [|? [|? [|? ?]]]; simpl in *; try lia
  end.
  - apply andb_true_iff in Hd1 as [-> _].
    apply andb_true_iff in Hd2 as [-> Hd2]. apply andb_true_iff in Hd2 as [-> _].
    reflexivity.
  - apply andb_true_iff in Hd1 as [-> Hd1]. apply andb_true_iff in Hd1 as [-> _].
    apply andb_true_iff in Hd2 as [-> Hd2]. apply andb_true_iff in Hd2 as [-> _].
    reflexivity.
Qed.

Lemma no_char_app (sep : ascii) (a b : string) :
  no_char sep (a +:+ b) = no_char sep a && no_char sep b.
Proof. apply str_all_app. Qed.

Lemma contains_app_char (sep : ascii) (a b : string) :
  Str.contains (String sep "") (a +:+ String sep b) = true.
Proof.
  rewrite contains_char, no_char_app. unfold no_char at 2. simpl.
  by rewrite Ascii.eqb_refl, andb_false_r.
Qed.

Lemma contains_char_app_r (sep : ascii) (pre s : string) :
  Str.contains (String sep "") s = true ->
  Str.contains (String sep "") (pre +:+ s) = true.
Proof.
  rewrite !contains_char, no_char_app. intros ->%negb_true_iff.
  by rewrite andb_false_r.
Qed.

Lemma contains_char_app_l (sep : ascii) (s post : string) :
  Str.contains (String sep "") s = true ->
  Str.contains (String sep "") (s +:+ post) = true.
Proof.
  rewrite !contains_char, no_char_app. by intros ->%negb_true_iff.
Qed.

(** What a match of the general pattern consists of. *)
Lemma shift_pattern_groups (w : string) (caps : list string) :
  matches shift_pattern w caps ->
  ∃ g1 g2 g3 g4 g5 g6 g7,
    caps = [g1; g2; g3; g4; g5; g6; g7]
    ∧ text_of Chars.is_digit g1 = true
    ∧ text_of Chars.is_word g4 = true
    ∧ valid_time_token g5 = true ∧ valid_time_token g6 = true
    ∧ text_of Chars.is_word g7 = true
    ∧ Str.contains "-" w = true.
Proof.
  intros M. unfold shift_pattern, cat in M. simpl foldr in M.
  inversion M as [| | |? ? w1 r1 c1 d1 M1 R1| | |]; subst; clear M.
  inversion R1 as [| | |? ? s1 r2 e1 d2 S1 R2| | |]; subst; clear R1.
  inversion R2 as [| | |? ? w2 r3 c2 d3 M2 R3| | |]; subst; clear R2.
  inversion R3 as [| | |? ? s2 r4 e2 d4 S2 R4| | |]; subst; clear R3.
  inversion R4 as [| | |? ? wm r5 cm d5 Mm R5| | |]; subst; clear R4.
  inversion Mm; subst. digit_facts.
  exists w1, w2.
  inversion R5 as [| | |? ? s3 r6 e3 d6 S3 R6| | |]; subst; clear R5.
  inversion R6 as [| | |? ? w3 r7 c3 d7 M3 R7| | |]; subst; clear R6.
  inversion R7 as [| | |? ? s4 r8 e4 d8 S4 R8| | |]; subst; clear R7.
  inversion R8 as [| | |? ? w4 r9 c4 d9 M4 R9| | |]; subst; clear R8.
  inversion R9 as [| | |? ? s5 r10 e5 d10 S5 R10| | |]; subst; clear R9.
  inversion R10 as [| | |? ? w5 r11 c5 d11 M5 R11| | |]; subst; clear R10.
  inversion R11 as [| | |? ? s6 r12 e6 d12 S6 R12| | |]; subst; clear R11.
  inversion R12 as [| | |? ? w6 r13 c6 d13 M6 R13| | |]; subst; clear R12.
  inversion R13 as [| | |? ? s7 r14 e7 d14 S7 R14| | |]; subst; clear R13.
  inversion R14 as [| | |? ? w7 r15 c7 d15 M7 R15| | |]; subst; clear R14.
  inversion R15; subst; clear R15.
  exists w3, w4, w5, w6, w7. unfold plus in *.
  repeat match goal with
  | H : matches (Rep Space _ _) _ _ |- _ => apply rep_no_groups in H as ->
  end.
  inversion M1 as [| | | | | |? ? ? M1']; subst; clear M1.
  inversion M2 as [| | | | | |? ? ? M2']; subst; clear M2.
  inversion M3 as [| | | | | |? ? ? M3']; subst; clear M3.
  inversion M4 as [| | | | | |? ? ? M4']; subst; clear M4.
  inversion M5 as [| | | | | |? ? ? M5']; subst; clear M5.
  inversion M6 as [| | | | | |? ? ? M6']; subst; clear M6.
  inversion M7 as [| | | | | |? ? ? M7']; subst; clear M7.
  apply rep_plus_text in M1' as [-> T1]. apply rep_plus_text in M2' as [-> _].
  apply rep_plus_text in M3' as [-> _]. apply rep_plus_text in M4' as [-> T4].
  apply time_re_token in M5' as [-> T5]. apply time_re_token in M6' as [-> T6].
  apply rep_plus_text in M7' as [-> T7].
  repeat split; try done.
  do 4 apply contains_char_app_r. apply (contains_app_char "-" "").
Qed.

(** What a match of the first-shift pattern consists of. *)
Lemma first_shift_pattern_groups (w : string) (caps : list string) :
  matches first_shift_pattern w caps ->
  ∃ g1 g2 g3,
    caps = [g1; g2; g3]
    ∧ valid_time_token g1 = true
    ∧ text_of Chars.is_digit g2 = true
    ∧ text_of Chars.is_word g3 = true
    ∧ Str.contains "-" w = true.
Proof.
  intros M. unfold first_shift_pattern, cat in M. simpl foldr in M.
  inv_matches; digit_facts; unfold plus in *;
  repeat match goal with
  | H : matches time_re _ _ |- _ => apply time_re_token in H as [-> ?]
  | H : matches (Rep Space _ _) _ _ |- _ => apply rep_no_groups in H as ->
  | H : matches (Rep _ 1 None) _ _ |- _ => apply rep_plus_text in H as [-> ?]
  end;
  (eexists _, _, _; split; [reflexivity|]; repeat split; try done;
   repeat first [ apply (contains_app_char "-" "") | apply contains_char_app_r ]).
Qed.

Lemma exec_in_line (r : regex) (pre s' rest : string) (caps : list string) :
  exec r s' = Some (caps, rest) ->
  ∃ w, matches r w caps ∧ ∀ sep, Str.contains (String sep "") w = true ->
                                 Str.contains (String sep "") (pre +:+ s') = true.
Proof.
  intros (w & -> & M)%exec_sound. exists w. split; [done|].
  intros sep H. by apply contains_char_app_r, contains_char_app_l.
Qed.

Lemma extract_shifts_info_inv (line : string) (g : shift_info) :
  g ∈ extract_shifts_info line ->
  full_line g = line
  ∧ text_of Chars.is_digit (ligne g) = true
  ∧ text_of Chars.is_word (ldebpce g) = true
  ∧ text_of Chars.is_word (lfinpce g) = true
  ∧ (∃ s, start_time g = Some s ∧ canonical_time s = true)
  ∧ (∃ e, end_time g = Some e ∧ canonical_time e = true)
  ∧ Str.contains "-" line = true.
Proof.
  unfold extract_shifts_info, finditer.
  intros (caps & -> & Hin)%list_elem_of_fmap.
  apply finditer_from_exec in Hin as (pre & s' & rest & -> & He).
  apply (exec_in_line _ pre) in He as (w & M & Hc).
  apply shift_pattern_groups in M
    as (g1 & g2 & g3 & g4 & g5 & g6 & g7 & -> & T1 & T4 & T5 & T6 & T7 & Hd).
  destruct (parse_time_token _ T5) as (s & Hs & Cs & _).
  destruct (parse_time_token _ T6) as (e & He & Ce & _).
  unfold shift_of_match, group. simpl.
  repeat split; try done; [by exists s | by exists e | by apply Hc].
Qed.

(** X1. Every group that [extract_shifts_info] returns for a line carries
    that line, a route of digits, two checkpoints of word characters and
    two normalised times "HH:MM": on what the pattern captures the time
    normaliser never fails. Such a line contains a "-". *)
Theorem extract_shifts_info_fields (line : string) (g : shift_info) :
  g ∈ extract_shifts_info line ->
  full_line g = line
  ∧ text_of Chars.is_digit (ligne g) = true
  ∧ text_of Chars.is_word (ldebpce g) = true
  ∧ text_of Chars.is_word (lfinpce g) = true
  ∧ (∃ s, start_time g = Some s ∧ canonical_time s = true)
  ∧ (∃ e, end_time g = Some e ∧ canonical_time e = true)
  ∧ Str.contains "-" line = true.
Proof. apply extract_shifts_info_inv. Qed.

Lemma extract_shifts_info_fields_witness :
  let line := "9387 lu. 02/09/2024 A B 12 1201 - 3 ABC 5:25 6:40 DEF" in
  let g := {| ligne := "12"; ldebpce := "ABC"; lfinpce := "DEF";
              start_time := Some "05:25"; end_time := Some "06:40";
              full_line := line |} in
  g ∈ extract_shifts_info line
  ∧ full_line g = line
  ∧ text_of Chars.is_digit (ligne g) = true
  ∧ text_of Chars.is_word (ldebpce g) = true
  ∧ text_of Chars.is_word (lfinpce g) = true
  ∧ (∃ s, start_time g = Some s ∧ canonical_time s = true)
  ∧ (∃ e, end_time g = Some e ∧ canonical_time e = true)
  ∧ Str.contains "-" line = true.
Proof.
  intros line g.
  assert (Hin : g ∈ extract_shifts_info line) by (vm_compute; left).
  split; [exact Hin|]. exact (extract_shifts_info_fields line g Hin).
Defined.

Lemma extract_first_shift_time_inv (line : string) (f : first_shift) :
  extract_first_shift_time line = Some f ->
  (∃ s, fs_start_time f = Some s ∧ canonical_time s = true)
  ∧ text_of Chars.is_word (fs_ldebpce f) = true
  ∧ Str.contains "-" line = true.
Proof.
  unfold extract_first_shift_time.
  destruct (search first_shift_pattern line) as [[caps rest]|] eqn:Hs; [|done].
  intros [= <-].
  apply search_exec in Hs as (pre & s' & -> & He).
  apply (exec_in_line _ pre) in He as (w & M & Hc).
  apply first_shift_pattern_groups in M as (g1 & g2 & g3 & -> & T1 & T2 & T3 & Hd).
  destruct (parse_time_token _ T1) as (s & Hs & Cs & _).
  unfold group. simpl. repeat split; try done; [by exists s | by apply Hc].
Qed.

(** X2. A fragment that [extract_first_shift_time] returns has a
    normalised start time "HH:MM" and an origin of word characters, and
    its line contains a "-". *)
Theorem extract_first_shift_time_fields (line : string) (f : first_shift) :
  extract_first_shift_time line = Some f ->
  (∃ s, fs_start_time f = Some s ∧ canonical_time s = true)
  ∧ text_of Chars.is_word (fs_ldebpce f) = true
  ∧ Str.contains "-" line = true.
Proof. apply extract_first_shift_time_inv. Qed.

Lemma extract_first_shift_time_fields_witness :
  let line := "9387 lu. 02/09/2024 DPO 5:10 13:45 Urb 12 1201 - 3 ABC" in
  let f := {| fs_ldebpce := "ABC"; fs_start_time := Some "05:10" |} in
  extract_first_shift_time line = Some f
  ∧ (∃ s, fs_start_time f = Some s ∧ canonical_time s = true)
  ∧ text_of Chars.is_word (fs_ldebpce f) = true
  ∧ Str.contains "-" line = true.
Proof.
  intros line f.
  assert (H : extract_first_shift_time line = Some f) by (vm_compute; reflexivity).
  split; [exact H|]. exact (extract_first_shift_time_fields line f H).
Defined.

(** X3. A line without a "-" has no general match and no first-shift
    fragment: the test ['-' in line] that guards the continuation lines
    never leaves a match out. *)
Theorem no_dash_no_match (line : string) :
  Str.contains "-" line = false ->
  extract_shifts_info line = [] ∧ extract_first_shift_time line = None.
Proof.
  intros Hn. split.
  - destruct (extract_shifts_info line) as [|g gs] eqn:E; [done|].
    assert (Hin : g ∈ extract_shifts_info line) by (rewrite E; left).
    apply extract_shifts_info_inv in Hin as (_ & _ & _ & _ & _ & _ & Hd). congruence.
  - destruct (extract_first_shift_time line) as [f|] eqn:E; [|done].
    apply extract_first_shift_time_inv in E as (_ & _ & Hd). congruence.
Qed.

Lemma no_dash_no_match_witness :
  Str.contains "-" "12 1201 3 ABC 5:25 6:40 DEF" = false
  ∧ extract_shifts_info "12 1201 3 ABC 5:25 6:40 DEF" = []
  ∧ extract_first_shift_time "12 1201 3 ABC 5:25 6:40 DEF" = None.
Proof.
  split; [reflexivity|]. apply (no_dash_no_match "12 1201 3 ABC 5:25 6:40 DEF").
  reflexivity.
Defined.

(** ** The shape of a built record *)

Lemma create_shift_shape (date : string) (info : shift_info) (r : shift) :
  date_form date = true ->
  create_shift date info = Some r ->
  s_date r = date_of_text date
  ∧ date_of (s_start r) = date_of_text date
  ∧ 0 <= time_of_day (s_start r) <= 1439
  ∧ 0 <= time_of_day (s_end r) <= 1439
  ∧ toordinal (s_end r)
    = toordinal (s_start r)
      + (if time_of_day (s_end r) <? time_of_day (s_start r) then 1 else 0)
  ∧ 0 <= minutes_between (s_end r) (s_start r) <= 1439.
Proof.
  intros Hd Hc. pose proof (create_shift_duration_range _ _ _ Hd Hc) as Hrange.
  apply create_shift_inv in Hc as (a & b & Ha & Hb & He & Hs & Hdate & _).
  rewrite Hs in *. clear Hs.
  pose proof (strptime_date _ _ _ Hd Ha) as Da.
  pose proof (strptime_date _ _ _ Hd Hb) as Db.
  assert (Hab : date_of a = date_of b) by congruence.
  unfold date_of in Hab. injection Hab as Hy Hm Hdd.
  apply strptime_inv in Ha as (? & ? & ? & ? & ? & ? & _ & _ & _ & _ & _ & _ & _
                               & _ & _ & _ & _ & _ & _ & RHa & RMa).
  apply strptime_inv in Hb as (? & ? & ? & ? & ? & ? & _ & _ & _ & _ & _ & _ & _
                               & _ & _ & _ & _ & _ & Vb & RHb & RMb).
  assert (Hord : toordinal a = toordinal b).
  { unfold toordinal. by rewrite Hy, Hm, Hdd. }
  unfold time_of_day in *.
  split; [congruence|]. split; [done|]. split; [lia|].
  destruct (dt_lt b a) eqn:Hlt.
  - apply dt_lt_iff in Hlt.
    pose proof (add_one_day_ordinal _ _ Vb He) as Hnext.
    apply add_one_day_fields in He as (Hh & Hmi & _).
    unfold minutes_between in *. rewrite Hh, Hmi in *.
    destruct (Z.ltb_spec (hour b * 60 + minute b) (hour a * 60 + minute a));
      repeat split; lia.
  - injection He as <-. apply dt_lt_false_iff in Hlt. rewrite dt_lt_iff in Hlt.
    unfold minutes_between in *.
    destruct (Z.ltb_spec (hour b * 60 + minute b) (hour a * 60 + minute a));
      repeat split; lia.
Qed.

(** X4. For a date text "DD/MM/YYYY", a built record starts on the day
    that the text names, and ends on that day or, when its end time of day
    is before its start time of day, on the day after; it lasts at least
    0 and at most 1439 minutes. *)
Theorem create_shift_same_or_next_day (date : string) (info : shift_info) (r : shift) :
  date_form date = true ->
  create_shift date info = Some r ->
  s_date r = date_of_text date
  ∧ date_of (s_start r) = date_of_text date
  ∧ 0 <= time_of_day (s_start r) <= 1439
  ∧ 0 <= time_of_day (s_end r) <= 1439
  ∧ toordinal (s_end r)
    = toordinal (s_start r)
      + (if time_of_day (s_end r) <? time_of_day (s_start r) then 1 else 0)
  ∧ 0 <= minutes_between (s_end r) (s_start r) <= 1439.
Proof. apply create_shift_shape. Qed.

Lemma create_shift_same_or_next_day_witness :
  let info := {| ligne := "12"; ldebpce := "ABC"; lfinpce := "DEF";
                 start_time := Some "23:30"; end_time := Some "00:15";
                 full_line := "" |} in
  let r := {| s_date := {| d_year := 2024; d_month := 12; d_day := 31 |};
              s_start := {| year := 2024; month := 12; day := 31; hour := 23; minute := 30 |};
              s_end := {| year := 2025; month := 1; day := 1; hour := 0; minute := 15 |};
              s_ligne := "12"; s_ldebpce := "ABC"; s_lfinpce := "DEF";
              s_duration := "0.75h"; s_details := "" |} in
  date_form "31/12/2024" = true
  ∧ create_shift "31/12/2024" info = Some r
  ∧ s_date r = date_of_text "31/12/2024"
  ∧ date_of (s_start r) = date_of_text "31/12/2024"
  ∧ 0 <= time_of_day (s_start r) <= 1439
  ∧ 0 <= time_of_day (s_end r) <= 1439
  ∧ toordinal (s_end r)
    = toordinal (s_start r)
      + (if time_of_day (s_end r) <? time_of_day (s_start r) then 1 else 0)
  ∧ 0 <= minutes_between (s_end r) (s_start r) <= 1439.
Proof.
  intros info r. split; [reflexivity|]. split; [vm_compute; reflexivity|].
  apply (create_shift_same_or_next_day "31/12/2024" info r);
    [reflexivity | vm_compute; reflexivity].
Defined.

(** ** The records of a pass and the lines they come from *)

Lemma run_app (a b : list string) (st : parser) :
  run (a ++ b) st = run b (run a st).
Proof. apply foldl_app. Qed.

Lemma step_current_date (st : parser) (line : string) :
  current_date (step st line) = from_option Some (current_date st) (date_set_by line).
Proof.
  unfold step, date_set_by, sets_date.
  destruct (is_header line); [done|].
  destruct (Str.startswith "9387" line); simpl.
  - destruct (date_match line) as [date|]; simpl; [|done].
    destruct (is_rest_day line); [done | by rewrite run_loop_spec].
  - destruct (truthy (current_date st) && Str.contains "-" line); [|done].
    destruct (current_date st) as [date|] eqn:E; [|done]. by rewrite run_loop_spec.
Qed.

Lemma run_current_date (lines : list string) : ∀ st,
  current_date (run lines st) = date_after (current_date st) lines.
Proof.
  induction lines as [|line lines IH]; intros st; [done|].
  unfold run, date_after in *. simpl. by rewrite IH, step_current_date.
Qed.

Lemma date_after_app (cur : option string) (a b : list string) :
  date_after cur (a ++ b) = date_after (date_after cur a) b.
Proof. apply foldl_app. Qed.

Lemma date_set_by_form (line d : string) :
  date_set_by line = Some d -> date_form d = true.
Proof.
  unfold date_set_by. destruct (sets_date line); [|done]. apply date_match_form.
Qed.

Lemma date_after_form (lines : list string) : ∀ (cur : option string) (d : string),
  (∀ c, cur = Some c -> date_form c = true) ->
  date_after cur lines = Some d -> date_form d = true.
Proof.
  induction lines as [|line lines IH]; intros cur d Hc; simpl.
  - apply Hc.
  - apply IH. destruct (date_set_by line) as [d'|] eqn:E; simpl; [|done].
    intros c [= <-]. by eapply date_set_by_form.
Qed.

Lemma step_pending_ok (st : parser) (line : string) :
  pending_ok st -> pending_ok (step st line).
Proof.
  assert (Hafter : ∀ (p : option first_shift) gs f,
            pending_after p gs = Some f -> p = Some f).
  { intros p [|g gs] f; simpl; [done | discriminate]. }
  intros Hst f. unfold step.
  destruct (is_header line); [apply Hst|].
  destruct (Str.startswith "9387" line).
  - destruct (date_match line) as [date|]; [|apply Hst].
    destruct (is_rest_day line); [apply Hst|].
    rewrite run_loop_spec. simpl. intros H%Hafter. by exists line.
  - destruct (truthy (current_date st) && Str.contains "-" line); [|apply Hst].
    destruct (current_date st) as [date|]; [|apply Hst].
    rewrite run_loop_spec. simpl. intros H%Hafter. by apply Hst.
Qed.

Lemma run_pending_ok (lines : list string) : ∀ st,
  pending_ok st -> pending_ok (run lines st).
Proof.
  induction lines as [|line lines IH]; intros st Hst; [done|].
  unfold run in *. simpl. by apply IH, step_pending_ok.
Qed.

Lemma initial_pending_ok : pending_ok initial.
Proof. by intros f. Qed.

Lemma apply_carry_elem (p : option first_shift) (gs : list shift_info) (g' : shift_info) :
  g' ∈ apply_carry p gs ->
  g' ∈ gs ∨ ∃ f g, p = Some f ∧ g ∈ gs ∧ g' = carry f g.
Proof.
  destruct p as [f|]; [|by left]. destruct gs as [|g gs]; [by left|].
  simpl. intros [->|H]%elem_of_cons.
  - right. exists f, g. repeat split. left.
  - left. by right.
Qed.

(** What reaches the builder from one line: the line's date or the one
    in force, and a group of the line, with the origin and the start time
    of a fragment in place of its own if it is the one that takes the
    pending fragment. *)
Lemma handed_inv (st : parser) (line : string) (dg : string * shift_info) :
  pending_ok st ->
  dg ∈ handed st line ->
  current_date (step st line) = Some dg.1
  ∧ full_line dg.2 = line
  ∧ Str.contains "-" line = true
  ∧ group_ok dg.2.
Proof.
  intros Hst Hin.
  assert (Hg : ∀ (date : string) (p : option first_shift),
            (∀ f, p = Some f -> ∃ l, extract_first_shift_time l = Some f) ->
            dg ∈ (λ g, (date, g)) <$> apply_carry p (extract_shifts_info line) ->
            dg.1 = date ∧ full_line dg.2 = line
            ∧ Str.contains "-" line = true ∧ group_ok dg.2).
  { intros date p Hp (g' & -> & Hc)%list_elem_of_fmap. simpl. split; [done|].
    apply apply_carry_elem in Hc as [Hc|(f & g & -> & Hc & ->)].
    - apply extract_shifts_info_inv in Hc as (? & ? & ? & ? & ? & ? & ?).
      by repeat split.
    - apply extract_shifts_info_inv in Hc as (? & ? & ? & ? & ? & ? & ?).
      destruct (Hp f eq_refl) as (l & Hl).
      apply extract_first_shift_time_inv in Hl as (? & ? & _).
      by repeat split. }
  rewrite step_current_date. unfold date_set_by, sets_date.
  unfold handed in Hin.
  destruct (is_header line); [by apply elem_of_nil in Hin|].
  destruct (Str.startswith "9387" line); simpl.
  - destruct (date_match line) as [date|]; [|by apply elem_of_nil in Hin].
    destruct (is_rest_day line); [by apply elem_of_nil in Hin|].
    apply Hg in Hin as (<- & ?); [done|]. intros f Hf. by exists line.
  - destruct (truthy (current_date st) && Str.contains "-" line);
      [|by apply elem_of_nil in Hin].
    destruct (current_date st) as [date|]; [|by apply elem_of_nil in Hin].
    apply Hg in Hin as (<- & ?); [done|]. apply Hst.
Qed.

Lemma handed_all_split (lines : list string) : ∀ (st : parser) (dg : string * shift_info),
  dg ∈ handed_all st lines ->
  ∃ before line after,
    lines = before ++ line :: after ∧ dg ∈ handed (run before st) line.
Proof.
  induction lines as [|l lines IH]; intros st dg; simpl.
  - by intros ?%elem_of_nil.
  - intros [H|H]%elem_of_app.
    + by exists [], l, lines.
    + apply IH in H as (before & line & after & -> & H).
      by exists (l :: before), line, after.
Qed.

(** Every record of a pass was built from a group that some line of the
    text handed to the builder under the date then in force. *)
Lemma parse_schedule_inv (text : string) (r : shift) :
  r ∈ parse_schedule text ->
  ∃ before line after date g,
    lines_of text = before ++ line :: after
    ∧ date_after None (before ++ [line]) = Some date
    ∧ date_form date = true
    ∧ full_line g = line
    ∧ Str.contains "-" line = true
    ∧ group_ok g
    ∧ create_shift date g = Some r.
Proof.
  unfold parse_schedule. rewrite run_shifts. simpl.
  intros ([date g] & Hin & Hb)%list_elem_of_omap.
  apply handed_all_split in Hin as (before & line & after & Hl & Hin).
  apply handed_inv in Hin as (Hd & Hf & Hc & Hg);
    [|apply run_pending_ok, initial_pending_ok].
  simpl in *.
  assert (Hda : date_after None (before ++ [line]) = Some date).
  { rewrite <- Hd. change (step (run before initial) line) with (run [line] (run before initial)).
    by rewrite <- run_app, run_current_date. }
  assert (Hform : date_form date = true)
    by by apply (date_after_form (before ++ [line]) None date).
  exists before, line, after, date, g.
  exact (conj Hl (conj Hda (conj Hform (conj Hf (conj Hc (conj Hg Hb)))))).
Qed.

(** X5. Every record that [parse_schedule] returns comes from a line of
    the text that contains a "-": the record keeps that line as its
    details, its day is the date of the last line, up to and including
    that one, that sets a date, its route is a text of digits and its
    two checkpoints are texts of word characters. *)
Theorem parse_schedule_record_source (text : string) (r : shift) :
  r ∈ parse_schedule text ->
  ∃ before after date,
    lines_of text = before ++ s_details r :: after
    ∧ date_after None (before ++ [s_details r]) = Some date
    ∧ s_date r = date_of_text date
    ∧ Str.contains "-" (s_details r) = true
    ∧ text_of Chars.is_digit (s_ligne r) = true
    ∧ text_of Chars.is_word (s_ldebpce r) = true
    ∧ text_of Chars.is_word (s_lfinpce r) = true.
Proof.
  intros (before & line & after & date & g & Hl & Hda & Hd & Hf & Hc & Hg & Hb)%parse_schedule_inv.
  destruct Hg as (G1 & G2 & G3 & _).
  pose proof (create_shift_shape _ _ _ Hd Hb) as (Hdate & _).
  apply create_shift_inv in Hb as (a & b & _ & _ & _ & _ & _ & -> & -> & -> & -> & _).
  subst line. by exists before, after, date.
Qed.

Lemma parse_schedule_record_source_witness :
  let text := "9387 lu. 02/09/2024 BO 5:10 13:45 Urb 12 1201 - 3 ABC" +:+ nl +:+
              "9387 ma. 03/09/2024 R" +:+ nl +:+
              "8 1 - 2 MNO 9:00 10:30 PQR" in
  let r := {| s_date := {| d_year := 2024; d_month := 9; d_day := 3 |};
              s_start := {| year := 2024; month := 9; day := 3; hour := 5; minute := 10 |};
              s_end := {| year := 2024; month := 9; day := 3; hour := 10; minute := 30 |};
              s_ligne := "8"; s_ldebpce := "ABC"; s_lfinpce := "PQR";
              s_duration := "5.33h"; s_details := "8 1 - 2 MNO 9:00 10:30 PQR" |} in
  r ∈ parse_schedule text
  ∧ ∃ before after date,
      lines_of text = before ++ s_details r :: after
      ∧ date_after None (before ++ [s_details r]) = Some date
      ∧ s_date r = date_of_text date
      ∧ Str.contains "-" (s_details r) = true
      ∧ text_of Chars.is_digit (s_ligne r) = true
      ∧ text_of Chars.is_word (s_ldebpce r) = true
      ∧ text_of Chars.is_word (s_lfinpce r) = true.
Proof.
  intros text r.
  assert (Hin : r ∈ parse_schedule text) by (vm_compute; left).
  split; [exact Hin|]. exact (parse_schedule_record_source text r Hin).
Defined.

Lemma parse_schedule_shape (text : string) (r : shift) :
  r ∈ parse_schedule text ->
  date_of (s_start r) = s_date r
  ∧ 0 <= time_of_day (s_start r) <= 1439
  ∧ 0 <= time_of_day (s_end r) <= 1439
  ∧ toordinal (s_end r)
    = toordinal (s_start r)
      + (if time_of_day (s_end r) <? time_of_day (s_start r) then 1 else 0)
  ∧ 0 <= minutes_between (s_end r) (s_start r) <= 1439.
Proof.
  intros (before & line & after & date & g & _ & _ & Hd & _ & _ & _ & Hb)%parse_schedule_inv.
  pose proof (create_shift_shape _ _ _ Hd Hb) as (-> & -> & ?). done.
Qed.

(** X6. Every record that [parse_schedule] returns starts on its day
    and ends on that day or, when its end time of day is before its start
    time of day, on the day after; it lasts at least 0 and at most 1439
    minutes. The dates that reach the builder in a pass are all of the
    form "DD/MM/YYYY", so no hypothesis on them is left. *)
Theorem parse_schedule_same_or_next_day (text : string) (r : shift) :
  r ∈ parse_schedule text ->
  date_of (s_start r) = s_date r
  ∧ 0 <= time_of_day (s_start r) <= 1439
  ∧ 0 <= time_of_day (s_end r) <= 1439
  ∧ toordinal (s_end r)
    = toordinal (s_start r)
      + (if time_of_day (s_end r) <? time_of_day (s_start r) then 1 else 0)
  ∧ 0 <= minutes_between (s_end r) (s_start r) <= 1439.
Proof. apply parse_schedule_shape. Qed.

Lemma parse_schedule_same_or_next_day_witness :
  let text := "9387 lu. 02/09/2024 A B 12 1201 - 3 ABC 22:40 0:05 DEF" in
  let r := {| s_date := {| d_year := 2024; d_month := 9; d_day := 2 |};
              s_start := {| year := 2024; month := 9; day := 2; hour := 22; minute := 40 |};
              s_end := {| year := 2024; month := 9; day := 3; hour := 0; minute := 5 |};
              s_ligne := "12"; s_ldebpce := "ABC"; s_lfinpce := "DEF";
              s_duration := "1.42h"; s_details := text |} in
  r ∈ parse_schedule text
  ∧ date_of (s_start r) = s_date r
  ∧ 0 <= time_of_day (s_start r) <= 1439
  ∧ 0 <= time_of_day (s_end r) <= 1439
  ∧ toordinal (s_end r)
    = toordinal (s_start r)
      + (if time_of_day (s_end r) <? time_of_day (s_start r) then 1 else 0)
  ∧ 0 <= minutes_between (s_end r) (s_start r) <= 1439.
Proof.
  intros text r.
  assert (Hin : r ∈ parse_schedule text) by (vm_compute; left).
  split; [exact Hin|]. exact (parse_schedule_same_or_next_day text r Hin).
Defined.

(** ** The date in force during a pass *)

Lemma date_after_none (lines : list string) : ∀ cur,
  Forall (λ l, sets_date l = false) lines -> date_after cur lines = cur.
Proof.
  induction lines as [|l lines IH]; intros cur Hall; [done|].
  apply Forall_cons in Hall as [Hl Hall]. unfold date_after in *. simpl.
  unfold date_set_by at 2. rewrite Hl. simpl. by apply IH.
Qed.

Lemma sets_date_match (l : string) :
  sets_date l = true -> ∃ d, date_match l = Some d ∧ date_set_by l = Some d.
Proof.
  unfold date_set_by. intros H. rewrite H. unfold sets_date in H.
  apply andb_true_iff in H as [_ H]. apply bool_decide_eq_true in H as [d Hd].
  by exists d.
Qed.

Lemma current_date_last (st : parser) (before after : list string) (l : string) :
  sets_date l = true ->
  Forall (λ l, sets_date l = false) after ->
  current_date (run (before ++ l :: after) st) = date_match l
  ∧ is_Some (date_match l).
Proof.
  intros (d & Hd & Hs)%sets_date_match Hall.
  rewrite run_current_date, date_after_app. unfold date_after at 1. simpl.
  rewrite Hs. simpl. fold (date_after (Some d) after).
  by rewrite date_after_none, Hd.
Qed.

(** X7. During a pass the current date is the date of the last line
    that set one, whatever came before that line and whatever lines
    follow it that set none; over lines that set none it stays as it was.
    Hence a date, once set, is never unset. *)
Theorem current_date_is_last_set :
  (∀ st before l after,
     sets_date l = true ->
     Forall (λ l, sets_date l = false) after ->
     current_date (run (before ++ l :: after) st) = date_match l
     ∧ is_Some (date_match l))
  ∧ (∀ st lines,
       Forall (λ l, sets_date l = false) lines ->
       current_date (run lines st) = current_date st)
  ∧ (∀ st lines, is_Some (current_date st) -> is_Some (current_date (run lines st))).
Proof.
  split; [intros; by apply current_date_last|]. split.
  - intros st lines Hall. by rewrite run_current_date, date_after_none.
  - intros st lines. rewrite run_current_date. generalize (current_date st).
    induction lines as [|l lines IH]; intros cur Hc; [done|].
    unfold date_after in *. simpl. apply IH.
    destruct (date_set_by l); simpl; [by eexists | done].
Qed.

Lemma current_date_is_last_set_witness :
  let lines := ["9387 lu. 02/09/2024 A B 12 1201 - 3 ABC 5:25 6:40 DEF";
                "9387 ma. 03/09/2024 R";
                "8 1 - 2 MNO 9:00 10:30 PQR";
                "9387 mercredi 04/09/2024 R"] in
  current_date (run lines initial) = Some "03/09/2024".
Proof.
  intros lines. destruct current_date_is_last_set as (H & _ & _).
  apply (H initial ["9387 lu. 02/09/2024 A B 12 1201 - 3 ABC 5:25 6:40 DEF"]
           "9387 ma. 03/09/2024 R"
           ["8 1 - 2 MNO 9:00 10:30 PQR"; "9387 mercredi 04/09/2024 R"]);
    [reflexivity | by repeat constructor].
Defined.

(** ** The lines that a pass looks at *)

Lemma step_irrelevant (st : parser) (line : string) :
  relevant line = false -> step st line = st.
Proof.
  unfold relevant, step. destruct (is_header line); [done|]. simpl.
  intros [-> ->]%orb_false_iff. by rewrite andb_false_r.
Qed.

(** X8. Only the lines that are no header or footer line and that
    start with the record prefix or contain a "-" count: a pass over the
    lines gives the same state, and so the same records, as a pass over
    those of them alone. *)
Theorem only_relevant_lines_count (lines : list string) (st : parser) :
  run (filter (λ l, relevant l = true) lines) st = run lines st.
Proof.
  revert st. induction lines as [|l lines IH]; intros st; [done|].
  rewrite filter_cons. destruct (decide (relevant l = true)) as [H|H].
  - unfold run in *. simpl. apply IH.
  - apply not_true_is_false in H. unfold run in *. simpl.
    rewrite (step_irrelevant _ _ H). apply IH.
Qed.

(** ** The lines of a text *)

Lemma split_on_nonempty (sep : ascii) (s : string) : Str.split_on sep s ≠ [].
Proof.
  destruct s as [|c s]; simpl; [done|].
  destruct (Ascii.eqb c sep); [done|]. by destruct (Str.split_on sep s).
Qed.

Lemma split_on_app_sep (sep : ascii) (a b : string) :
  Str.split_on sep (a +:+ String sep b) = Str.split_on sep a ++ Str.split_on sep b.
Proof.
  induction a as [|c a IH]; simpl.
  - by rewrite Ascii.eqb_refl.
  - destruct (Ascii.eqb c sep); [by rewrite IH|].
    rewrite IH. pose proof (split_on_nonempty sep a).
    by destruct (Str.split_on sep a).
Qed.

Lemma lines_of_app (a b : string) :
  lines_of (a +:+ nl +:+ b) = lines_of a ++ lines_of b.
Proof.
  unfold lines_of, nl.
  change (a +:+ String "010" "" +:+ b) with (a +:+ String "010" b).
  by rewrite split_on_app_sep, map_app, filter_app.
Qed.

(** X9. A text followed by a line break and a second text has the lines
    of the first followed by those of the second, and its pass is the
    pass over the second continued from the state that the first leaves:
    the records of the first text come first, unchanged. *)
Theorem parse_schedule_append (a b : string) :
  lines_of (a +:+ nl +:+ b) = lines_of a ++ lines_of b
  ∧ parse_schedule (a +:+ nl +:+ b)
    = shifts (run (lines_of b) (run (lines_of a) initial))
  ∧ parse_schedule (a +:+ nl +:+ b)
    = parse_schedule a
      ++ omap build (handed_all (run (lines_of a) initial) (lines_of b)).
Proof.
  split; [apply lines_of_app|]. unfold parse_schedule.
  rewrite lines_of_app, run_app. split; [done|]. by rewrite run_shifts.
Qed.

Lemma rstrip_idemp (ws : ascii -> bool) (s : string) :
  Str.rstrip_by ws (Str.rstrip_by ws s) = Str.rstrip_by ws s.
Proof.
  induction s as [|c s IH]; simpl; [done|].
  destruct (Str.rstrip_by ws s) as [|c' r] eqn:E.
  - destruct (ws c) eqn:Hc; simpl; [done | by rewrite Hc].
  - simpl in *. by rewrite IH.
Qed.

Lemma lstrip_head (ws : ascii -> bool) (s : string) :
  match Str.lstrip_by ws s with
  | String c _ => ws c = false
  | EmptyString => True
  end.
Proof.
  induction s as [|c s IH]; simpl; [done|]. by destruct (ws c) eqn:E.
Qed.

Lemma rstrip_head (ws : ascii -> bool) (c : ascii) (s : string) :
  ws c = false -> ∃ r, Str.rstrip_by ws (String c s) = String c r.
Proof.
  intros Hc. simpl. destruct (Str.rstrip_by ws s) as [|c' r].
  - rewrite Hc. by exists "".
  - by eexists.
Qed.

Lemma strip_by_idemp (ws : ascii -> bool) (s : string) :
  Str.strip_by ws (Str.strip_by ws s) = Str.strip_by ws s.
Proof.
  unfold Str.strip_by. pose proof (lstrip_head ws s) as H.
  destruct (Str.lstrip_by ws s) as [|c s'] eqn:E; [done|].
  destruct (rstrip_head ws c s' H) as (r & Hr). rewrite Hr.
  cbn [Str.lstrip_by]. rewrite H, <- Hr. apply rstrip_idemp.
Qed.

Lemma split_on_no_sep (sep : ascii) (s : string) :
  Forall (λ p, no_char sep p = true) (Str.split_on sep s).
Proof.
  induction s as [|c s IH]; simpl; [by repeat constructor|].
  destruct (Ascii.eqb c sep) eqn:E; [by constructor|].
  destruct (Str.split_on sep s) as [|w ws']; [|apply Forall_cons in IH as [Hw Hws]];
    constructor; try done; unfold no_char in *; simpl; by rewrite E.
Qed.

(** X10. The lines that a pass goes over are never empty, have no white
    space at either end and contain no line break. *)
Theorem lines_are_stripped (text line : string) :
  line ∈ lines_of text ->
  line ≠ "" ∧ Str.strip line = line ∧ no_char "010" line = true.
Proof.
  unfold lines_of. intros [Hne (p & -> & Hin)%list_elem_of_fmap]%list_elem_of_filter.
  split; [done|]. split; [apply strip_by_idemp|].
  apply no_char_strip.
  by apply (proj1 (Forall_forall _ _) (split_on_no_sep "010" text)).
Qed.

Lemma lines_are_stripped_witness :
  let text := "  9387 lu. 02/09/2024 R  " +:+ nl +:+ "   " +:+ nl +:+ " 8 1 - 2 A 9:00 10:30 B" in
  let line := "9387 lu. 02/09/2024 R" in
  line ∈ lines_of text
  ∧ line ≠ "" ∧ Str.strip line = line ∧ no_char "010" line = true.
Proof.
  intros text line.
  assert (Hin : line ∈ lines_of text) by (vm_compute; left).
  split; [exact Hin|]. exact (lines_are_stripped text line Hin).
Defined.

(** ** The sorted list and the events *)

Lemma dt_lt_irrefl (a : datetime) : dt_lt a a = false.
Proof. apply dt_lt_false_iff. rewrite dt_lt_iff. lia. Qed.

Lemma dt_lt_trans (a b c : datetime) :
  dt_lt a b = true -> dt_lt b c = true -> dt_lt a c = true.
Proof. rewrite !dt_lt_iff. lia. Qed.

Lemma dt_lt_asym (a b : datetime) : dt_lt a b = true -> dt_lt b a = false.
Proof. intros H. apply dt_lt_false_iff. rewrite dt_lt_iff in *. lia. Qed.

(** Two datetimes neither of which is before the other are the same. *)
Lemma dt_lt_total (a b : datetime) :
  dt_lt a b = false -> dt_lt b a = false -> a = b.
Proof.
  intros Hab%dt_lt_false_iff Hba%dt_lt_false_iff. rewrite dt_lt_iff in *.
  destruct a, b; simpl in *. f_equal; lia.
Qed.

Lemma dt_le_trans (a b c : datetime) :
  dt_lt b a = false -> dt_lt c b = false -> dt_lt c a = false.
Proof.
  intros Hab%dt_lt_false_iff Hbc%dt_lt_false_iff. apply dt_lt_false_iff.
  rewrite dt_lt_iff in *. lia.
Qed.

Lemma insert_by_start_perm (x : shift) (l : list shift) :
  insert_by_start x l ≡ₚ x :: l.
Proof.
  induction l as [|y l IH]; simpl; [done|].
  destruct (dt_lt (s_start y) (s_start x)); [|done].
  by rewrite IH, Permutation_swap.
Qed.

Lemma sort_by_start_perm (l : list shift) : sort_by_start l ≡ₚ l.
Proof.
  induction l as [|x l IH]; simpl; [done|].
  by rewrite insert_by_start_perm, IH.
Qed.

Lemma insert_by_start_sorted (x : shift) (l : list shift) :
  starts_in_order l -> starts_in_order (insert_by_start x l).
Proof.
  unfold starts_in_order.
  induction 1 as [|y l Hs IH Hy]; simpl; [by repeat constructor|].
  destruct (dt_lt (s_start y) (s_start x)) eqn:E.
  - constructor; [done|]. rewrite insert_by_start_perm.
    constructor; [by apply dt_lt_asym | done].
  - constructor; [by constructor|]. constructor; [done|].
    eapply Forall_impl; [exact Hy|]. simpl. intros z Hz.
    by apply (dt_le_trans _ (s_start y)).
Qed.

Lemma sort_by_start_sorted (l : list shift) : starts_in_order (sort_by_start l).
Proof.
  induction l as [|x l IH]; simpl; [constructor|].
  by apply insert_by_start_sorted.
Qed.

Lemma insert_by_start_stable (t : datetime) (x : shift) (l : list shift) :
  filter (λ r, s_start r = t) (insert_by_start x l)
  = filter (λ r, s_start r = t) (x :: l).
Proof.
  induction l as [|y l IH]; simpl; [done|].
  destruct (dt_lt (s_start y) (s_start x)) eqn:E; [|done].
  rewrite (filter_cons _ y), IH, !filter_cons.
  destruct (decide (s_start y = t)) as [Hy|Hy];
    destruct (decide (s_start x = t)) as [Hx|Hx]; try done.
  rewrite Hx, Hy, dt_lt_irrefl in E. done.
Qed.

Lemma sort_by_start_stable (t : datetime) (l : list shift) :
  filter (λ r, s_start r = t) (sort_by_start l) = filter (λ r, s_start r = t) l.
Proof.
  induction l as [|x l IH]; simpl; [done|].
  by rewrite insert_by_start_stable, !filter_cons, IH.
Qed.

(** X11. [create_calendar] leaves the list of its caller with the same
    records, each as often as before, in the order of their starts: no
    record starts before one that precedes it; the list is as long as it
    was. *)
Theorem create_calendar_sorts (shifts : list shift) :
  (create_calendar shifts).1 ≡ₚ shifts
  ∧ length (create_calendar shifts).1 = length shifts
  ∧ starts_in_order (create_calendar shifts).1.
Proof.
  simpl. split; [apply sort_by_start_perm|].
  split; [by rewrite sort_by_start_perm | apply sort_by_start_sorted].
Qed.

(** X12. The sort of [create_calendar] is stable: the records that start
    at one and the same instant keep the order in which the parser found
    them. *)
Theorem create_calendar_sort_is_stable (t : datetime) (shifts : list shift) :
  filter (λ r, s_start r = t) (create_calendar shifts).1
  = filter (λ r, s_start r = t) shifts.
Proof. apply sort_by_start_stable. Qed.

Lemma events_in_order (l : list shift) :
  starts_in_order l -> begins_in_order (map event_of l).
Proof.
  unfold starts_in_order, begins_in_order.
  induction 1 as [|y l Hs IH Hy]; simpl; constructor; [done|].
  apply Forall_map. eapply Forall_impl; [exact Hy|]. done.
Qed.

Lemma new_events_all (l : list shift) :
  Forall (λ r, dt_lt (s_end r) (s_start r) = false) l ->
  mapM new_event l = Some (map event_of l).
Proof.
  intros H. apply mapM_Some. induction H as [|r l Hr Hl IH]; simpl; constructor; [|done].
  unfold new_event. by rewrite Hr.
Qed.

Lemma new_events_fail (l : list shift) :
  Exists (λ r, dt_lt (s_end r) (s_start r) = true) l -> mapM new_event l = None.
Proof.
  intros H. apply mapM_None. eapply Exists_impl; [exact H|]. simpl.
  intros r Hr. unfold new_event. by rewrite Hr.
Qed.

Lemma sort_by_start_forall (P : shift -> Prop) (l : list shift) :
  Forall P l -> Forall P (sort_by_start l).
Proof. intros H. by rewrite sort_by_start_perm. Qed.

Lemma sort_by_start_exists (P : shift -> Prop) (l : list shift) :
  Exists P l -> Exists P (sort_by_start l).
Proof. intros H. by rewrite sort_by_start_perm. Qed.

(** The calendar of records none of which ends before it starts. *)
Lemma create_calendar_some (shifts : list shift) :
  Forall (λ r, dt_lt (s_end r) (s_start r) = false) shifts ->
  (create_calendar shifts).2 = Some (map event_of (sort_by_start shifts)).
Proof. intros H. by apply new_events_all, sort_by_start_forall. Qed.

(** X13. [create_calendar] makes a calendar exactly when no record ends
    before it starts. It then adds one event for each record: as many
    events as records, the events of the records of its argument, each as
    often as its record occurs, added in the order of their beginnings.
    When some record ends before it starts, the call raises and there is
    no calendar, whatever the other records are. *)
Theorem create_calendar_events (shifts : list shift) :
  (Forall (λ r, dt_lt (s_end r) (s_start r) = false) shifts ->
   ∃ cal, (create_calendar shifts).2 = Some cal
          ∧ length cal = length shifts
          ∧ cal ≡ₚ map event_of shifts
          ∧ begins_in_order cal)
  ∧ (Exists (λ r, dt_lt (s_end r) (s_start r) = true) shifts ->
     (create_calendar shifts).2 = None)
  ∧ (is_Some (create_calendar shifts).2
     <-> Forall (λ r, dt_lt (s_end r) (s_start r) = false) shifts).
Proof.
  assert (Hsome : Forall (λ r, dt_lt (s_end r) (s_start r) = false) shifts ->
            ∃ cal, (create_calendar shifts).2 = Some cal
                   ∧ length cal = length shifts
                   ∧ cal ≡ₚ map event_of shifts
                   ∧ begins_in_order cal).
  { intros H. exists (map event_of (sort_by_start shifts)).
    split; [by apply create_calendar_some|].
    split; [by rewrite length_map, sort_by_start_perm|].
    split; [by rewrite sort_by_start_perm|].
    apply events_in_order, sort_by_start_sorted. }
  assert (Hnone : Exists (λ r, dt_lt (s_end r) (s_start r) = true) shifts ->
            (create_calendar shifts).2 = None).
  { intros H. by apply new_events_fail, sort_by_start_exists. }
  split; [done|]. split; [done|]. split.
  - intros [cal Hc].
    destruct (decide (Forall (λ r, dt_lt (s_end r) (s_start r) = false) shifts))
      as [H|H]; [done|].
    apply not_Forall_Exists in H; [|apply _].
    rewrite Hnone in Hc; [done|].
    eapply Exists_impl; [exact H|]. simpl. intros r Hr. by destruct (dt_lt _ _).
  - intros H. destruct (Hsome H) as (cal & -> & _). by eexists.
Qed.

Lemma create_calendar_events_witness :
  let a := {| s_date := {| d_year := 2024; d_month := 9; d_day := 2 |};
              s_start := {| year := 2024; month := 9; day := 2; hour := 8; minute := 0 |};
              s_end := {| year := 2024; month := 9; day := 2; hour := 8; minute := 0 |};
              s_ligne := "12"; s_ldebpce := "ABC"; s_lfinpce := "DEF";
              s_duration := "0.00h"; s_details := "" |} in
  let b := {| s_date := {| d_year := 2024; d_month := 9; d_day := 2 |};
              s_start := {| year := 2024; month := 9; day := 2; hour := 7; minute := 0 |};
              s_end := {| year := 2024; month := 9; day := 2; hour := 6; minute := 0 |};
              s_ligne := "7"; s_ldebpce := "GHI"; s_lfinpce := "JKL";
              s_duration := "-1.00h"; s_details := "" |} in
  (create_calendar [a; a]).2 = Some [event_of a; event_of a]
  ∧ (create_calendar [a; b]).2 = None
  ∧ (create_calendar [a; b]).1 = [b; a].
Proof.
  intros a b.
  destruct (create_calendar_events [a; a]) as (Hsome & _).
  destruct (create_calendar_events [a; b]) as (_ & Hnone & _).
  split; [|split; [apply Hnone; right; left; reflexivity | reflexivity]].
  destruct Hsome as (cal & Hc & _); [by repeat constructor|].
  rewrite Hc. f_equal. vm_compute in Hc. by injection Hc as <-.
Defined.

(** X14. From the records of a pass [create_calendar] always makes a
    calendar; in it no event ends before it begins, and each lasts at
    most 1439 minutes. *)
Theorem calendar_events_end_after_begin (text : string) :
  ∃ cal, (create_calendar (parse_schedule text)).2 = Some cal
         ∧ cal ≡ₚ map event_of (parse_schedule text)
         ∧ ∀ e, e ∈ cal ->
                dt_lt (e_end e) (e_begin e) = false
                ∧ 0 <= minutes_between (e_end e) (e_begin e) <= 1439.
Proof.
  exists (map event_of (sort_by_start (parse_schedule text))).
  split.
  { apply create_calendar_some, Forall_forall. intros r Hr.
    by apply (parse_schedule_order text). }
  split; [by rewrite sort_by_start_perm|].
  intros e (r & -> & Hr)%list_elem_of_fmap.
  rewrite sort_by_start_perm in Hr. split.
  - by apply (parse_schedule_order text).
  - by apply (parse_schedule_shape text) in Hr as (_ & _ & _ & _ & H).
Qed.

Lemma calendar_events_end_after_begin_witness :
  let text := "9387 lu. 02/09/2024 A B 12 1201 - 3 ABC 22:40 0:05 DEF" in
  let e := {| e_name := "Ligne 12 | ABC -> DEF";
              e_begin := {| year := 2024; month := 9; day := 2; hour := 22; minute := 40 |};
              e_end := {| year := 2024; month := 9; day := 3; hour := 0; minute := 5 |};
              e_location := "ABC -> DEF";
              e_description :=
                "Work shift details:" +:+ nl +:+ "Duration: 1.42h" +:+ nl
                +:+ "Ligne: 12" +:+ nl +:+ "From: ABC" +:+ nl +:+ "To: DEF" +:+ nl
                +:+ "Full details: " +:+ text |} in
  (create_calendar (parse_schedule text)).2 = Some [e]
  ∧ dt_lt (e_end e) (e_begin e) = false
  ∧ 0 <= minutes_between (e_end e) (e_begin e) <= 1439.
Proof.
  intros text e.
  destruct (calendar_events_end_after_begin text) as (cal & Hc & _ & Hall).
  assert (Hcal : cal = [e]) by (vm_compute in Hc; by injection Hc as <-).
  subst cal. split; [exact Hc|]. apply Hall. left.
Defined.

(** ** Reading the document *)

Lemma read_pages_none (pages : list (option string)) :
  foldl (λ text page, t ← text; p ← page; Some (t +:+ (p +:+ nl))) None pages = None.
Proof. by induction pages. Qed.

Lemma read_pages_acc (pages : list (option string)) : ∀ (acc : string) (text : string),
  foldl (λ text page, t ← text; p ← page; Some (t +:+ (p +:+ nl))) (Some acc) pages
  = Some text ->
  ∃ ps, pages = Some <$> ps ∧ text = acc +:+ document ps.
Proof.
  induction pages as [|[p|] pages IH]; intros acc text; simpl.
  - intros [= <-]. exists []. by rewrite str_app_nil_r.
  - intros (ps & -> & ->)%IH. exists (p :: ps). split; [done|].
    simpl. by rewrite !str_app_assoc.
  - by rewrite read_pages_none.
Qed.

Lemma read_pages_all (ps : list string) : ∀ acc,
  foldl (λ text page, t ← text; p ← page; Some (t +:+ (p +:+ nl)))
        (Some acc) (Some <$> ps)
  = Some (acc +:+ document ps).
Proof.
  induction ps as [|p ps IH]; intros acc; simpl.
  - by rewrite str_app_nil_r.
  - rewrite IH. by rewrite !str_app_assoc.
Qed.

Lemma read_pdf_inv (file : option (list (option string))) (text : string) :
  read_pdf file = Some text <-> ∃ ps, file = Some (Some <$> ps) ∧ text = document ps.
Proof.
  unfold read_pdf. split.
  - destruct file as [pages|]; [|done]. simpl.
    intros (ps & -> & ->)%read_pages_acc. by exists ps.
  - intros (ps & -> & ->). simpl. by rewrite read_pages_all.
Qed.

Lemma lines_of_empty : lines_of "" = [].
Proof. done. Qed.

Lemma lines_of_document (ps : list string) :
  lines_of (document ps) = flat_map lines_of ps.
Proof.
  induction ps as [|p ps IH]; [done|].
  change (document (p :: ps)) with (p +:+ nl +:+ document ps).
  by rewrite lines_of_app, IH.
Qed.

Lemma document_empty (ps : list string) : document ps = "" <-> ps = [].
Proof.
  destruct ps as [|p ps]; simpl; [done|]. split; [|done].
  unfold nl. by destruct p.
Qed.

(** X15. [read_pdf] returns a text exactly when the file opens and every
    page gives its text. The text then is that of the pages in order,
    each followed by a line break: it is empty only if there is no page,
    and its lines are those of the first page, then those of the second,
    and so on, so that a pass over it goes through the pages one after
    the other without starting afresh. *)
Theorem read_pdf_joins_pages (file : option (list (option string))) (text : string) :
  read_pdf file = Some text ->
  ∃ ps, file = Some (Some <$> ps)
        ∧ text = document ps
        ∧ (text = "" <-> ps = [])
        ∧ lines_of text = flat_map lines_of ps
        ∧ parse_schedule text = shifts (run (flat_map lines_of ps) initial).
Proof.
  intros (ps & -> & ->)%read_pdf_inv. exists ps.
  split; [done|]. split; [done|]. split; [apply document_empty|].
  unfold parse_schedule. by rewrite lines_of_document.
Qed.

Lemma read_pdf_joins_pages_witness :
  let file := Some [Some "9387 lu. 02/09/2024 BO 5:10 13:45 Urb 12 1201 - 3 ABC";
                    Some "8 1 - 2 MNO 9:00 10:30 PQR"] in
  let text := "9387 lu. 02/09/2024 BO 5:10 13:45 Urb 12 1201 - 3 ABC" +:+ nl
              +:+ "8 1 - 2 MNO 9:00 10:30 PQR" +:+ nl in
  read_pdf file = Some text
  ∧ ∃ ps, file = Some (Some <$> ps)
          ∧ text = document ps
          ∧ (text = "" <-> ps = [])
          ∧ lines_of text = flat_map lines_of ps
          ∧ parse_schedule text = shifts (run (flat_map lines_of ps) initial).
Proof.
  intros file text.
  assert (H : read_pdf file = Some text) by reflexivity.
  split; [exact H|]. exact (read_pdf_joins_pages file text H).
Defined.

(** X16. [read_pdf] returns [None] exactly when the file cannot be
    opened or some page fails to give its text: no text of the pages
    before a failing page is kept. *)
Theorem read_pdf_fails (file : option (list (option string))) :
  read_pdf file = None <-> file = None ∨ ∃ pages, file = Some pages ∧ None ∈ pages.
Proof.
  split.
  - intros H. destruct file as [pages|]; [right | by left].
    exists pages. split; [done|].
    destruct (decide (None ∈ pages)) as [Hin|Hin]; [done|]. exfalso.
    assert (Hps : ∃ ps, pages = Some <$> ps).
    { clear H. induction pages as [|[p|] pages IH].
      - by exists [].
      - destruct IH as [ps ->]; [by intros ?; apply Hin; right | by exists (p :: ps)].
      - exfalso. apply Hin. left. }
    destruct Hps as [ps ->].
    assert (Hr : read_pdf (Some (Some <$> ps)) = Some (document ps))
      by (apply read_pdf_inv; by exists ps).
    congruence.
  - intros [->|(pages & -> & Hin)]; [done|].
    destruct (read_pdf (Some pages)) as [text|] eqn:E; [|done].
    apply read_pdf_inv in E as (ps & [= ->] & _).
    apply list_elem_of_fmap in Hin as (? & ? & _). done.
Qed.

(** ** The conversion *)

Lemma calendar_of_pass (text : string) :
  create_calendar (parse_schedule text)
  = (sort_by_start (parse_schedule text),
     Some (map event_of (sort_by_start (parse_schedule text)))).
Proof.
  unfold create_calendar. f_equal.
  apply new_events_all, sort_by_start_forall, Forall_forall. intros r Hr.
  by apply (parse_schedule_order text).
Qed.

Lemma convert_returns (file : option (list (option string))) (can_write : bool)
    (n : nat) (written : option (list event)) :
  convert_pdf_to_ics file can_write = Returns n written ->
  (n = 0%nat ∧ written = None
   ∧ (read_pdf file = None ∨ read_pdf file = Some ""
      ∨ ∃ text, read_pdf file = Some text ∧ parse_schedule text = []))
  ∨ (∃ text, read_pdf file = Some text
             ∧ written = Some (map event_of (sort_by_start (parse_schedule text)))
             ∧ n = length (parse_schedule text)
             ∧ (0 < n)%nat ∧ can_write = true).
Proof.
  unfold convert_pdf_to_ics.
  destruct (read_pdf file) as [text|]; [|intros [= <- <-]; left; auto].
  destruct text as [|c text]; [intros [= <- <-]; left; auto|].
  cbn [Str.is_empty].
  pose proof (calendar_of_pass (String c text)) as Hcal.
  destruct (parse_schedule (String c text)) as [|r rs] eqn:E.
  { intros [= <- <-]. left. split; [done|]. split; [done|]. right. right. by eexists. }
  rewrite Hcal. destruct can_write; [|done]. intros [= <- <-].
  right. exists (String c text).
  split; [done|]. rewrite E.
  change (insert_by_start r (sort_by_start rs)) with (sort_by_start (r :: rs)).
  split; [done|].
  rewrite (Permutation_length (sort_by_start_perm (r :: rs))). simpl.
  repeat split; lia.
Qed.

(** X17. When [convert_pdf_to_ics] returns, it returns 0 having written
    nothing, because the document could not be read, has no text or
    gives no record, or else it has written the calendar of the records
    of the document and returns their number, which is then positive and
    the number of the events. *)
Theorem convert_count (file : option (list (option string))) (can_write : bool)
    (n : nat) (written : option (list event)) :
  convert_pdf_to_ics file can_write = Returns n written ->
  (n = 0%nat ∧ written = None
   ∧ (read_pdf file = None ∨ read_pdf file = Some ""
      ∨ ∃ text, read_pdf file = Some text ∧ parse_schedule text = []))
  ∨ (∃ text cal,
       read_pdf file = Some text
       ∧ written = Some cal
       ∧ cal ≡ₚ map event_of (parse_schedule text)
       ∧ begins_in_order cal
       ∧ n = length (parse_schedule text) ∧ n = length cal
       ∧ (0 < n)%nat).
Proof.
  intros [H|(text & Hr & -> & -> & Hn & _)]%convert_returns; [by left|].
  right. exists text, (map event_of (sort_by_start (parse_schedule text))).
  split; [done|]. split; [done|].
  split; [by rewrite sort_by_start_perm|].
  split; [apply events_in_order, sort_by_start_sorted|].
  split; [done|]. split; [by rewrite length_map, sort_by_start_perm | done].
Qed.

Lemma convert_count_witness :
  let file := Some [Some "9387 lu. 02/09/2024 BO 5:10 13:45 Urb 12 1201 - 3 ABC";
                    Some "8 1 - 2 MNO 9:00 10:30 PQR"] in
  let cal := [{| e_name := "Ligne 8 | ABC -> PQR";
                 e_begin := {| year := 2024; month := 9; day := 2; hour := 5; minute := 10 |};
                 e_end := {| year := 2024; month := 9; day := 2; hour := 10; minute := 30 |};
                 e_location := "ABC -> PQR";
                 e_description :=
                   "Work shift details:" +:+ nl +:+ "Duration: 5.33h" +:+ nl
                   +:+ "Ligne: 8" +:+ nl +:+ "From: ABC" +:+ nl +:+ "To: PQR" +:+ nl
                   +:+ "Full details: 8 1 - 2 MNO 9:00 10:30 PQR" |}] in
  convert_pdf_to_ics file true = Returns 1 (Some cal)
  ∧ ((1 = 0 ∧ Some cal = None
      ∧ (read_pdf file = None ∨ read_pdf file = Some ""
         ∨ ∃ text, read_pdf file = Some text ∧ parse_schedule text = []))%nat
     ∨ (∃ text cal',
          read_pdf file = Some text
          ∧ Some cal = Some cal'
          ∧ cal' ≡ₚ map event_of (parse_schedule text)
          ∧ begins_in_order cal'
          ∧ 1%nat = length (parse_schedule text) ∧ 1%nat = length cal'
          ∧ (0 < 1)%nat)).
Proof.
  intros file cal.
  assert (H : convert_pdf_to_ics file true = Returns 1 (Some cal))
    by (vm_compute; reflexivity).
  split; [exact H|]. exact (convert_count file true 1%nat (Some cal) H).
Defined.

(** ** When the builder succeeds *)

Section Execution.
Context {A : Type}.
Implicit Types (k : string -> list string -> option A) (x : A).

Lemma consumed_two (a b : ascii) (rest : string) :
  consumed (String a (String b rest)) rest = String a (String b "").
Proof. apply (consumed_app (String a (String b "")) rest). Qed.

Lemma consumed_four (a b c d : ascii) (rest : string) :
  consumed (String a (String b (String c (String d rest)))) rest
  = String a (String b (String c (String d ""))).
Proof. apply (consumed_app (String a (String b (String c (String d "")))) rest). Qed.

Lemma rmatch_group_two (r R : regex) (a b : ascii) (rest : string)
    (caps : list string) k x :
  takes_two r a b ->
  rmatch R rest (caps ++ [String a (String b "")]) k = Some x ->
  rmatch (Seq (Grp r) R) (String a (String b rest)) caps k = Some x.
Proof.
  intros Hr HR. cbn [rmatch]. apply Hr. by rewrite consumed_two.
Qed.

Lemma rmatch_char (c : ascii) (R : regex) (rest : string) (caps : list string) k :
  rmatch (Seq (lit (String c "")) R) (String c rest) caps k = rmatch R rest caps k.
Proof. cbn [rmatch lit cls_mem]. by rewrite Ascii.eqb_refl. Qed.

Lemma rmatch_one_space (R : regex) (h : ascii) (rest : string) (caps : list string) k x :
  Chars.is_space h = false ->
  rmatch R (String h rest) caps k = Some x ->
  rmatch (Seq (plus Space) R) (String " " (String h rest)) caps k = Some x.
Proof.
  intros Hh HR. unfold plus. cbn [rmatch rep cls_mem].
  change (Chars.is_space " ") with true. rewrite Hh. simpl. by rewrite HR.
Qed.

Lemma rmatch_year (R : regex) (a b c d : ascii) (rest : string) (caps : list string) k x :
  forallb Chars.is_digit [a; b; c; d] = true ->
  rmatch R rest (caps ++ [String a (String b (String c (String d "")))]) k = Some x ->
  rmatch (Seq (Grp directive_Y) R) (String a (String b (String c (String d rest)))) caps k
  = Some x.
Proof.
  intros H HR. simpl in H.
  repeat (apply andb_true_iff in H as [? H]).
  unfold directive_Y, cat. cbn [rmatch foldr cls_mem].
  repeat match goal with
         | H : Chars.is_digit _ = true |- _ => rewrite H; clear H
         end.
  by rewrite consumed_four.
Qed.

End Execution.

Ltac two_digits H1 H2 :=
  apply is_digit_cases in H1; apply is_digit_cases in H2;
  simpl in H1, H2;
  repeat destruct H1 as [<-|H1]; try destruct H1;
  repeat destruct H2 as [<-|H2]; try destruct H2.

Ltac takes_two_tac H1 H2 Hr :=
  intros H1 H2 Hr A rest caps k x Hk;
  two_digits H1 H2;
  first [ discriminate Hr
        | vm_compute; rewrite Hk; reflexivity ].

Lemma directive_d_takes (a b : ascii) :
  Chars.is_digit a = true -> Chars.is_digit b = true ->
  (1 <=? number (String a (String b ""))) && (number (String a (String b "")) <=? 31) = true ->
  takes_two directive_d a b.
Proof. takes_two_tac H1 H2 Hr. Qed.

Lemma directive_m_takes (a b : ascii) :
  Chars.is_digit a = true -> Chars.is_digit b = true ->
  (1 <=? number (String a (String b ""))) && (number (String a (String b "")) <=? 12) = true ->
  takes_two directive_m a b.
Proof. takes_two_tac H1 H2 Hr. Qed.

Lemma directive_H_takes (a b : ascii) :
  Chars.is_digit a = true -> Chars.is_digit b = true ->
  (number (String a (String b "")) <=? 23) = true ->
  takes_two directive_H a b.
Proof. takes_two_tac H1 H2 Hr. Qed.

Lemma directive_M_takes (a b : ascii) :
  Chars.is_digit a = true -> Chars.is_digit b = true ->
  (number (String a (String b "")) <=? 59) = true ->
  takes_two directive_M a b.
Proof. takes_two_tac H1 H2 Hr. Qed.

Lemma digits_total (s : string) : ∀ (acc : Z) (ok : bool),
  str_all Chars.is_digit s = true -> s ≠ "" ∨ ok = true ->
  is_Some (PyInt.digits s acc ok).
Proof.
  induction s as [|c s IH]; intros acc ok; simpl.
  - intros _ [H| ->]; [done | by eexists].
  - intros [Hc Hs]%andb_true_iff _. rewrite Hc. apply IH; [done | by right].
Qed.

Lemma py_int_number (s : string) :
  str_all Chars.is_digit s = true -> s ≠ "" ->
  Z.of_nat (String.length s) <= 4300 ->
  PyInt.py_int s = Some (number s).
Proof.
  intros Hs Hne Hl. rewrite py_int_digits by done. unfold number.
  destruct (digits_total s 0 false Hs) as [n ->]; [by left | done].
Qed.

Lemma days_in_month_le (y m : Z) : days_in_month y m <= 31.
Proof.
  unfold days_in_month.
  destruct (m =? 2); [destruct (is_leap y); lia|].
  destruct ((m =? 4) || (m =? 6) || (m =? 9) || (m =? 11)); lia.
Qed.

Lemma valid_date_bounds (y m d : Z) :
  valid_date y m d = true -> 1 <= y <= 9999 ∧ 1 <= m <= 12 ∧ 1 <= d <= 31.
Proof.
  unfold valid_date, MINYEAR, MAXYEAR. intros Hv.
  repeat (apply andb_true_iff in Hv as [Hv ?]).
  repeat match goal with H : (_ <=? _) = true |- _ => apply Z.leb_le in H end.
  pose proof (days_in_month_le y m). lia.
Qed.

Lemma date_form_inv (date : string) :
  date_form date = true ->
  ∃ d1 d2 m1 m2 y1 y2 y3 y4,
    date = String d1 (String d2 (String "/" (String m1 (String m2 (String "/"
             (String y1 (String y2 (String y3 (String y4 "")))))))))
    ∧ Chars.is_digit d1 = true ∧ Chars.is_digit d2 = true
    ∧ Chars.is_digit m1 = true ∧ Chars.is_digit m2 = true
    ∧ forallb Chars.is_digit [y1; y2; y3; y4] = true.
Proof.
  intros Hd.
  destruct date as [|d1 [|d2 [|s1 [|m1 [|m2 [|s2 [|y1 [|y2 [|y3 [|y4 [|]]]]]]]]]]];
    try done.
  simpl in Hd.
  apply andb_true_iff in Hd as [[Hd ->%Ascii.eqb_eq]%andb_true_iff ->%Ascii.eqb_eq].
  repeat (apply andb_true_iff in Hd as [? Hd]).
  exists d1, d2, m1, m2, y1, y2, y3, y4. repeat split; try done.
  simpl. by repeat match goal with
            | H : Chars.is_digit _ = true |- _ => rewrite H; clear H
            end.
Qed.

Lemma canonical_time_inv (t : string) :
  canonical_time t = true ->
  ∃ h1 h2 n1 n2,
    t = String h1 (String h2 (String ":" (String n1 (String n2 ""))))
    ∧ Chars.is_digit h1 = true ∧ Chars.is_digit h2 = true
    ∧ Chars.is_digit n1 = true ∧ Chars.is_digit n2 = true.
Proof.
  intros Ht. destruct t as [|h1 [|h2 [|c [|n1 [|n2 [|]]]]]]; try done.
  unfold canonical_time in Ht.
  apply andb_true_iff in Ht
    as [[[[Hh1 Hh2]%andb_true_iff ->%Ascii.eqb_eq]%andb_true_iff Hn1]%andb_true_iff Hn2].
  by exists h1, h2, n1, n2.
Qed.

(** A real date and a time of the clock are read as their instant. *)
Lemma strptime_reads (date t : string) :
  date_form date = true -> canonical_time t = true ->
  real_date (date_of_text date) = true -> on_clock t = true ->
  strptime (date +:+ " " +:+ t) = Some (instant (date_of_text date) t).
Proof.
  intros (d1 & d2 & m1 & m2 & y1 & y2 & y3 & y4 & -> & D1 & D2 & M1 & M2 & HY)%date_form_inv
         (h1 & h2 & n1 & n2 & -> & H1 & H2 & N1 & N2)%canonical_time_inv.
  unfold real_date, on_clock, instant, date_of_text, hour_of, minute_of.
  cbn [d_year d_month d_day].
  set (D := number (String d1 (String d2 ""))).
  set (M := number (String m1 (String m2 ""))).
  set (Y := number (String y1 (String y2 (String y3 (String y4 ""))))).
  set (H := number (String h1 (String h2 ""))).
  set (N := number (String n1 (String n2 ""))).
  intros Hv [HH HN]%andb_true_iff.
  assert (Hexec : exec format_regex
            (String d1 (String d2 (String "/" (String m1 (String m2 (String "/"
              (String y1 (String y2 (String y3 (String y4 (String " "
                (String h1 (String h2 (String ":" (String n1 (String n2 ""))))))))))))))))
          = Some ([String d1 (String d2 ""); String m1 (String m2 "");
                   String y1 (String y2 (String y3 (String y4 "")));
                   String h1 (String h2 ""); String n1 (String n2 "")], "")).
  { pose proof (valid_date_bounds _ _ _ Hv) as (_ & ? & ?).
    unfold exec, format_regex, cat. cbn [foldr].
    apply rmatch_group_two.
    { apply directive_d_takes; try done. fold D.
      apply andb_true_iff; split; apply Z.leb_le; lia. }
    rewrite rmatch_char.
    apply rmatch_group_two.
    { apply directive_m_takes; try done. fold M.
      apply andb_true_iff; split; apply Z.leb_le; lia. }
    rewrite rmatch_char.
    apply rmatch_year; [done|].
    apply rmatch_one_space; [by apply is_digit_not_space|].
    apply rmatch_group_two; [by apply directive_H_takes|].
    rewrite rmatch_char.
    apply rmatch_group_two; [by apply directive_M_takes|].
    done. }
  unfold strptime.
  change (String d1 (String d2 (String "/" (String m1 (String m2 (String "/"
            (String y1 (String y2 (String y3 (String y4 ""))))))))) +:+ " "
          +:+ String h1 (String h2 (String ":" (String n1 (String n2 "")))))
    with (String d1 (String d2 (String "/" (String m1 (String m2 (String "/"
              (String y1 (String y2 (String y3 (String y4 (String " "
                (String h1 (String h2 (String ":" (String n1 (String n2 "")))))))))))))))).
  rewrite Hexec. cbn [Str.is_empty]. unfold group. cbn [nth Nat.sub].
  simpl in HY. repeat (apply andb_true_iff in HY as [? HY]).
  rewrite !py_int_number
    by first [ done | simpl; lia
             | simpl; by repeat match goal with
                         | H : Chars.is_digit _ = true |- _ => rewrite H
                         end ].
  cbn [mbind option_bind]. fold D M Y H N. by rewrite Hv.
Qed.

(** Whatever [strptime] reads from a date text and a canonical time is
    their instant, the date being real and the time on the clock. *)
Lemma strptime_read_inv (date t : string) (dt : datetime) :
  date_form date = true -> canonical_time t = true ->
  strptime (date +:+ " " +:+ t) = Some dt ->
  dt = instant (date_of_text date) t
  ∧ real_date (date_of_text date) = true ∧ on_clock t = true.
Proof.
  intros Hd Ht Hs.
  pose proof (strptime_date _ _ _ Hd Hs) as Hdate.
  apply date_form_inv in Hd
    as (d1 & d2 & m1 & m2 & y1 & y2 & y3 & y4 & -> & D1 & D2 & M1 & M2 & HY).
  apply canonical_time_inv in Ht as (h1 & h2 & n1 & n2 & -> & H1 & H2 & N1 & N2).
  apply strptime_inv in Hs
    as (wd & wm & wy & ws & wH & wM & Heq & Sd & Sm & SY & [Ss Ls] & SH & SM
        & _ & _ & _ & PH & PM & Hv & RH & RM).
  destruct SY as (a1 & a2 & a3 & a4 & -> & _).
  destruct Sd as [(a & -> & Ha)|(a & b & -> & Ha & Hb)];
    simpl in Heq; simplify_eq; try (by absurd_digit).
  destruct Sm as [(e & -> & He)|(e & f & -> & He & Hf)];
    simpl_string_eq; simplify_eq; try (by absurd_digit).
  simpl_string_eq. simplify_eq.
  destruct ws as [|c [|c' ws]]; simpl in Ls; [lia| |].
  2: { simpl_string_eq. simpl in Ss. simplify_eq.
       apply andb_true_iff in Ss as [_ [Ss _]%andb_true_iff].
       by rewrite (is_digit_not_space _ H1) in Ss. }
  simpl_string_eq. simplify_eq.
  destruct SH as [(g & -> & Hg)|(g & i & -> & Hg & Hi)];
    simpl_string_eq; simplify_eq; try (by absurd_digit).
  rewrite py_int_number in PH, PM
    by first [ done | simpl; lia
             | simpl; by repeat match goal with
                         | H : Chars.is_digit _ = true |- _ => rewrite H
                         end ].
  injection PH as PH. injection PM as PM.
  unfold date_of, date_of_text in Hdate. injection Hdate as Hy Hm Hdd.
  unfold real_date, on_clock, instant, date_of_text, hour_of, minute_of.
  cbn [d_year d_month d_day].
  rewrite <- Hy, <- Hm, <- Hdd, PH, PM. split; [by destruct dt|].
  split; [done|]. apply andb_true_iff; split; apply Z.leb_le; lia.
Qed.

Lemma add_one_day_some (t : datetime) :
  valid_date (year t) (month t) (day t) = true ->
  last_day (date_of t) = false ->
  is_Some (add_one_day t).
Proof.
  intros Hv Hl. unfold add_one_day.
  destruct (Z.ltb_spec (day t) (days_in_month (year t) (month t))); [by eexists|].
  destruct (Z.ltb_spec (month t) 12); [by eexists|].
  destruct (Z.ltb_spec (year t) MAXYEAR); [by eexists|]. exfalso.
  unfold valid_date, MINYEAR, MAXYEAR in *.
  repeat (apply andb_true_iff in Hv as [Hv ?]).
  repeat match goal with H : (_ <=? _) = true |- _ => apply Z.leb_le in H end.
  assert (Hm : month t = 12) by lia. rewrite Hm, days_in_month_12 in *.
  unfold last_day, date_of, MAXYEAR in Hl. simpl in Hl.
  rewrite Hm in Hl.
  replace (year t) with 9999 in Hl by lia. replace (day t) with 31 in Hl by lia.
  done.
Qed.

Lemma add_one_day_last (t : datetime) :
  last_day (date_of t) = true -> add_one_day t = None.
Proof.
  unfold last_day, date_of, MAXYEAR. simpl.
  intros [[Hy%Z.eqb_eq Hm%Z.eqb_eq]%andb_true_iff Hd%Z.eqb_eq]%andb_true_iff.
  unfold add_one_day, MAXYEAR. by rewrite Hy, Hm, Hd.
Qed.

(** The success of the builder on a date text "DD/MM/YYYY" and two
    canonical times. *)
Lemma create_shift_some (date : string) (g : shift_info) (s e : string) :
  date_form date = true ->
  start_time g = Some s -> canonical_time s = true ->
  end_time g = Some e -> canonical_time e = true ->
  let D := date_of_text date in
  (is_Some (create_shift date g)
   <-> real_date D = true ∧ on_clock s = true ∧ on_clock e = true
       ∧ (last_day D = true -> dt_lt (instant D e) (instant D s) = false))
  ∧ (∀ r, create_shift date g = Some r ->
          s_start r = instant D s
          ∧ (if dt_lt (instant D e) (instant D s)
             then add_one_day (instant D e) else Some (instant D e)) = Some (s_end r)).
Proof.
  intros Hd Hs Cs He Ce D.
  assert (Hinv : ∀ r, create_shift date g = Some r ->
            real_date D = true ∧ on_clock s = true ∧ on_clock e = true
            ∧ s_start r = instant D s
            ∧ (if dt_lt (instant D e) (instant D s)
               then add_one_day (instant D e) else Some (instant D e)) = Some (s_end r)).
  { intros r (a & b & Ha & Hb & Hend & Hst & _)%create_shift_inv.
    rewrite Hs in Ha. rewrite He in Hb. simpl in Ha, Hb.
    apply strptime_read_inv in Ha as (-> & Hr & Hcs); [|done..].
    apply strptime_read_inv in Hb as (-> & _ & Hce); [|done..].
    by repeat split. }
  split; [split|].
  - intros [r Hr]. destruct (Hinv r Hr) as (Hreal & Hcs & Hce & _ & Hend).
    repeat split; try done. intros Hl.
    destruct (dt_lt (instant D e) (instant D s)); [|done].
    rewrite add_one_day_last in Hend; done.
  - intros (Hreal & Hcs & Hce & Hl).
    unfold create_shift. rewrite Hs, He. simpl fstr.
    rewrite (strptime_reads date s), (strptime_reads date e) by done.
    cbn [mbind option_bind]. fold D.
    destruct (dt_lt (instant D e) (instant D s)) eqn:Hlt; [|by eexists].
    destruct (add_one_day_some (instant D e)) as [b Hb]; [done| |].
    + destruct (last_day D) eqn:El; [by specialize (Hl eq_refl)|].
      clear Hinv. clearbody D. by destruct D.
    + rewrite Hb. by eexists.
  - intros r Hr. by destruct (Hinv r Hr) as (_ & _ & _ & ? & ?).
Qed.

(** X18. For a date text "DD/MM/YYYY" and a group with two canonical
    times, the builder succeeds exactly when the date is a date of the
    calendar, both times are times of the 24-hour clock and, if the end
    time is before the start time, the date is not the last day of the
    year 9999. The record then starts at the start time of that date and
    ends at the end time of that date or of the day after. *)
Theorem create_shift_succeeds_iff (date : string) (g : shift_info) (s e : string) :
  date_form date = true ->
  start_time g = Some s -> canonical_time s = true ->
  end_time g = Some e -> canonical_time e = true ->
  let D := date_of_text date in
  (is_Some (create_shift date g)
   <-> real_date D = true ∧ on_clock s = true ∧ on_clock e = true
       ∧ (last_day D = true -> dt_lt (instant D e) (instant D s) = false))
  ∧ (∀ r, create_shift date g = Some r ->
          s_start r = instant D s
          ∧ (if dt_lt (instant D e) (instant D s)
             then add_one_day (instant D e) else Some (instant D e)) = Some (s_end r)).
Proof. apply create_shift_some. Qed.

Lemma create_shift_succeeds_iff_witness :
  let g := {| ligne := "12"; ldebpce := "ABC"; lfinpce := "DEF";
              start_time := Some "23:30"; end_time := Some "24:00";
              full_line := "" |} in
  let D := date_of_text "29/02/2024" in
  (date_form "29/02/2024" = true
   ∧ canonical_time "23:30" = true ∧ canonical_time "24:00" = true
   ∧ on_clock "24:00" = false ∧ create_shift "29/02/2024" g = None)
  ∧ (is_Some (create_shift "29/02/2024" g)
     <-> real_date D = true ∧ on_clock "23:30" = true ∧ on_clock "24:00" = true
         ∧ (last_day D = true -> dt_lt (instant D "24:00") (instant D "23:30") = false))
  ∧ (∀ r, create_shift "29/02/2024" g = Some r ->
          s_start r = instant D "23:30"
          ∧ (if dt_lt (instant D "24:00") (instant D "23:30")
             then add_one_day (instant D "24:00") else Some (instant D "24:00"))
            = Some (s_end r)).
Proof.
  intros g D. split; [by repeat split|].
  apply (create_shift_succeeds_iff "29/02/2024" g "23:30" "24:00"); reflexivity.
Defined.

(** ** The groups that a pass drops *)

Lemma handed_all_ok (lines : list string) (st : parser) (dg : string * shift_info) :
  pending_ok st -> date_ok st ->
  dg ∈ handed_all st lines ->
  date_form dg.1 = true ∧ group_ok dg.2.
Proof.
  intros Hp Hd Hin. split; [by eapply handed_all_date_form|].
  apply handed_all_split in Hin as (before & line & after & -> & Hin).
  apply handed_inv in Hin as (_ & _ & _ & Hg); [done|]. by apply run_pending_ok.
Qed.

(** X19. Every group that a pass hands to the builder comes with a date
    text "DD/MM/YYYY" and two canonical times; it is built, and gives a
    record of the output, exactly when the date is a date of the
    calendar, both times are times of the 24-hour clock and, if the end
    time is before the start time, the date is not the last day of the
    year 9999. Every other group is dropped. *)
Theorem pass_builds_exactly (text : string) (dg : string * shift_info) :
  dg ∈ handed_all initial (lines_of text) ->
  ∃ s e,
    start_time dg.2 = Some s ∧ canonical_time s = true
    ∧ end_time dg.2 = Some e ∧ canonical_time e = true
    ∧ date_form dg.1 = true
    ∧ (is_Some (build dg)
       <-> real_date (date_of_text dg.1) = true
           ∧ on_clock s = true ∧ on_clock e = true
           ∧ (last_day (date_of_text dg.1) = true ->
              dt_lt (instant (date_of_text dg.1) e) (instant (date_of_text dg.1) s) = false)).
Proof.
  intros Hin.
  apply handed_all_ok in Hin as (Hd & _ & _ & _ & (s & Hs & Cs) & (e & He & Ce));
    [|apply initial_pending_ok | by intros d].
  exists s, e. repeat split; try done;
    by apply (create_shift_some dg.1 dg.2 s e Hd Hs Cs He Ce).
Qed.

Lemma pass_builds_exactly_witness :
  let text := "9387 lu. 30/02/2024 A B 12 1201 - 3 ABC 5:25 6:40 DEF" in
  let dg := ("30/02/2024",
             {| ligne := "12"; ldebpce := "ABC"; lfinpce := "DEF";
                start_time := Some "05:25"; end_time := Some "06:40";
                full_line := text |}) in
  (dg ∈ handed_all initial (lines_of text)
   ∧ real_date (date_of_text dg.1) = false ∧ parse_schedule text = [])
  ∧ ∃ s e,
      start_time dg.2 = Some s ∧ canonical_time s = true
      ∧ end_time dg.2 = Some e ∧ canonical_time e = true
      ∧ date_form dg.1 = true
      ∧ (is_Some (build dg)
         <-> real_date (date_of_text dg.1) = true
             ∧ on_clock s = true ∧ on_clock e = true
             ∧ (last_day (date_of_text dg.1) = true ->
                dt_lt (instant (date_of_text dg.1) e) (instant (date_of_text dg.1) s)
                = false)).
Proof.
  intros text dg.
  assert (Hin : dg ∈ handed_all initial (lines_of text)) by (vm_compute; left).
  split; [split; [exact Hin | split; vm_compute; reflexivity]|].
  exact (pass_builds_exactly text dg Hin).
Defined.

(** ** Reading back a group in the layout of the schedule *)

Section Greedy.
Context {A : Type}.
Implicit Types (k : string -> list string -> option A) (x : A).

(** A repetition takes a whole run of its class when what follows the run
    stops it and the rest of the pattern succeeds there. *)
Lemma rep_greedy (p : cls) (w rest : string) (kk : string -> option A) x :
  ∀ (lo : nat) (hi : option nat),
  str_all (cls_mem p) w = true ->
  (lo <= String.length w)%nat ->
  (∀ n, hi = Some n -> (String.length w <= n)%nat) ->
  stops p rest = true ->
  kk rest = Some x ->
  rep p lo hi (w +:+ rest) kk = Some x.
Proof.
  induction w as [|c w IH]; intros lo hi Hw Hlo Hhi Hstop Hk.
  - simpl in Hlo. assert (lo = 0%nat) as -> by lia.
    destruct rest as [|c rest]; simpl; [done|].
    simpl in Hstop. apply negb_true_iff in Hstop. by rewrite Hstop.
  - simpl in Hw. apply andb_true_iff in Hw as [Hc Hw].
    change (String c w +:+ rest) with (String c (w +:+ rest)).
    cbn [rep]. rewrite Hc.
    assert (Hmore : more hi = true).
    { destruct hi as [[|n]|]; try done. specialize (Hhi 0%nat eq_refl). simpl in Hhi. lia. }
    rewrite Hmore. cbn [andb].
    rewrite (IH (Nat.pred lo) (less hi)); try done.
    + simpl in Hlo. lia.
    + intros n Hn. destruct hi as [m|]; [|done]. simpl in Hn. injection Hn as <-.
      specialize (Hhi m eq_refl). simpl in Hhi. lia.
Qed.

Lemma rmatch_rep (p : cls) (lo : nat) (hi : option nat) (R : regex)
    (w rest : string) (caps : list string) k x :
  str_all (cls_mem p) w = true ->
  (lo <= String.length w)%nat ->
  (∀ n, hi = Some n -> (String.length w <= n)%nat) ->
  stops p rest = true ->
  rmatch R rest caps k = Some x ->
  rmatch (Seq (Rep p lo hi) R) (w +:+ rest) caps k = Some x.
Proof. intros. cbn [rmatch]. by apply rep_greedy. Qed.

Lemma rmatch_group_rep (p : cls) (lo : nat) (hi : option nat) (R : regex)
    (w rest : string) (caps : list string) k x :
  str_all (cls_mem p) w = true ->
  (lo <= String.length w)%nat ->
  (∀ n, hi = Some n -> (String.length w <= n)%nat) ->
  stops p rest = true ->
  rmatch R rest (caps ++ [w]) k = Some x ->
  rmatch (Seq (Grp (Rep p lo hi)) R) (w +:+ rest) caps k = Some x.
Proof.
  intros. cbn [rmatch]. apply rep_greedy; try done. by rewrite consumed_app.
Qed.

Lemma rmatch_one (c : ascii) (R : regex) (rest : string) (caps : list string) k :
  rmatch (Seq (One (Chr c)) R) (String c rest) caps k = rmatch R rest caps k.
Proof. cbn [rmatch cls_mem]. by rewrite Ascii.eqb_refl. Qed.

End Greedy.

Lemma text_of_inv (f : ascii -> bool) (w : string) :
  text_of f w = true ->
  str_all f w = true ∧ (1 <= String.length w)%nat
  ∧ ∃ c w', w = String c w' ∧ f c = true.
Proof.
  unfold text_of. destruct w as [|c w']; [done|]. simpl.
  intros [Hc Hw]%andb_true_iff. rewrite Hc, Hw.
  split; [done|]. split; [lia|]. by exists c, w'.
Qed.

Lemma stops_text (p : cls) (f : ascii -> bool) (w rest : string) :
  text_of f w = true ->
  (∀ c, f c = true -> cls_mem p c = false) ->
  stops p (w +:+ rest) = true.
Proof.
  intros (_ & _ & c & w' & -> & Hc)%text_of_inv Hf. simpl. by rewrite (Hf c Hc).
Qed.

Lemma is_word_not_space (c : ascii) :
  Chars.is_word c = true -> Chars.is_space c = false.
Proof.
  destruct c as [[] [] [] [] [] [] [] []]; vm_compute; intros H;
    first [discriminate H | reflexivity].
Qed.

Lemma valid_time_token_inv (t : string) :
  valid_time_token t = true ->
  ∃ h m, t = h +:+ String ":" m
         ∧ text_of Chars.is_digit h = true ∧ (String.length h <= 2)%nat
         ∧ str_all Chars.is_digit m = true ∧ String.length m = 2%nat.
Proof.
  intros Ht. destruct t as [|a [|b [|c [|d [|e [|]]]]]]; try done.
  - unfold valid_time_token in Ht.
    apply andb_true_iff in Ht
      as [[[Ha ->%Ascii.eqb_eq]%andb_true_iff Hc]%andb_true_iff Hd].
    exists (String a ""), (String c (String d "")).
    unfold text_of. simpl. rewrite Ha, Hc, Hd. repeat split; lia.
  - unfold valid_time_token in Ht.
    apply andb_true_iff in Ht
      as [[[[Ha Hb]%andb_true_iff ->%Ascii.eqb_eq]%andb_true_iff Hd]%andb_true_iff He].
    exists (String a (String b "")), (String d (String e "")).
    unfold text_of. simpl. rewrite Ha, Hb, Hd, He. repeat split; lia.
Qed.

Lemma rmatch_time (R : regex) {A : Type} (t rest : string) (caps : list string)
    (k : string -> list string -> option A) (x : A) :
  valid_time_token t = true ->
  stops Digit rest = true ->
  rmatch R rest caps k = Some x ->
  rmatch (Seq time_re R) (t +:+ rest) caps k = Some x.
Proof.
  intros (h & m & -> & (Hh & Lh & _)%text_of_inv & Lh2 & Hm & Lm)%valid_time_token_inv
         Hstop HR.
  unfold time_re, cat, upto. cbn [foldr rmatch].
  rewrite str_app_assoc.
  apply rep_greedy; try done.
  { by intros n [= <-]. }
  change (String ":" m +:+ rest) with (String ":" (m +:+ rest)).
  cbn [cls_mem]. rewrite Ascii.eqb_refl.
  apply rep_greedy; try done; [lia | intros n [= <-]; lia].
Qed.

Lemma rmatch_group_time (R : regex) {A : Type} (t rest : string) (caps : list string)
    (k : string -> list string -> option A) (x : A) :
  valid_time_token t = true ->
  stops Digit rest = true ->
  rmatch R rest (caps ++ [t]) k = Some x ->
  rmatch (Seq (Grp time_re) R) (t +:+ rest) caps k = Some x.
Proof.
  intros Ht Hstop HR.
  cbn [rmatch].
  apply (rmatch_time Eps t rest caps
           (λ s' caps', rmatch R s' (caps' ++ [consumed (t +:+ rest) s']) k) x
           Ht Hstop).
  cbn [rmatch]. by rewrite consumed_app.
Qed.

Lemma rmatch_blank (R : regex) {A : Type} (rest : string) (caps : list string)
    (k : string -> list string -> option A) (x : A) :
  stops Space rest = true ->
  rmatch R rest caps k = Some x ->
  rmatch (Seq (Rep Space 1 None) R) (String " " rest) caps k = Some x.
Proof.
  intros Hstop HR. by apply (rmatch_rep Space 1 None R " " rest).
Qed.

Lemma stops_space_digits (w rest : string) :
  text_of Chars.is_digit w = true -> stops Space (w +:+ rest) = true.
Proof. intros H. eapply stops_text; [exact H|]. apply is_digit_not_space. Qed.

Lemma stops_space_word (w rest : string) :
  text_of Chars.is_word w = true -> stops Space (w +:+ rest) = true.
Proof. intros H. eapply stops_text; [exact H|]. apply is_word_not_space. Qed.

Lemma stops_space_time (t rest : string) :
  valid_time_token t = true -> stops Space (t +:+ rest) = true.
Proof.
  intros (h & m & -> & Hh & _)%valid_time_token_inv.
  rewrite str_app_assoc. by apply stops_space_digits.
Qed.

(** At the head of a text, the general pattern matches a group in the
    layout of the schedule, provided that no word character follows the
    destination. *)
Lemma exec_group_line (route n1 n2 origin t1 t2 destination rest : string) :
  text_of Chars.is_digit route = true ->
  text_of Chars.is_digit n1 = true ->
  text_of Chars.is_digit n2 = true ->
  text_of Chars.is_word origin = true ->
  valid_time_token t1 = true ->
  valid_time_token t2 = true ->
  text_of Chars.is_word destination = true ->
  stops Word rest = true ->
  exec shift_pattern (group_line route n1 n2 origin t1 t2 (destination +:+ rest))
  = Some ([route; n1; n2; origin; t1; t2; destination], rest).
Proof.
  intros Hr H1 H2 Ho Ht1 Ht2 Hd Hrest.
  pose proof (text_of_inv _ _ Hr) as (Sr & Lr & _).
  pose proof (text_of_inv _ _ H1) as (S1 & L1 & _).
  pose proof (text_of_inv _ _ H2) as (S2 & L2 & _).
  pose proof (text_of_inv _ _ Ho) as (So & Lo & _).
  pose proof (text_of_inv _ _ Hd) as (Sd & Ld & _).
  unfold exec, shift_pattern, cat, plus, group_line. cbn [foldr String.append].
  apply rmatch_group_rep; try done.
  apply rmatch_blank; [by apply stops_space_digits|].
  apply rmatch_group_rep; try done.
  apply rmatch_blank; [done|]. rewrite rmatch_one.
  apply rmatch_blank; [by apply stops_space_digits|].
  apply rmatch_group_rep; try done.
  apply rmatch_blank; [by apply stops_space_word|].
  apply rmatch_group_rep; try done.
  apply rmatch_blank; [by apply stops_space_time|].
  apply rmatch_group_time; try done.
  apply rmatch_blank; [by apply stops_space_time|].
  apply rmatch_group_time; try done.
  apply rmatch_blank; [by apply stops_space_word|].
  apply rmatch_group_rep; try done.
Qed.

Lemma finditer_skip (r : regex) (w rest : string) :
  finditer_from r (w +:+ rest) (String.length w) = finditer_from r rest 0.
Proof.
  induction w as [|c w IH]; simpl; [by destruct rest|]. exact IH.
Qed.

Lemma finditer_match (r : regex) (w rest : string) (caps : list string) :
  w ≠ "" ->
  exec r (w +:+ rest) = Some (caps, rest) ->
  finditer r (w +:+ rest) = caps :: finditer r rest.
Proof.
  intros Hw He. destruct w as [|c w]; [done|].
  unfold finditer. change (String c w +:+ rest) with (String c (w +:+ rest)) in *.
  cbn [finditer_from]. rewrite He. f_equal.
  replace (String.length (String c (w +:+ rest)) - String.length rest - 1)%nat
    with (String.length w); [apply finditer_skip|].
  simpl. rewrite str_app_length. lia.
Qed.

Lemma finditer_no_match (r : regex) (c : ascii) (rest : string) :
  exec r (String c rest) = None ->
  finditer r (String c rest) = finditer r rest.
Proof. unfold finditer. cbn [finditer_from]. by intros ->. Qed.

Lemma group_line_app (route n1 n2 origin t1 t2 destination rest : string) :
  group_line route n1 n2 origin t1 t2 destination +:+ rest
  = group_line route n1 n2 origin t1 t2 (destination +:+ rest).
Proof. unfold group_line. by rewrite !str_app_assoc. Qed.

Lemma group_line_nonempty (route n1 n2 origin t1 t2 destination : string) :
  text_of Chars.is_digit route = true ->
  group_line route n1 n2 origin t1 t2 destination ≠ "".
Proof. intros (_ & _ & c & w & -> & _)%text_of_inv. done. Qed.

Lemma caps_of_layout (line : string) (g : layout) :
  shift_of_match line
    [l_route g; l_n1 g; l_n2 g; l_origin g; l_t1 g; l_t2 g; l_destination g]
  = info_of line g.
Proof. done. Qed.

Lemma finditer_layout (gs : list layout) :
  Forall layout_ok gs ->
  finditer shift_pattern (render_all gs)
  = map (λ g, [l_route g; l_n1 g; l_n2 g; l_origin g; l_t1 g; l_t2 g; l_destination g]) gs.
Proof.
  induction 1 as [|g gs (Hr & H1 & H2 & Ho & Ht1 & Ht2 & Hd) Hall IH]; [done|].
  destruct gs as [|g' gs].
  - cbn [render_all map]. unfold render.
    rewrite <- (str_app_nil_r (group_line _ _ _ _ _ _ _)).
    rewrite finditer_match with (caps := [l_route g; l_n1 g; l_n2 g; l_origin g;
                                          l_t1 g; l_t2 g; l_destination g]).
    + done.
    + by apply group_line_nonempty.
    + rewrite group_line_app. by apply exec_group_line.
  - change (render_all (g :: g' :: gs))
      with (render g +:+ " " +:+ render_all (g' :: gs)).
    unfold render at 1.
    rewrite finditer_match with (caps := [l_route g; l_n1 g; l_n2 g; l_origin g;
                                          l_t1 g; l_t2 g; l_destination g]).
    + cbn [String.append]. rewrite finditer_no_match by done.
      by rewrite IH.
    + by apply group_line_nonempty.
    + rewrite group_line_app. by apply exec_group_line.
Qed.

(** X20. A line that consists of groups in the layout of the schedule,
    one blank between them, is read back as those groups, in order and
    with nothing else: each gives its route, its origin, its destination
    and its two times normalised, and carries the whole line. *)
Theorem extract_shifts_info_reads_layout (gs : list layout) :
  Forall layout_ok gs ->
  extract_shifts_info (render_all gs) = map (info_of (render_all gs)) gs.
Proof.
  intros H. unfold extract_shifts_info. rewrite finditer_layout by done.
  by rewrite <- list_fmap_compose.
Qed.

Lemma extract_shifts_info_reads_layout_witness :
  let gs := [ {| l_route := "12"; l_n1 := "1201"; l_n2 := "3"; l_origin := "ABC";
                 l_t1 := "5:25"; l_t2 := "6:40"; l_destination := "DEF" |};
              {| l_route := "7"; l_n1 := "22"; l_n2 := "4"; l_origin := "GHI";
                 l_t1 := "17:00"; l_t2 := "18:15"; l_destination := "JKL" |} ] in
  render_all gs = "12 1201 - 3 ABC 5:25 6:40 DEF 7 22 - 4 GHI 17:00 18:15 JKL"
  ∧ extract_shifts_info (render_all gs) = map (info_of (render_all gs)) gs.
Proof.
  intros gs. split; [reflexivity|].
  apply (extract_shifts_info_reads_layout gs). by repeat constructor.
Defined.

(** ** Reading back a first-shift fragment *)

Lemma rmatch_code {A : Type} (code : string) (R : regex) (rest : string)
    (caps : list string) (k : string -> list string -> option A) (x : A) :
  code ∈ ["BO"; "DP"; "DPO"] ->
  rmatch (Seq (plus Space) R) rest caps k = Some x ->
  rmatch (Seq (alt (lit "BO") [lit "DP"; lit "DPO"]) (Seq (plus Space) R))
         (code +:+ rest) caps k = Some x.
Proof.
  intros Hc HR. simpl in HR.
  apply elem_of_cons in Hc as [->|Hc]; [simpl; by rewrite ?HR|].
  apply elem_of_cons in Hc as [->|Hc]; [simpl; by rewrite ?HR|].
  apply elem_of_cons in Hc as [->|Hc]; [simpl; by rewrite ?HR|].
  by apply elem_of_nil in Hc.
Qed.

Lemma exec_fragment_line (code t1 t2 kind route n1 n2 origin rest : string) :
  code ∈ ["BO"; "DP"; "DPO"] ->
  valid_time_token t1 = true ->
  valid_time_token t2 = true ->
  text_of Chars.is_word kind = true ->
  text_of Chars.is_digit route = true ->
  text_of Chars.is_digit n1 = true ->
  text_of Chars.is_digit n2 = true ->
  text_of Chars.is_word origin = true ->
  stops Word rest = true ->
  exec first_shift_pattern (fragment_line code t1 t2 kind route n1 n2 (origin +:+ rest))
  = Some ([t1; route; origin], rest).
Proof.
  intros Hc Ht1 Ht2 Hk Hr H1 H2 Ho Hrest.
  pose proof (text_of_inv _ _ Hk) as (Sk & Lk & _).
  pose proof (text_of_inv _ _ Hr) as (Sr & Lr & _).
  pose proof (text_of_inv _ _ H1) as (S1 & L1 & _).
  pose proof (text_of_inv _ _ H2) as (S2 & L2 & _).
  pose proof (text_of_inv _ _ Ho) as (So & Lo & _).
  unfold exec, first_shift_pattern, cat, fragment_line.
  cbn [foldr]. apply rmatch_code; [done|].
  unfold plus. cbn [String.append].
  apply rmatch_blank; [by apply stops_space_time|].
  apply rmatch_group_time; try done.
  apply rmatch_blank; [by apply stops_space_time|].
  apply rmatch_time; try done.
  apply rmatch_blank; [by apply stops_space_word|].
  apply rmatch_rep; try done.
  apply rmatch_blank; [by apply stops_space_digits|].
  apply rmatch_group_rep; try done.
  apply rmatch_blank; [by apply stops_space_digits|].
  apply rmatch_rep; try done.
  apply rmatch_blank; [done|]. rewrite rmatch_one.
  apply rmatch_blank; [by apply stops_space_digits|].
  apply rmatch_rep; try done.
  apply rmatch_blank; [by apply stops_space_word|].
  apply rmatch_group_rep; try done.
Qed.

Lemma exec_first_shift_head (c : ascii) (rest : string) :
  Ascii.eqb c "B" = false -> Ascii.eqb c "D" = false ->
  exec first_shift_pattern (String c rest) = None.
Proof.
  intros HB HD. unfold exec, first_shift_pattern, cat, alt, lit.
  cbn [foldr foldl rmatch cls_mem].
  by rewrite (Ascii.eqb_sym "B" c), (Ascii.eqb_sym "D" c), HB, HD.
Qed.

Lemma search_first_shift_skip (pre s : string) :
  no_char "B" pre = true -> no_char "D" pre = true ->
  search first_shift_pattern (pre +:+ s) = search first_shift_pattern s.
Proof.
  unfold no_char. induction pre as [|c pre IH]; [done|]. simpl str_all.
  intros [HB HBs]%andb_true_iff [HD HDs]%andb_true_iff.
  apply negb_true_iff in HB, HD.
  change (String c pre +:+ s) with (String c (pre +:+ s)).
  cbn [search]. rewrite exec_first_shift_head by done. by apply IH.
Qed.

Lemma search_head (r : regex) (s : string) (m : list string * string) :
  exec r s = Some m -> search r s = Some m.
Proof. intros H. destruct s; simpl; by rewrite H. Qed.

(** X21. After a text without "B" and "D", a fragment in the layout of
    the schedule, which begins with one of the codes "BO", "DP" and "DPO"
    and is followed by no word character, is read back by
    [extract_first_shift_time]: its origin and its first time,
    normalised. What follows the fragment does not matter. *)
Theorem extract_first_shift_time_reads_layout
    (pre code t1 t2 kind route n1 n2 origin rest : string) :
  no_char "B" pre = true -> no_char "D" pre = true ->
  code ∈ ["BO"; "DP"; "DPO"] ->
  valid_time_token t1 = true ->
  valid_time_token t2 = true ->
  text_of Chars.is_word kind = true ->
  text_of Chars.is_digit route = true ->
  text_of Chars.is_digit n1 = true ->
  text_of Chars.is_digit n2 = true ->
  text_of Chars.is_word origin = true ->
  stops Word rest = true ->
  extract_first_shift_time
    (pre +:+ fragment_line code t1 t2 kind route n1 n2 (origin +:+ rest))
  = Some {| fs_ldebpce := origin; fs_start_time := parse_time t1 |}.
Proof.
  intros HB HD Hc Ht1 Ht2 Hk Hr H1 H2 Ho Hrest. unfold extract_first_shift_time.
  rewrite search_first_shift_skip by done.
  by rewrite (search_head _ _ _ (exec_fragment_line _ _ _ _ _ _ _ _ _
                                   Hc Ht1 Ht2 Hk Hr H1 H2 Ho Hrest)).
Qed.

Lemma extract_first_shift_time_reads_layout_witness :
  "9387 lu. 02/09/2024 " +:+ fragment_line "DPO" "5:10" "13:45" "Urb" "12" "1201" "3"
                                ("ABC" +:+ " 12 1201 - 3 XYZ 5:25 6:40 DEF")
  = "9387 lu. 02/09/2024 DPO 5:10 13:45 Urb 12 1201 - 3 ABC 12 1201 - 3 XYZ 5:25 6:40 DEF"
  ∧ extract_first_shift_time
      ("9387 lu. 02/09/2024 " +:+ fragment_line "DPO" "5:10" "13:45" "Urb" "12" "1201" "3"
                                    ("ABC" +:+ " 12 1201 - 3 XYZ 5:25 6:40 DEF"))
    = Some {| fs_ldebpce := "ABC"; fs_start_time := parse_time "5:10" |}.
Proof.
  split; [reflexivity|].
  apply (extract_first_shift_time_reads_layout "9387 lu. 02/09/2024 " "DPO" "5:10" "13:45"
           "Urb" "12" "1201" "3" "ABC" " 12 1201 - 3 XYZ 5:25 6:40 DEF");
    try reflexivity.
  by repeat constructor.
Defined.
